(** * Biz-Manager: ledger operations over the document store

    A shallow embedding of the bookkeeping operations of the application:
    [FirestoreManager] (store.js), [CRMManager] (crm.js), [POSManager]
    (pos.js) and [FinanceManager] (finance.js).

    Conventions of the embedding.
    - A JavaScript number is an exact rational ([Q]); numeric results are
      compared with [==].  Binary rounding, NaN and infinities are outside
      the model.
    - An [async] method is a function in the monad [M]: it threads the
      [World] (document store, authentication sessions, POS manager fields)
      and either returns a value or throws.  A throw keeps the world as it
      was at the throw: writes already issued stay in place.
    - The store is reliable: a write is refused only when no user is
      signed in or when the document to update does not exist.  Ids are
      assigned from a counter.
    - Records carry the fields the ledger operations read or write; free
      text, timestamps and rendering data are left out. *)

From Stdlib Require Import QArith Qround Lqa String Bool.
From stdpp Require Import gmap strings list fin_maps pretty.

Open Scope string_scope.

(** ** Numbers *)

Abbreviation number := Q (only parsing).

(** [x < y] and [x <= y] on numbers, as booleans. *)
Definition Qltb (x y : Q) : bool := negb (Qle_bool y x).
Definition Qleb (x y : Q) : bool := Qle_bool x y.

(** [!x] for a number that is present: only 0 is falsy. *)
Definition Qfalsy (x : Q) : bool := Qeq_bool x 0.

(** ** Errors

    Every failure in the source is [throw new Error(message)] or a runtime
    TypeError; [message] gives the text of each. *)

Inductive Error : Type :=
| MissingRequiredField (field : string)
| TransferRequiresToAccountId
| AccountNotFound
| ProductNotFound
| CustomerNotFound
| InsufficientStock
| InsufficientStockAvailable (available : number)
| CreditLimitExceeded
| UserNotAuthenticated
| CartIsEmpty
| CustomerRequiredForCredit
| UnsupportedPaymentMethod (method : string)
| PaymentFailed
| TypeError (what : string)
| StoreError (what : string).

(** Rendering of a number inside a message: an integer as JavaScript
    prints it, any other rational as a fraction. *)
Definition show_number (x : number) : string :=
  match Qred x with
  | Qmake n 1 => pretty n
  | Qmake n d => pretty n ++ "/" ++ pretty (Zpos d)
  end.

Definition message (e : Error) : string :=
  match e with
  | MissingRequiredField f => "Missing required field: " ++ f
  | TransferRequiresToAccountId => "Transfer requires toAccountId"
  | AccountNotFound => "Account not found"
  | ProductNotFound => "Product not found"
  | CustomerNotFound => "Customer not found"
  | InsufficientStock => "Insufficient stock"
  | InsufficientStockAvailable n =>
      "Insufficient stock. Available: " ++ show_number n
  | CreditLimitExceeded => "Credit limit exceeded"
  | UserNotAuthenticated => "User not authenticated"
  | CartIsEmpty => "Cart is empty"
  | CustomerRequiredForCredit => "Customer required for credit payment"
  | UnsupportedPaymentMethod m => "Unsupported payment method: " ++ m
  | PaymentFailed => "Payment failed: undefined"
  | TypeError w => "TypeError: " ++ w
  | StoreError w => w
  end.

(** The taxonomy of the specification (section 7), read off the messages. *)
Inductive ErrorKind : Type :=
| ValidationError
| NotFoundError
| InsufficientStockError
| CreditLimitExceededError
| EmptyCartError
| UnsupportedPaymentMethodError
| OtherError.

Definition kind (e : Error) : ErrorKind :=
  match e with
  | MissingRequiredField _ | TransferRequiresToAccountId
  | CustomerRequiredForCredit => ValidationError
  | AccountNotFound | ProductNotFound | CustomerNotFound => NotFoundError
  | InsufficientStock | InsufficientStockAvailable _ =>
      InsufficientStockError
  | CreditLimitExceeded => CreditLimitExceededError
  | CartIsEmpty => EmptyCartError
  | UnsupportedPaymentMethod _ => UnsupportedPaymentMethodError
  | UserNotAuthenticated | PaymentFailed | TypeError _ | StoreError _ =>
      OtherError
  end.

(** ** Documents *)

Module Account.
Record t : Type := mk
  { name : string; type : string; balance : number;
    currency : string; isDefault : bool }.
Definition with_balance (b : number) (a : t) : t :=
  mk (name a) (type a) b (currency a) (isDefault a).
End Account.

Module Product.
Record t : Type := mk
  { name : string; sku : string; cost : number; price : number;
    stock : number; reorderLevel : number; lowStock : bool;
    unit : string }.
Definition with_stock (s : number) (low : bool) (p : t) : t :=
  mk (name p) (sku p) (cost p) (price p) s (reorderLevel p) low (unit p).
End Product.

Module Customer.
Record t : Type := mk
  { name : string; outstandingBalance : number; creditLimit : number;
    creditUsed : number; totalPurchases : number; totalSpent : number;
    firstPurchase : bool }.
Definition with_credit (b : number) (c : t) : t :=
  mk (name c) b (creditLimit c) b (totalPurchases c) (totalSpent c)
     (firstPurchase c).
Definition with_purchase (n spent used : number) (c : t) : t :=
  mk (name c) (outstandingBalance c) (creditLimit c) used n spent true.
End Customer.

(** The argument of [recordTransaction]: a field that the caller left out
    is [None]. *)
Module TransactionData.
Record t : Type := mk
  { type : option string; amount : option number;
    accountId : option string; category : option string;
    toAccountId : option string; notes : option string }.
End TransactionData.

(** A stored transaction: the four required fields have passed the
    presence check of [recordTransaction]. *)
Module Transaction.
Record t : Type := mk
  { type : string; amount : number; accountId : string;
    category : string; toAccountId : option string;
    status : string; reconciled : bool; notes : string }.
End Transaction.

Module InventoryLog.
Record t : Type := mk
  { productId : string; productName : string; quantityChange : number;
    previousStock : number; newStock : number;
    reason : string; reference : option string; userId : string }.
End InventoryLog.

Module CreditTransaction.
Record t : Type := mk
  { customerId : string; amount : number; type : string;
    previousBalance : number; newBalance : number; userId : string }.
End CreditTransaction.

Module AuditLog.
Record t : Type := mk
  { entity : string; entityId : string; action : string;
    userId : string; userEmail : string }.
End AuditLog.

(** A line of the POS cart. *)
Module CartItem.
Record t : Type := mk
  { productId : string; name : string; sku : string; price : number;
    cost : number; quantity : number; total : number;
    taxAmount : number; stock : number; unit : string }.
End CartItem.

Module Summary.
Record t : Type := mk
  { subtotal : number; tax : number; discount : number; total : number;
    itemCount : number }.
End Summary.

(** The [sales] collection receives the sale record of [createSaleRecord]
    and the purchase record of [CRMManager.recordPurchase]. *)
Module Sale.
Record line : Type := mkLine
  { productId : string; quantity : number; price : number;
    total : number; cost : number }.
Inductive t : Type :=
| Record_ (items : list line) (customerId : option string)
          (summary : Summary.t) (paymentMethod : string)
          (employeeId : string)
| Purchase (customerId : string) (amount : number) (items : nat)
           (paymentMethod : string).
End Sale.

Module Receipt.
Record t : Type := mk
  { saleId : string; items : list CartItem.t; summary : Summary.t;
    cashier : string }.
End Receipt.

(** A stored document of an append-only collection: [addDocument] returns
    [{ id: docRef.id, ...docData }], with [userId] added to the data. *)
Record Doc (D : Type) : Type := mkDoc
  { id : string; userId : string; data : D }.
Arguments mkDoc {D} _ _ _.
Arguments id {D} _.
Arguments userId {D} _.
Arguments data {D} _.

Record User : Type := mkUser
  { uid : string; email : string; displayName : string }.

(** The customer attached to the POS session ([this.currentCustomer]). *)
Record CustomerRef : Type := mkCustomerRef
  { customer_id : string; customer_name : string }.

(** ** The world

    The collections of the document store, the two authentication sessions
    the code consults, and the fields of the POS manager.  The collections
    that are read and patched by id are finite maps; those that only
    receive new documents are lists in insertion order. *)
Record World : Type := mkWorld
  { masterUser : option User;
    defaultUser : option User;
    nextId : nat;
    accounts : gmap string Account.t;
    products : gmap string Product.t;
    customers : gmap string Customer.t;
    transactions : list (Doc Transaction.t);
    inventory_logs : list (Doc InventoryLog.t);
    credit_transactions : list (Doc CreditTransaction.t);
    audit_logs : list (Doc AuditLog.t);
    sales : list (Doc Sale.t);
    receipts : list (Doc Receipt.t);
    cart : list CartItem.t;
    currentCustomer : option CustomerRef;
    taxRate : number }.

Definition with_nextId (n : nat) (w : World) : World :=
  mkWorld (masterUser w) (defaultUser w) n (accounts w) (products w)
    (customers w) (transactions w) (inventory_logs w)
    (credit_transactions w) (audit_logs w) (sales w) (receipts w)
    (cart w) (currentCustomer w) (taxRate w).

Definition with_accounts (m : gmap string Account.t) (w : World) : World :=
  mkWorld (masterUser w) (defaultUser w) (nextId w) m (products w)
    (customers w) (transactions w) (inventory_logs w)
    (credit_transactions w) (audit_logs w) (sales w) (receipts w)
    (cart w) (currentCustomer w) (taxRate w).

Definition with_products (m : gmap string Product.t) (w : World) : World :=
  mkWorld (masterUser w) (defaultUser w) (nextId w) (accounts w) m
    (customers w) (transactions w) (inventory_logs w)
    (credit_transactions w) (audit_logs w) (sales w) (receipts w)
    (cart w) (currentCustomer w) (taxRate w).

Definition with_customers (m : gmap string Customer.t) (w : World) : World :=
  mkWorld (masterUser w) (defaultUser w) (nextId w) (accounts w)
    (products w) m (transactions w) (inventory_logs w)
    (credit_transactions w) (audit_logs w) (sales w) (receipts w)
    (cart w) (currentCustomer w) (taxRate w).

Definition with_transactions (l : list (Doc Transaction.t)) (w : World)
  : World :=
  mkWorld (masterUser w) (defaultUser w) (nextId w) (accounts w)
    (products w) (customers w) l (inventory_logs w)
    (credit_transactions w) (audit_logs w) (sales w) (receipts w)
    (cart w) (currentCustomer w) (taxRate w).

Definition with_inventory_logs (l : list (Doc InventoryLog.t)) (w : World)
  : World :=
  mkWorld (masterUser w) (defaultUser w) (nextId w) (accounts w)
    (products w) (customers w) (transactions w) l
    (credit_transactions w) (audit_logs w) (sales w) (receipts w)
    (cart w) (currentCustomer w) (taxRate w).

Definition with_credit_transactions (l : list (Doc CreditTransaction.t))
  (w : World) : World :=
  mkWorld (masterUser w) (defaultUser w) (nextId w) (accounts w)
    (products w) (customers w) (transactions w) (inventory_logs w)
    l (audit_logs w) (sales w) (receipts w)
    (cart w) (currentCustomer w) (taxRate w).

Definition with_audit_logs (l : list (Doc AuditLog.t)) (w : World) : World :=
  mkWorld (masterUser w) (defaultUser w) (nextId w) (accounts w)
    (products w) (customers w) (transactions w) (inventory_logs w)
    (credit_transactions w) l (sales w) (receipts w)
    (cart w) (currentCustomer w) (taxRate w).

Definition with_sales (l : list (Doc Sale.t)) (w : World) : World :=
  mkWorld (masterUser w) (defaultUser w) (nextId w) (accounts w)
    (products w) (customers w) (transactions w) (inventory_logs w)
    (credit_transactions w) (audit_logs w) l (receipts w)
    (cart w) (currentCustomer w) (taxRate w).

Definition with_receipts (l : list (Doc Receipt.t)) (w : World) : World :=
  mkWorld (masterUser w) (defaultUser w) (nextId w) (accounts w)
    (products w) (customers w) (transactions w) (inventory_logs w)
    (credit_transactions w) (audit_logs w) (sales w) l
    (cart w) (currentCustomer w) (taxRate w).

Definition with_cart (c : list CartItem.t) (w : World) : World :=
  mkWorld (masterUser w) (defaultUser w) (nextId w) (accounts w)
    (products w) (customers w) (transactions w) (inventory_logs w)
    (credit_transactions w) (audit_logs w) (sales w) (receipts w)
    c (currentCustomer w) (taxRate w).

Definition with_currentCustomer (c : option CustomerRef) (w : World)
  : World :=
  mkWorld (masterUser w) (defaultUser w) (nextId w) (accounts w)
    (products w) (customers w) (transactions w) (inventory_logs w)
    (credit_transactions w) (audit_logs w) (sales w) (receipts w)
    (cart w) c (taxRate w).

(** ** The monad of asynchronous methods *)

Inductive result (A : Type) : Type :=
| Ok (a : A)
| Throw (e : Error).
Arguments Ok {A} _.
Arguments Throw {A} _.

Definition M (A : Type) : Type := World -> result A * World.

Definition ret {A} (a : A) : M A := fun w => (Ok a, w).

Definition throw {A} (e : Error) : M A := fun w => (Throw e, w).

Definition bind {A B} (m : M A) (k : A -> M B) : M B :=
  fun w =>
    match m w with
    | (Ok a, w') => k a w'
    | (Throw e, w') => (Throw e, w')
    end.

Notation "'let*' x ':=' m 'in' k" := (bind m (fun x => k))
  (at level 10, x name, m at level 100, k at level 200).

Definition get : M World := fun w => (Ok w, w).

Definition modify (f : World -> World) : M unit := fun w => (Ok tt, f w).

(** [x.p] on a reference that may be [null]. *)
Definition prop_of {A B} (what : string) (o : option A) (p : A -> B) : M B :=
  match o with
  | Some a => ret (p a)
  | None => throw (TypeError what)
  end.

(** ** FirestoreManager: generic operations

    The store is taken to answer every request: a read returns what is
    stored, and a write of a signed-in user is applied, except the update
    of a document that does not exist.  A request that the store itself
    rejects (and that the source rethrows) is not modelled, so what is
    stated about a call that throws is stated for the errors that the
    code raises itself. *)

(** A collection patched by id, and an append-only collection. *)
Record Table (D : Type) : Type := mkTable
  { docs : World -> gmap string D;
    set_docs : gmap string D -> World -> World }.
Arguments docs {D} _ _.
Arguments set_docs {D} _ _ _.

Record Log (D : Type) : Type := mkLog
  { entries : World -> list (Doc D);
    set_entries : list (Doc D) -> World -> World }.
Arguments entries {D} _ _.
Arguments set_entries {D} _ _ _.

Definition Accounts : Table Account.t := mkTable _ accounts with_accounts.
Definition Products : Table Product.t := mkTable _ products with_products.
Definition Customers : Table Customer.t :=
  mkTable _ customers with_customers.
Definition Transactions : Log Transaction.t :=
  mkLog _ transactions with_transactions.
Definition InventoryLogs : Log InventoryLog.t :=
  mkLog _ inventory_logs with_inventory_logs.
Definition CreditTransactions : Log CreditTransaction.t :=
  mkLog _ credit_transactions with_credit_transactions.
Definition AuditLogs : Log AuditLog.t := mkLog _ audit_logs with_audit_logs.
Definition Sales : Log Sale.t := mkLog _ sales with_sales.
Definition Receipts : Log Receipt.t := mkLog _ receipts with_receipts.

(** The id the store assigns to the [n]-th document it creates. *)
Definition autoId (n : nat) : string := "doc-" ++ pretty n.

(** [firebase.auth(authManager.masterApp).currentUser] *)
Definition masterCurrentUser : M (option User) :=
  fun w => (Ok (masterUser w), w).

(** [firebase.auth().currentUser] *)
Definition defaultCurrentUser : M (option User) :=
  fun w => (Ok (defaultUser w), w).

Definition addDocument {D} (collection : Log D) (data : D) : M (Doc D) :=
  let* user := masterCurrentUser in
  match user with
  | None => throw UserNotAuthenticated
  | Some user =>
      fun w =>
        let doc := mkDoc (autoId (nextId w)) (uid user) data in
        (Ok doc,
         set_entries collection (entries collection w ++ [doc])
           (with_nextId (S (nextId w)) w))
  end.

(** [docRef.update] rejects when the document does not exist. *)
Definition updateDocument {D} (collection : Table D) (id : string)
    (patch : D -> D) : M unit :=
  let* user := masterCurrentUser in
  match user with
  | None => throw UserNotAuthenticated
  | Some _ =>
      fun w =>
        match docs collection w !! id with
        | Some d =>
            (Ok tt,
             set_docs collection (<[id := patch d]> (docs collection w)) w)
        | None => (Throw (StoreError "No document to update"), w)
        end
  end.

Definition getDocument {D} (collection : Table D) (id : string)
  : M (option D) :=
  fun w => (Ok (docs collection w !! id), w).

(** The documents come in the order of the store. *)
Definition getDocuments {D} (collection : Table D) : M (list (string * D)) :=
  fun w => (Ok (map_to_list (docs collection w)), w).

(** ** FirestoreManager: stock *)

Definition updateStock (productId : string) (quantityChange : number)
    (reason : string) (reference : option string) : M number :=
  let* product := getDocument Products productId in
  match product with
  | None => throw ProductNotFound
  | Some product =>
      let newStock := (Product.stock product + quantityChange)%Q in
      if Qltb newStock 0 then throw InsufficientStock
      else
        let* _ := updateDocument Products productId
                    (Product.with_stock newStock
                       (Qleb newStock (Product.reorderLevel product))) in
        let* user := masterCurrentUser in
        let* userId := prop_of "currentUser.uid" user uid in
        let* _ := addDocument InventoryLogs
                    (InventoryLog.mk productId (Product.name product)
                       quantityChange (Product.stock product) newStock
                       reason reference userId) in
        ret newStock
  end.

(** ** FirestoreManager: financial operations *)

(** [!x] is false exactly for a present, non-empty string or a present,
    non-zero number. *)
Definition truthy_string (o : option string) : bool :=
  match o with
  | Some s => negb (String.eqb s "")
  | None => false
  end.

Definition truthy_number (o : option number) : bool :=
  match o with
  | Some x => negb (Qfalsy x)
  | None => false
  end.

(** [transactionData[field]] is truthy. *)
Definition truthy_field (transactionData : TransactionData.t)
    (field : string) : bool :=
  if String.eqb field "type" then
    truthy_string (TransactionData.type transactionData)
  else if String.eqb field "amount" then
    truthy_number (TransactionData.amount transactionData)
  else if String.eqb field "accountId" then
    truthy_string (TransactionData.accountId transactionData)
  else if String.eqb field "category" then
    truthy_string (TransactionData.category transactionData)
  else if String.eqb field "toAccountId" then
    truthy_string (TransactionData.toAccountId transactionData)
  else if String.eqb field "notes" then
    truthy_string (TransactionData.notes transactionData)
  else false.

Fixpoint forEach {A} (l : list A) (f : A -> M unit) : M unit :=
  match l with
  | [] => ret tt
  | x :: rest => let* _ := f x in forEach rest f
  end.

Definition required : list string :=
  ["type"; "amount"; "accountId"; "category"].

Definition auditLog (entity entityId action : string)
  : M (Doc AuditLog.t) :=
  let* user := masterCurrentUser in
  let* userId := prop_of "user.uid" user uid in
  let* userEmail := prop_of "user.email" user email in
  addDocument AuditLogs (AuditLog.mk entity entityId action userId userEmail).

Definition updateAccountBalance (accountId : string) (amountChange : number)
  : M number :=
  let* account := getDocument Accounts accountId in
  match account with
  | None => throw AccountNotFound
  | Some account =>
      let newBalance := (Account.balance account + amountChange)%Q in
      let* _ := updateDocument Accounts accountId
                  (Account.with_balance newBalance) in
      ret newBalance
  end.

Definition recordTransaction (transactionData : TransactionData.t)
  : M (Doc Transaction.t) :=
  let* _ := forEach required (fun field =>
              if truthy_field transactionData field then ret tt
              else throw (MissingRequiredField field)) in
  let transaction :=
    Transaction.mk
      (default "" (TransactionData.type transactionData))
      (default 0%Q (TransactionData.amount transactionData))
      (default "" (TransactionData.accountId transactionData))
      (default "" (TransactionData.category transactionData))
      (TransactionData.toAccountId transactionData)
      "completed" false
      (default "" (TransactionData.notes transactionData)) in
  let* _ :=
    if String.eqb (Transaction.type transaction) "income" then
      let* _ := updateAccountBalance (Transaction.accountId transaction)
                  (Transaction.amount transaction) in
      ret tt
    else if String.eqb (Transaction.type transaction) "expense" then
      let* _ := updateAccountBalance (Transaction.accountId transaction)
                  (- Transaction.amount transaction)%Q in
      ret tt
    else if String.eqb (Transaction.type transaction) "transfer" then
      if truthy_string (TransactionData.toAccountId transactionData) then
        let* _ := updateAccountBalance (Transaction.accountId transaction)
                    (- Transaction.amount transaction)%Q in
        let* _ := updateAccountBalance
                    (default "" (TransactionData.toAccountId transactionData))
                    (Transaction.amount transaction) in
        ret tt
      else throw TransferRequiresToAccountId
    else ret tt in
  let* result := addDocument Transactions transaction in
  let* _ := auditLog "transaction" (id result) "create" in
  ret result.

(** ** CRMManager: credit *)

Definition updateCustomerCredit (customerId : string) (amount : number)
    (type : string) : M number :=
  let* customer := getDocument Customers customerId in
  match customer with
  | None => throw CustomerNotFound
  | Some customer =>
      let newBalance := Customer.outstandingBalance customer in
      let newBalance :=
        if String.eqb type "increase" then (newBalance + amount)%Q
        else if String.eqb type "decrease" then
          let newBalance := (newBalance - amount)%Q in
          if Qltb newBalance 0 then 0%Q else newBalance
        else if String.eqb type "payment" then
          let newBalance := (newBalance - amount)%Q in
          if Qltb newBalance 0 then 0%Q else newBalance
        else newBalance in
      if Qltb (Customer.creditLimit customer) newBalance
         && Qltb 0 (Customer.creditLimit customer)
      then throw CreditLimitExceeded
      else
        let* _ := updateDocument Customers customerId
                    (Customer.with_credit newBalance) in
        let* user := defaultCurrentUser in
        let* userId := prop_of "currentUser.uid" user uid in
        let* _ := addDocument CreditTransactions
                    (CreditTransaction.mk customerId amount type
                       (Customer.outstandingBalance customer) newBalance
                       userId) in
        ret newBalance
  end.

(** ** FinanceManager: profit and loss *)

Module PnL.
Record t : Type := mk
  { revenue : number; cogs : number; grossProfit : number;
    operatingExpenses : number; netProfit : number;
    details_revenue : gmap string number;
    details_expenses : gmap string number }.
End PnL.

(** [if (!details[c]) details[c] = 0; details[c] += amount], for a
    category [c] that is not the name of a member of [Object.prototype]
    (for such a name the plain object [details] reads the inherited
    member first). *)
Definition add_detail (category : string) (amount : number)
    (details : gmap string number) : gmap string number :=
  let current :=
    match details !! category with
    | Some x => if Qfalsy x then 0%Q else x
    | None => 0%Q
    end in
  <[category := (current + amount)%Q]> details.

(** The body of the [forEach] of [getProfitAndLoss]. *)
Definition pnl_step (pnl : PnL.t) (transaction : Transaction.t) : PnL.t :=
  if String.eqb (Transaction.type transaction) "income" then
    let revenue := (PnL.revenue pnl + Transaction.amount transaction)%Q in
    let details :=
      add_detail (Transaction.category transaction)
        (Transaction.amount transaction) (PnL.details_revenue pnl) in
    let cogs :=
      if String.eqb (Transaction.category transaction) "Cost of Goods"
      then (PnL.cogs pnl + Transaction.amount transaction)%Q
      else PnL.cogs pnl in
    PnL.mk revenue cogs (PnL.grossProfit pnl) (PnL.operatingExpenses pnl)
      (PnL.netProfit pnl) details (PnL.details_expenses pnl)
  else if String.eqb (Transaction.type transaction) "expense" then
    PnL.mk (PnL.revenue pnl) (PnL.cogs pnl) (PnL.grossProfit pnl)
      (PnL.operatingExpenses pnl + Transaction.amount transaction)%Q
      (PnL.netProfit pnl) (PnL.details_revenue pnl)
      (add_detail (Transaction.category transaction)
         (Transaction.amount transaction) (PnL.details_expenses pnl))
  else pnl.

(** [getProfitAndLoss] on the transactions that
    [loadTransactions(startDate, endDate)] returned. *)
Definition getProfitAndLoss (transactions : list Transaction.t) : PnL.t :=
  let pnl := fold_left pnl_step transactions
               (PnL.mk 0 0 0 0 0 ∅ ∅) in
  let grossProfit := (PnL.revenue pnl - PnL.cogs pnl)%Q in
  let netProfit := (grossProfit - PnL.operatingExpenses pnl)%Q in
  PnL.mk (PnL.revenue pnl) (PnL.cogs pnl) grossProfit
    (PnL.operatingExpenses pnl) netProfit
    (PnL.details_revenue pnl) (PnL.details_expenses pnl).

(** ** POSManager: cart and tax *)

(** [parseFloat(x.toFixed(2))]: the nearest multiple of 1/100, a tie
    going to the larger magnitude. *)
Definition toFixed2 (x : number) : number :=
  if Qltb x 0
  then (- (inject_Z (Qfloor (- x * 100 + (1 # 2))) / 100))%Q
  else (inject_Z (Qfloor (x * 100 + (1 # 2))) / 100)%Q.

Module Tax.
Record t : Type := mk
  { netAmount : number; taxAmount : number; grossAmount : number }.
End Tax.

Definition calculateTax (amount rate : number) (isInclusive : bool)
  : Tax.t :=
  if isInclusive then
    let taxAmount := (amount - amount / (1 + rate / 100))%Q in
    let netAmount := (amount - taxAmount)%Q in
    Tax.mk (toFixed2 netAmount) (toFixed2 taxAmount) (toFixed2 amount)
  else
    let taxAmount := (amount * (rate / 100))%Q in
    let grossAmount := (amount + taxAmount)%Q in
    Tax.mk (toFixed2 amount) (toFixed2 taxAmount) (toFixed2 grossAmount).

(** [this.cart.find(item => item.productId === productId)], and the
    in-place change of the line it returns. *)
Definition in_cart (productId : string) (cart : list CartItem.t)
  : option CartItem.t :=
  List.find (fun item => String.eqb (CartItem.productId item) productId) cart.

Fixpoint change_first (productId : string) (f : CartItem.t -> CartItem.t)
    (cart : list CartItem.t) : list CartItem.t :=
  match cart with
  | [] => []
  | item :: rest =>
      if String.eqb (CartItem.productId item) productId
      then f item :: rest
      else item :: change_first productId f rest
  end.

Definition add_quantity (quantity : number) (item : CartItem.t)
  : CartItem.t :=
  let quantity' := (CartItem.quantity item + quantity)%Q in
  CartItem.mk (CartItem.productId item) (CartItem.name item)
    (CartItem.sku item) (CartItem.price item) (CartItem.cost item)
    quantity' (quantity' * CartItem.price item)%Q
    (CartItem.taxAmount item) (CartItem.stock item) (CartItem.unit item).

Definition summary_step (summary : Summary.t) (item : CartItem.t)
  : Summary.t :=
  Summary.mk
    (Summary.subtotal summary + CartItem.total item)%Q
    (Summary.tax summary
     + (if Qfalsy (CartItem.taxAmount item) then 0
        else CartItem.taxAmount item))%Q
    (Summary.discount summary)
    (Summary.total summary)
    (Summary.itemCount summary + CartItem.quantity item)%Q.

Definition cartSummary (cart : list CartItem.t) : Summary.t :=
  let summary := fold_left summary_step cart (Summary.mk 0 0 0 0 0) in
  Summary.mk (Summary.subtotal summary) (Summary.tax summary)
    (Summary.discount summary)
    (Summary.subtotal summary + Summary.tax summary
     - Summary.discount summary)%Q
    (Summary.itemCount summary).

Definition updateCartSummary : M Summary.t :=
  fun w => (Ok (cartSummary (cart w)), w).

Definition addToCart (productId : string) (quantity : number)
  : M (list CartItem.t) :=
  let* product := getDocument Products productId in
  match product with
  | None => throw ProductNotFound
  | Some product =>
      if Qltb (Product.stock product) quantity
      then throw (InsufficientStockAvailable (Product.stock product))
      else
        let* w := get in
        let* _ :=
          match in_cart productId (cart w) with
          | Some _ =>
              modify (with_cart
                        (change_first productId (add_quantity quantity)
                           (cart w)))
          | None =>
              modify (with_cart
                (cart w ++
                 [CartItem.mk productId (Product.name product)
                    (Product.sku product) (Product.price product)
                    (Product.cost product) quantity
                    (Product.price product * quantity)%Q
                    (Tax.taxAmount
                       (calculateTax (Product.price product * quantity)%Q
                          (taxRate w) false))
                    (Product.stock product) (Product.unit product)]))
          end in
        let* _ := updateCartSummary in
        let* w := get in
        ret (cart w)
  end.

Definition clearCart : M unit :=
  let* _ := modify (with_cart []) in
  let* _ := modify (with_currentCustomer None) in
  let* _ := updateCartSummary in
  ret tt.

(** ** POSManager: checkout *)

Module PaymentData.
Record t : Type := mk
  { method : string; cashTendered : option number }.
End PaymentData.

Module Payment.
Record t : Type := mk
  { amount : number; method : string; status : string;
    cashTendered : option number; change : option number;
    success : bool }.
End Payment.

Module Checkout.
Record t : Type := mk
  { sale : Doc Sale.t; receipt : Receipt.t; payment : Payment.t }.
End Checkout.

Fixpoint toLowerCase (s : string) : string :=
  match s with
  | EmptyString => EmptyString
  | String c rest =>
      let n := Ascii.nat_of_ascii c in
      String (if (65 <=? n)%nat && (n <=? 90)%nat
              then Ascii.ascii_of_nat (n + 32) else c)
        (toLowerCase rest)
  end.

Fixpoint includes (needle s : string) : bool :=
  String.prefix needle s ||
  match s with
  | EmptyString => false
  | String _ rest => includes needle rest
  end.

Definition getPaymentAccount (paymentMethod : string) : M (option string) :=
  let* accounts := getDocuments Accounts in
  let first := fst <$> head accounts in
  let named (word : string) :=
    match List.find (fun a => includes word (toLowerCase (Account.name a.2))
                              && Account.isDefault a.2) accounts with
    | Some a => Some a.1
    | None => first
    end in
  if String.eqb paymentMethod "Cash" then ret (named "cash")
  else if String.eqb paymentMethod "Card"
          || String.eqb paymentMethod "Bank Transfer"
  then ret (named "bank")
  else if String.eqb paymentMethod "Mobile Money" then ret (named "mobile")
  else ret first.

(** [financeManager.recordTransaction(...)]: the class [FinanceManager]
    declares no method of that name, so the call, made after its argument
    has been evaluated, throws a TypeError. *)
Definition financeManager_recordTransaction
    (transactionData : TransactionData.t) : M (Doc Transaction.t) :=
  throw (TypeError "financeManager.recordTransaction is not a function").

Definition processPayment (amount : number) (paymentData : PaymentData.t)
  : M Payment.t :=
  let method := PaymentData.method paymentData in
  let pending := Payment.mk amount method "pending" None None false in
  let completed := Payment.mk amount method "completed" None None false in
  let* payment :=
    if String.eqb method "Cash" then
      let cashTendered :=
        if truthy_number (PaymentData.cashTendered paymentData)
        then default 0%Q (PaymentData.cashTendered paymentData)
        else amount in
      ret (Payment.mk amount method "completed" (Some cashTendered)
             (Some (cashTendered - amount)%Q) false)
    else if String.eqb method "Card" then ret completed
    else if String.eqb method "Mobile Money" then ret completed
    else if String.eqb method "Credit" then
      let* w := get in
      match currentCustomer w with
      | None => throw CustomerRequiredForCredit
      | Some customer =>
          let* _ := updateCustomerCredit (customer_id customer) amount
                      "increase" in
          ret completed
      end
    else throw (UnsupportedPaymentMethod method) in
  let* _ :=
    if String.eqb (Payment.status payment) "completed" then
      let* accountId := getPaymentAccount method in
      let* _ := financeManager_recordTransaction
                  (TransactionData.mk (Some "income") (Some amount)
                     accountId (Some "Sales") None None) in
      ret tt
    else ret tt in
  ret (Payment.mk (Payment.amount payment) (Payment.method payment)
         (Payment.status payment) (Payment.cashTendered payment)
         (Payment.change payment)
         (String.eqb (Payment.status payment) "completed")).

Definition createSaleRecord (payment : Payment.t) : M (Doc Sale.t) :=
  let* summary := updateCartSummary in
  let* w := get in
  let* user := defaultCurrentUser in
  let* employeeId := prop_of "currentUser.uid" user uid in
  let sale :=
    Sale.Record_
      (List.map (fun item =>
         Sale.mkLine (CartItem.productId item) (CartItem.quantity item)
           (CartItem.price item) (CartItem.total item) (CartItem.cost item))
         (cart w))
      (customer_id <$> currentCustomer w)
      summary (Payment.method payment) employeeId in
  let* result := addDocument Sales sale in
  let* _ := auditLog "sale" (id result) "create" in
  ret result.

Definition updateInventory : M unit :=
  let* w := get in
  forEach (cart w) (fun item =>
    let* _ := updateStock (CartItem.productId item)
                (- CartItem.quantity item)%Q "sale" (Some "POS Sale") in
    ret tt).

Definition updateCustomerPurchaseStats (customerId : string)
    (amount : number) : M unit :=
  let* customer := getDocument Customers customerId in
  match customer with
  | None => ret tt
  | Some customer =>
      updateDocument Customers customerId
        (Customer.with_purchase
           (Customer.totalPurchases customer + 1)%Q
           (Customer.totalSpent customer + amount)%Q
           (Customer.outstandingBalance customer))
  end.

Definition recordPurchase (customerId : string) (amount : number)
    (items : nat) (paymentMethod : string) : M (Doc Sale.t) :=
  let* result := addDocument Sales
                   (Sale.Purchase customerId amount items
                      (if String.eqb paymentMethod "" then "cash"
                       else paymentMethod)) in
  let* _ := updateCustomerPurchaseStats customerId amount in
  ret result.

Definition updateCustomerAfterPurchase (payment : Payment.t) : M unit :=
  let* w := get in
  match currentCustomer w with
  | None => ret tt
  | Some customer =>
      let* summary := updateCartSummary in
      let* _ := recordPurchase (customer_id customer)
                  (Summary.total summary) (length (cart w))
                  (Payment.method payment) in
      ret tt
  end.

Definition generateReceipt (sale : Doc Sale.t) (payment : Payment.t)
  : M Receipt.t :=
  let* user := defaultCurrentUser in
  let* _ := prop_of "user.displayName" user displayName in
  let* w := get in
  let* summary := updateCartSummary in
  let* user := defaultCurrentUser in
  let* name := prop_of "currentUser.displayName" user displayName in
  let receipt :=
    Receipt.mk (id sale) (cart w) summary
      (if String.eqb name "" then "System" else name) in
  let* _ := addDocument Receipts receipt in
  ret receipt.

(** Steps of [processCheckout] after the payment has been validated. *)
Definition checkout_steps (summary : Summary.t)
    (paymentData : PaymentData.t) : M Checkout.t :=
  let* paymentResult := processPayment (Summary.total summary) paymentData in
  if negb (Payment.success paymentResult) then throw PaymentFailed
  else
    let* sale := createSaleRecord paymentResult in
    let* _ := updateInventory in
    let* w := get in
    let* _ := match currentCustomer w with
              | Some _ => updateCustomerAfterPurchase paymentResult
              | None => ret tt
              end in
    let* receipt := generateReceipt sale paymentResult in
    let* _ := clearCart in
    ret (Checkout.mk sale receipt paymentResult).

Definition processCheckout (paymentData : PaymentData.t) : M Checkout.t :=
  let* w := get in
  if (length (cart w) =? 0)%nat then throw CartIsEmpty
  else
    let* summary := updateCartSummary in
    let* _ :=
      match currentCustomer w with
      | Some current =>
          if String.eqb (PaymentData.method paymentData) "Credit" then
            let* customer := getDocument Customers (customer_id current) in
            let* creditLimit :=
              prop_of "customer.creditLimit" customer Customer.creditLimit in
            let* creditUsed :=
              prop_of "customer.creditUsed" customer Customer.creditUsed in
            let availableCredit := (creditLimit - creditUsed)%Q in
            if Qltb availableCredit (Summary.total summary)
            then throw CreditLimitExceeded
            else ret tt
          else ret tt
      | None => ret tt
      end in
    checkout_steps summary paymentData.

(** * Definitions for the statements

    The worlds that the operations leave behind, sequences of calls, the
    figures of the profit-and-loss report as the specification words
    them, and the small worlds of the scenarios. *)

(** ** Stock *)

(** The world after a successful [updateStock]. *)
Definition stock_written (productId : string) (quantityChange : number)
    (reason : string) (reference : option string)
    (product : Product.t) (user : User) (w : World) : World :=
  let newStock := (Product.stock product + quantityChange)%Q in
  with_inventory_logs
    (inventory_logs w ++
     [mkDoc (autoId (nextId w)) (uid user)
        (InventoryLog.mk productId (Product.name product) quantityChange
           (Product.stock product) newStock reason reference (uid user))])
    (with_nextId (S (nextId w))
       (with_products
          (<[productId :=
               Product.with_stock newStock
                 (Qleb newStock (Product.reorderLevel product)) product]>
             (products w))
          w)).

(** A sequence of [updateStock] calls on one product.  Each call is
    awaited by its caller before the next is issued; a call that throws
    does not stop the callers that follow. *)
Module StockCall.
Record t : Type := mk
  { quantityChange : number; reason : string; reference : option string }.
End StockCall.

Module Step.
Record t : Type := mk
  { call : StockCall.t; before : World; outcome : result number;
    after : World }.
End Step.

Fixpoint updateStock_trace (productId : string) (calls : list StockCall.t)
    (w : World) : list Step.t :=
  match calls with
  | [] => []
  | call :: rest =>
      let rw := updateStock productId (StockCall.quantityChange call)
                  (StockCall.reason call) (StockCall.reference call) w in
      Step.mk call w rw.1 rw.2 :: updateStock_trace productId rest rw.2
  end.

Fixpoint final (w : World) (trace : list Step.t) : World :=
  match trace with
  | [] => w
  | step :: rest => final (Step.after step) rest
  end.

Definition succeeded {A} (r : result A) : bool :=
  match r with
  | Ok _ => true
  | Throw _ => false
  end.

(** Sum of the quantity changes of the calls that succeeded. *)
Fixpoint applied (trace : list Step.t) : number :=
  match trace with
  | [] => 0%Q
  | step :: rest =>
      ((if succeeded (Step.outcome step)
        then StockCall.quantityChange (Step.call step) else 0)
       + applied rest)%Q
  end.


(** A shop with one signed-in user and one product, of the given stock
    and reorder level 5. *)
Definition owner : User := mkUser "u1" "owner@example.com" "Owner".

Definition empty_world : World :=
  mkWorld (Some owner) (Some owner) 0 ∅ ∅ ∅ [] [] [] [] [] [] [] None 16.

Definition widget (stock : number) : Product.t :=
  Product.mk "Widget" "W-1" 6 10 stock 5 false "pcs".

Definition shop (stock : number) : World :=
  with_products (<["p1" := widget stock]> ∅) empty_world.

Definition sale_of (quantity : number) : StockCall.t :=
  StockCall.mk (- quantity) "sale" None.

Definition restock_of (quantity : number) : StockCall.t :=
  StockCall.mk quantity "return" None.

(** ** Transactions *)

(** The presence check at the head of [recordTransaction]. *)
Definition check_required (transactionData : TransactionData.t) : M unit :=
  forEach required (fun field =>
    if truthy_field transactionData field then ret tt
    else throw (MissingRequiredField field)).

(** The first required field that is falsy, if any. *)
Definition missing (transactionData : TransactionData.t) : option string :=
  List.find (fun field => negb (truthy_field transactionData field)) required.

(** The record that [recordTransaction] stores. *)
Definition transaction_of (transactionData : TransactionData.t)
  : Transaction.t :=
  Transaction.mk
    (default "" (TransactionData.type transactionData))
    (default 0%Q (TransactionData.amount transactionData))
    (default "" (TransactionData.accountId transactionData))
    (default "" (TransactionData.category transactionData))
    (TransactionData.toAccountId transactionData)
    "completed" false
    (default "" (TransactionData.notes transactionData)).

Definition transaction_doc (transactionData : TransactionData.t)
    (user : User) (w : World) : Doc Transaction.t :=
  mkDoc (autoId (nextId w)) (uid user) (transaction_of transactionData).

(** The world after the transaction and its audit entry are stored. *)
Definition record_written (transactionData : TransactionData.t)
    (user : User) (w : World) : World :=
  let doc := transaction_doc transactionData user w in
  with_audit_logs
    (audit_logs w ++
     [mkDoc (autoId (S (nextId w))) (uid user)
        (AuditLog.mk "transaction" (id doc) "create" (uid user)
           (email user))])
    (with_nextId (S (S (nextId w)))
       (with_transactions (transactions w ++ [doc])
          (with_nextId (S (nextId w)) w))).

(** The world after [updateAccountBalance]. *)
Definition balance_written (accountId : string) (amountChange : number)
    (account : Account.t) (w : World) : World :=
  with_accounts
    (<[accountId :=
         Account.with_balance (Account.balance account + amountChange)%Q
           account]> (accounts w))
    w.

(** The balance updates of [recordTransaction], by type. *)
Definition movement (transactionData : TransactionData.t) : M unit :=
  let transaction := transaction_of transactionData in
  if String.eqb (Transaction.type transaction) "income" then
    let* _ := updateAccountBalance (Transaction.accountId transaction)
                (Transaction.amount transaction) in
    ret tt
  else if String.eqb (Transaction.type transaction) "expense" then
    let* _ := updateAccountBalance (Transaction.accountId transaction)
                (- Transaction.amount transaction)%Q in
    ret tt
  else if String.eqb (Transaction.type transaction) "transfer" then
    if truthy_string (TransactionData.toAccountId transactionData) then
      let* _ := updateAccountBalance (Transaction.accountId transaction)
                  (- Transaction.amount transaction)%Q in
      let* _ := updateAccountBalance
                  (default "" (TransactionData.toAccountId transactionData))
                  (Transaction.amount transaction) in
      ret tt
    else throw TransferRequiresToAccountId
  else ret tt.

(** Two accounts, A with balance 100 and B with balance 0. *)
Definition account (name : string) (balance : number) : Account.t :=
  Account.mk name "asset" balance "USD" false.

Definition bank : World :=
  with_accounts
    (<["A" := account "Account A" 100]>
       (<["B" := account "Account B" 0]> ∅))
    empty_world.

Definition transfer_to (toAccountId : string) : TransactionData.t :=
  TransactionData.mk (Some "transfer") (Some 50%Q) (Some "A")
    (Some "Account Transfer") (Some toAccountId) None.

(** ** Customer credit *)

(** The balance [updateCustomerCredit] computes before the limit check. *)
Definition adjusted_balance (customer : Customer.t) (amount : number)
    (type : string) : number :=
  let newBalance := Customer.outstandingBalance customer in
  if String.eqb type "increase" then (newBalance + amount)%Q
  else if String.eqb type "decrease" then
    let newBalance := (newBalance - amount)%Q in
    if Qltb newBalance 0 then 0%Q else newBalance
  else if String.eqb type "payment" then
    let newBalance := (newBalance - amount)%Q in
    if Qltb newBalance 0 then 0%Q else newBalance
  else newBalance.

Definition over_limit (customer : Customer.t) (newBalance : number) : bool :=
  Qltb (Customer.creditLimit customer) newBalance
  && Qltb 0 (Customer.creditLimit customer).

(** The worlds after the update of the customer and after the audit
    record. *)
Definition credit_persisted (customerId : string) (newBalance : number)
    (customer : Customer.t) (w : World) : World :=
  with_customers
    (<[customerId := Customer.with_credit newBalance customer]>
       (customers w))
    w.

Definition credit_written (customerId : string) (amount : number)
    (type : string) (customer : Customer.t) (user sessionUser : User)
    (w : World) : World :=
  let newBalance := adjusted_balance customer amount type in
  with_credit_transactions
    (credit_transactions w ++
     [mkDoc (autoId (nextId w)) (uid user)
        (CreditTransaction.mk customerId amount type
           (Customer.outstandingBalance customer) newBalance
           (uid sessionUser))])
    (with_nextId (S (nextId w))
       (credit_persisted customerId newBalance customer w)).

(** Customer c1 with 90 outstanding under a limit of 100, and customer c2
    with 10 outstanding and no limit. *)
Definition customer (outstanding limit : number) : Customer.t :=
  Customer.mk "Customer" outstanding limit outstanding 0 0 false.

Definition ledger : World :=
  with_customers
    (<["c1" := customer 90 100]> (<["c2" := customer 10 0]> ∅))
    empty_world.

(** ** Profit and loss *)

(** Sum of the amounts of the transactions that satisfy [keep]. *)
Fixpoint total_where (keep : Transaction.t -> bool)
    (transactions : list Transaction.t) : number :=
  match transactions with
  | [] => 0%Q
  | transaction :: rest =>
      ((if keep transaction then Transaction.amount transaction else 0)
       + total_where keep rest)%Q
  end.

Definition is_income (transaction : Transaction.t) : bool :=
  String.eqb (Transaction.type transaction) "income".

Definition is_expense (transaction : Transaction.t) : bool :=
  String.eqb (Transaction.type transaction) "expense".

Definition is_cogs (transaction : Transaction.t) : bool :=
  String.eqb (Transaction.category transaction) "Cost of Goods".

(** The figures as the specification words them (section 4.6): gross
    profit is the income minus the amounts of category "Cost of Goods",
    net profit is the gross profit minus the expenses. *)
Definition spec_grossProfit (transactions : list Transaction.t) : number :=
  (total_where is_income transactions
   - total_where is_cogs transactions)%Q.

Definition spec_netProfit (transactions : list Transaction.t) : number :=
  (spec_grossProfit transactions
   - total_where is_expense transactions)%Q.

(** A purchase of goods, booked as the category table of
    [FinanceManager] has it: an expense of category "Cost of Goods". *)
Definition goods_purchase : Transaction.t :=
  Transaction.mk "expense" 10 "A" "Cost of Goods" None "completed" false "".

(** ** Checkout

    A till with customer c1 (credit limit 100, credit used 90) attached,
    and a cart of one gadget: 17.24 plus 2.76 of tax, 20 in total. *)
Definition gadget : Product.t :=
  Product.mk "Gadget" "G-1" 9 17.24 8 2 false "pcs".

Definition till : World :=
  with_currentCustomer (Some (mkCustomerRef "c1" "Customer"))
    (with_products (<["p2" := gadget]> ∅) ledger).

Definition till_with_cart : World := (addToCart "p2" 1 till).2.

(** * Further operations

    The other operations of the four managers that work on the same
    balances, stocks and carts. *)

(** ** FirestoreManager: products and customers *)

(** [addDocument] on a collection that is read by id: the new document
    goes under the id the store assigns. *)
Definition addDocumentTo {D} (collection : Table D) (data : D)
  : M (string * D) :=
  let* user := masterCurrentUser in
  match user with
  | None => throw UserNotAuthenticated
  | Some _ =>
      fun w =>
        let id := autoId (nextId w) in
        (Ok (id, data),
         set_docs collection (<[id := data]> (docs collection w))
           (with_nextId (S (nextId w)) w))
  end.

(** The argument of [addProduct]. *)
Module ProductData.
Record t : Type := mk
  { name : option string; sku : option string; cost : option number;
    price : option number; stock : option number;
    reorderLevel : option number; unit : option string }.
End ProductData.

(** [!productData[field] && productData[field] !== 0]: the field is
    absent or an empty string; the number 0 is not missing. *)
Definition missing_product_field (productData : ProductData.t)
    (field : string) : bool :=
  let absent {A} (o : option A) :=
    match o with Some _ => false | None => true end in
  if String.eqb field "name" then
    negb (truthy_string (ProductData.name productData))
  else if String.eqb field "sku" then
    negb (truthy_string (ProductData.sku productData))
  else if String.eqb field "cost" then absent (ProductData.cost productData)
  else if String.eqb field "price" then absent (ProductData.price productData)
  else if String.eqb field "stock" then absent (ProductData.stock productData)
  else true.

(** [x || d] on a number that may be absent. *)
Definition number_or (o : option number) (d : number) : number :=
  if truthy_number o then default 0%Q o else d.

Definition string_or (o : option string) (d : string) : string :=
  if truthy_string o then default "" o else d.

Definition addProduct (productData : ProductData.t)
  : M (string * Product.t) :=
  let* _ := forEach ["name"; "sku"; "cost"; "price"; "stock"] (fun field =>
              if missing_product_field productData field
              then throw (MissingRequiredField field)
              else ret tt) in
  let stock := default 0%Q (ProductData.stock productData) in
  let product :=
    Product.mk
      (default "" (ProductData.name productData))
      (default "" (ProductData.sku productData))
      (default 0%Q (ProductData.cost productData))
      (default 0%Q (ProductData.price productData))
      stock
      (number_or (ProductData.reorderLevel productData) 10)
      (Qleb stock (number_or (ProductData.reorderLevel productData) 10))
      (string_or (ProductData.unit productData) "pcs") in
  addDocumentTo Products product.

Definition with_outstanding (b : number) (c : Customer.t) : Customer.t :=
  Customer.mk (Customer.name c) b (Customer.creditLimit c)
    (Customer.creditUsed c) (Customer.totalPurchases c)
    (Customer.totalSpent c) (Customer.firstPurchase c).

Definition updateCustomerBalance (customerId : string) (amount : number)
    (type : string) : M number :=
  let* customer := getDocument Customers customerId in
  match customer with
  | None => throw CustomerNotFound
  | Some customer =>
      let newBalance := Customer.outstandingBalance customer in
      let newBalance :=
        if String.eqb type "sale" then (newBalance + amount)%Q
        else if String.eqb type "payment" then
          let newBalance := (newBalance - amount)%Q in
          if Qltb newBalance 0 then 0%Q else newBalance
        else newBalance in
      let* _ := updateDocument Customers customerId
                  (with_outstanding newBalance) in
      ret newBalance
  end.

(** The balance [updateCustomerBalance] computes. *)
Definition balance_after (customer : Customer.t) (amount : number)
    (type : string) : number :=
  let newBalance := Customer.outstandingBalance customer in
  if String.eqb type "sale" then (newBalance + amount)%Q
  else if String.eqb type "payment" then
    let newBalance := (newBalance - amount)%Q in
    if Qltb newBalance 0 then 0%Q else newBalance
  else newBalance.

(** ** FirestoreManager: analytics *)

Definition getStockValue : M number :=
  let* products := getDocuments Products in
  ret (fold_left
         (fun sum p => (sum + Product.stock p.2 * Product.cost p.2)%Q)
         products 0%Q).

Module FinancialSummary.
Record t : Type := mk
  { income : number; expenses : number; transfers : number; net : number;
    byCategory : gmap string number }.
End FinancialSummary.

(** The body of the [forEach] of [getFinancialSummary]. *)
Definition summary_of_step (summary : FinancialSummary.t)
    (t : Transaction.t) : FinancialSummary.t :=
  let summary :=
    if String.eqb (Transaction.type t) "income" then
      FinancialSummary.mk
        (FinancialSummary.income summary + Transaction.amount t)%Q
        (FinancialSummary.expenses summary)
        (FinancialSummary.transfers summary)
        (FinancialSummary.net summary)
        (FinancialSummary.byCategory summary)
    else if String.eqb (Transaction.type t) "expense" then
      FinancialSummary.mk
        (FinancialSummary.income summary)
        (FinancialSummary.expenses summary + Transaction.amount t)%Q
        (FinancialSummary.transfers summary)
        (FinancialSummary.net summary)
        (FinancialSummary.byCategory summary)
    else if String.eqb (Transaction.type t) "transfer" then
      FinancialSummary.mk
        (FinancialSummary.income summary)
        (FinancialSummary.expenses summary)
        (FinancialSummary.transfers summary + Transaction.amount t)%Q
        (FinancialSummary.net summary)
        (FinancialSummary.byCategory summary)
    else summary in
  FinancialSummary.mk
    (FinancialSummary.income summary)
    (FinancialSummary.expenses summary)
    (FinancialSummary.transfers summary)
    (FinancialSummary.net summary)
    (add_detail (Transaction.category t) (Transaction.amount t)
       (FinancialSummary.byCategory summary)).

(** [getFinancialSummary] on the transactions that the query for the
    period returned. *)
Definition getFinancialSummary (transactions : list Transaction.t)
  : FinancialSummary.t :=
  let summary :=
    fold_left summary_of_step transactions
      (FinancialSummary.mk 0 0 0 0 ∅) in
  FinancialSummary.mk
    (FinancialSummary.income summary)
    (FinancialSummary.expenses summary)
    (FinancialSummary.transfers summary)
    (FinancialSummary.income summary - FinancialSummary.expenses summary)%Q
    (FinancialSummary.byCategory summary).

(** [byCategory] is a plain object, so [byCategory[c]] reads a member of
    [Object.prototype] when [c] is the name of one and the object has no
    entry of its own for it; the map models the object for every other
    key.  These are the names of the members of [Object.prototype]. *)
Definition inherited_keys : list string :=
  ["constructor"; "__proto__"; "hasOwnProperty"; "isPrototypeOf";
   "propertyIsEnumerable"; "toLocaleString"; "toString"; "valueOf";
   "__defineGetter__"; "__defineSetter__"; "__lookupGetter__";
   "__lookupSetter__"].

Definition inherited_key (c : string) : bool :=
  existsb (String.eqb c) inherited_keys.

(** [this.categories] of [FinanceManager]. *)
Definition income_categories : list string :=
  ["Sales"; "Service"; "Interest"; "Other Income"].

Definition expense_categories : list string :=
  ["Cost of Goods"; "Rent"; "Salaries"; "Utilities"; "Marketing";
   "Supplies"; "Taxes"; "Other Expenses"].

(** ** Definitions for the statements on the ledger *)

(** What a stored transaction moves on account [k]. *)
Definition movement_on (k : string) (t : Transaction.t) : number :=
  if String.eqb (Transaction.type t) "income" then
    if String.eqb (Transaction.accountId t) k
    then Transaction.amount t else 0%Q
  else if String.eqb (Transaction.type t) "expense" then
    if String.eqb (Transaction.accountId t) k
    then (- Transaction.amount t)%Q else 0%Q
  else if String.eqb (Transaction.type t) "transfer" then
    ((if String.eqb (Transaction.accountId t) k
      then - Transaction.amount t else 0)
     + (match Transaction.toAccountId t with
        | Some to => if String.eqb to k then Transaction.amount t else 0
        | None => 0
        end))%Q
  else 0%Q.

(** The net movement on [k] of a list of stored transactions. *)
Fixpoint net_movement (k : string) (log : list (Doc Transaction.t))
  : number :=
  match log with
  | [] => 0%Q
  | doc :: rest => (movement_on k (data doc) + net_movement k rest)%Q
  end.

(** The balance of every account is its opening balance plus the net
    movement of the stored transactions. *)
Definition ledger_consistent (opening : string -> number) (w : World)
  : Prop :=
  forall k account,
    accounts w !! k = Some account ->
    (Account.balance account
     == opening k + net_movement k (transactions w))%Q.

(** The stored flag [lowStock] says whether the stock is at or under the
    reorder level. *)
Definition lowStock_consistent (product : Product.t) : Prop :=
  Product.lowStock product
  = Qleb (Product.stock product) (Product.reorderLevel product).

(** The value of a list of products. *)
Fixpoint value_of (products : list (string * Product.t)) : number :=
  match products with
  | [] => 0%Q
  | p :: rest => (Product.stock p.2 * Product.cost p.2 + value_of rest)%Q
  end.

(** Sum of the amounts of the transactions of category [c]. *)
Definition in_category (c : string) (t : Transaction.t) : bool :=
  String.eqb (Transaction.category t) c.

Definition is_transfer (transaction : Transaction.t) : bool :=
  String.eqb (Transaction.type transaction) "transfer".

(** A sale of 100 and the purchase of goods of 10. *)
Definition sale_income : Transaction.t :=
  Transaction.mk "income" 100 "A" "Sales" None "completed" false "".

(** ** POSManager: changing the cart *)

(** [this.cart.splice(itemIndex, 1)] at the first line of the product. *)
Fixpoint remove_first (productId : string) (cart : list CartItem.t)
  : list CartItem.t :=
  match cart with
  | [] => []
  | item :: rest =>
      if String.eqb (CartItem.productId item) productId then rest
      else item :: remove_first productId rest
  end.

(** The line after [removeFromCart] has taken [quantity] off it. *)
Definition reduce_quantity (quantity rate : number) (item : CartItem.t)
  : CartItem.t :=
  let quantity' := (CartItem.quantity item - quantity)%Q in
  let total := (quantity' * CartItem.price item)%Q in
  CartItem.mk (CartItem.productId item) (CartItem.name item)
    (CartItem.sku item) (CartItem.price item) (CartItem.cost item)
    quantity' total (Tax.taxAmount (calculateTax total rate false))
    (CartItem.stock item) (CartItem.unit item).

(** The line after [updateQuantity] has set its quantity. *)
Definition set_quantity (quantity rate : number) (item : CartItem.t)
  : CartItem.t :=
  let total := (CartItem.price item * quantity)%Q in
  CartItem.mk (CartItem.productId item) (CartItem.name item)
    (CartItem.sku item) (CartItem.price item) (CartItem.cost item)
    quantity total (Tax.taxAmount (calculateTax total rate false))
    (CartItem.stock item) (CartItem.unit item).

Definition removeFromCart (productId : string) (quantity : option number)
  : M (list CartItem.t) :=
  let* w := get in
  let* _ :=
    match in_cart productId (cart w) with
    | Some item =>
        if truthy_number quantity
           && Qltb (default 0%Q quantity) (CartItem.quantity item)
        then
          modify (with_cart
                    (change_first productId
                       (reduce_quantity (default 0%Q quantity) (taxRate w))
                       (cart w)))
        else modify (with_cart (remove_first productId (cart w)))
    | None => ret tt
    end in
  let* _ := updateCartSummary in
  let* w := get in
  ret (cart w).

Definition updateQuantity (productId : string) (quantity : number)
  : M (list CartItem.t) :=
  let* w := get in
  let* _ :=
    match in_cart productId (cart w) with
    | Some item =>
        if Qleb quantity 0 then
          let* _ := removeFromCart productId None in ret tt
        else
          modify (with_cart
                    (change_first productId
                       (set_quantity quantity (taxRate w)) (cart w)))
    | None => ret tt
    end in
  let* _ := updateCartSummary in
  let* w := get in
  ret (cart w).

(** ** Definitions for the statements on the cart *)

(** No product has two lines, and every line's total is its price times
    its quantity. *)
Definition cart_wf (cart : list CartItem.t) : Prop :=
  NoDup (List.map CartItem.productId cart) /\
  Forall (fun item =>
            (CartItem.total item
             == CartItem.price item * CartItem.quantity item)%Q) cart.

(** Column sums of a cart. *)
Fixpoint sum_of (f : CartItem.t -> number) (cart : list CartItem.t)
  : number :=
  match cart with
  | [] => 0%Q
  | item :: rest => (f item + sum_of f rest)%Q
  end.

(** A cart line of the shop's widget. *)
Definition widget_line (quantity tax : number) : CartItem.t :=
  CartItem.mk "p1" "Widget" "W-1" 10 6 quantity (quantity * 10) tax 10 "pcs".

(** The line [addToCart] pushes for a product that is not in the cart. *)
Definition line_of (productId : string) (product : Product.t)
    (quantity rate : number) : CartItem.t :=
  CartItem.mk productId (Product.name product) (Product.sku product)
    (Product.price product) (Product.cost product) quantity
    (Product.price product * quantity)%Q
    (Tax.taxAmount
       (calculateTax (Product.price product * quantity)%Q rate false))
    (Product.stock product) (Product.unit product).

(** The cart after [addToCart], [removeFromCart] and [updateQuantity]. *)
Definition cart_added (productId : string) (product : Product.t)
    (quantity : number) (w : World) : list CartItem.t :=
  match in_cart productId (cart w) with
  | Some _ => change_first productId (add_quantity quantity) (cart w)
  | None => (cart w ++ [line_of productId product quantity (taxRate w)])%list
  end.

Definition cart_removed (productId : string) (quantity : option number)
    (w : World) : list CartItem.t :=
  match in_cart productId (cart w) with
  | Some item =>
      if truthy_number quantity
         && Qltb (default 0%Q quantity) (CartItem.quantity item)
      then change_first productId
             (reduce_quantity (default 0%Q quantity) (taxRate w)) (cart w)
      else remove_first productId (cart w)
  | None => cart w
  end.

Definition cart_requantified (productId : string) (quantity : number)
    (w : World) : list CartItem.t :=
  match in_cart productId (cart w) with
  | Some item =>
      if Qleb quantity 0 then remove_first productId (cart w)
      else change_first productId (set_quantity quantity (taxRate w))
             (cart w)
  | None => cart w
  end.

(** ** FinanceManager: transfers *)

(** [loadAccounts] fills [this.accounts] from the store and returns it. *)
Definition loadAccounts : M (list (string * Account.t)) :=
  getDocuments Accounts.

(** What [transferFunds] throws: its own three errors, or what the store
    threw. *)
Inductive TransferError : Type :=
  | TransferAmountMustBePositive
  | OneOrBothAccountsNotFound
  | InsufficientFundsForTransfer
  | FromStore (e : Error).

Definition transfer_message (e : TransferError) : string :=
  match e with
  | TransferAmountMustBePositive => "Transfer amount must be positive"
  | OneOrBothAccountsNotFound => "One or both accounts not found"
  | InsufficientFundsForTransfer => "Insufficient funds for transfer"
  | FromStore e => message e
  end.

Inductive Outcome (A : Type) : Type :=
  | Returned (a : A)
  | Thrown (e : TransferError).
Arguments Returned {A} a.
Arguments Thrown {A} e.

(** [this.accounts.find(a => a.id === id)]. *)
Definition find_account (loaded : list (string * Account.t)) (id : string)
  : option (string * Account.t) :=
  List.find (fun a => String.eqb a.1 id) loaded.

(** [transferFunds]; [loaded] is [this.accounts], the accounts as they
    were at the last [loadAccounts]. *)
Definition transferFunds (loaded : list (string * Account.t))
    (fromAccountId toAccountId : string) (amount : number)
  : World -> Outcome (Doc Transaction.t) * World :=
  fun w =>
    if Qleb amount 0 then (Thrown TransferAmountMustBePositive, w)
    else
      match find_account loaded fromAccountId,
            find_account loaded toAccountId with
      | Some fromAccount, Some toAccount =>
          if Qltb (Account.balance fromAccount.2) amount
          then (Thrown InsufficientFundsForTransfer, w)
          else
            let (transferOut, w') :=
              recordTransaction
                (TransactionData.mk (Some "transfer") (Some amount)
                   (Some fromAccountId) (Some "Account Transfer")
                   (Some toAccountId) None) w in
            match transferOut with
            | Ok transferOut => (Returned transferOut, w')
            | Throw e => (Thrown (FromStore e), w')
            end
      | _, _ => (Thrown OneOrBothAccountsNotFound, w)
      end.

(** The default account of a payment method is looked for by this word
    in the account's name. *)
Definition account_word (paymentMethod : string) : option string :=
  if String.eqb paymentMethod "Cash" then Some "cash"
  else if String.eqb paymentMethod "Card"
          || String.eqb paymentMethod "Bank Transfer" then Some "bank"
  else if String.eqb paymentMethod "Mobile Money" then Some "mobile"
  else None.

(** A default account whose name holds the word, whatever the case. *)
Definition default_for (word : string) (account : Account.t) : bool :=
  includes word (toLowerCase (Account.name account))
  && Account.isDefault account.

(** ** Definitions for the statements on the checkout *)

(** Everything but the customers, their credit transactions and the id
    counter is the same in the two worlds. *)
Definition same_but_credit (w w' : World) : Prop :=
  masterUser w' = masterUser w /\
  defaultUser w' = defaultUser w /\
  accounts w' = accounts w /\
  products w' = products w /\
  transactions w' = transactions w /\
  inventory_logs w' = inventory_logs w /\
  audit_logs w' = audit_logs w /\
  sales w' = sales w /\
  receipts w' = receipts w /\
  cart w' = cart w /\
  currentCustomer w' = currentCustomer w /\
  taxRate w' = taxRate w.

(** The quantity of a product on the lines of a cart. *)
Fixpoint sold (productId : string) (cart : list CartItem.t) : number :=
  match cart with
  | [] => 0%Q
  | item :: rest =>
      ((if String.eqb (CartItem.productId item) productId
        then CartItem.quantity item else 0)
       + sold productId rest)%Q
  end.

(** Every line of the cart is for a product of the store that has the
    line's quantity in stock. *)
Definition in_stock (w : World) (cart : list CartItem.t) : Prop :=
  Forall (fun item =>
            exists product,
              products w !! CartItem.productId item = Some product /\
              (CartItem.quantity item <= Product.stock product)%Q) cart.

(** A customer with room on the account, at the till with one gadget in
    the cart. *)
Definition till_on_credit : World :=
  with_customers (<["c1" := customer 10 100]> ∅) till_with_cart.

(** The worlds [movement] can leave: the world as it was, with the
    accounts replaced. *)
Definition accounts_moved (transactionData : TransactionData.t)
    (w w2 : World) : Prop :=
  exists m,
    w2 = with_accounts m w /\
    (forall k, accounts w !! k = None -> m !! k = None) /\
    forall k x,
      accounts w !! k = Some x ->
      exists x',
        m !! k = Some x' /\
        (Account.balance x'
         == Account.balance x
            + movement_on k (transaction_of transactionData))%Q.

(** The body of the loop of [updateInventory]. *)
Definition sale_line (item : CartItem.t) : M unit :=
  let* _ := updateStock (CartItem.productId item)
              (- CartItem.quantity item)%Q "sale" (Some "POS Sale") in
  ret tt.

(** * Properties *)

Lemma Qltb_lt x y : Qltb x y = true <-> (x < y)%Q.
Proof.
  unfold Qltb. rewrite negb_true_iff. split.
  - intros H. apply Qnot_le_lt. intros Hle.
    apply Qle_bool_iff in Hle. congruence.
  - intros H. destruct (Qle_bool y x) eqn:E; [|reflexivity].
    apply Qle_bool_iff in E. exfalso. apply (Qlt_not_le _ _ H E).
Qed.

Lemma Qltb_ge x y : Qltb x y = false <-> (y <= x)%Q.
Proof.
  unfold Qltb. rewrite negb_false_iff. apply Qle_bool_iff.
Qed.

Lemma Qleb_le x y : Qleb x y = true <-> (x <= y)%Q.
Proof. apply Qle_bool_iff. Qed.

Lemma Qfalsy_zero x : Qfalsy x = true <-> (x == 0)%Q.
Proof. apply Qeq_bool_iff. Qed.

Create HintDb run_db.
#[local] Hint Unfold bind ret throw get modify prop_of
  masterCurrentUser defaultCurrentUser
  getDocument getDocuments updateDocument addDocument : run_db.

(** Unfold the monad and the store primitives, then compute. *)
Ltac run := autounfold with run_db; cbn.

(** ** Stock *)

Lemma updateStock_ok productId quantityChange reason reference w product user :
  products w !! productId = Some product ->
  masterUser w = Some user ->
  (0 <= Product.stock product + quantityChange)%Q ->
  updateStock productId quantityChange reason reference w
  = (Ok (Product.stock product + quantityChange)%Q,
     stock_written productId quantityChange reason reference product user w).
Proof.
  intros Hp Hu Hge. apply Qltb_ge in Hge.
  unfold updateStock. run.
  repeat (progress (cbn; rewrite ?Hp, ?Hu, ?Hge)). reflexivity.
Qed.

Lemma updateStock_insufficient productId quantityChange reason reference w
    product :
  products w !! productId = Some product ->
  (Product.stock product + quantityChange < 0)%Q ->
  updateStock productId quantityChange reason reference w
  = (Throw InsufficientStock, w).
Proof.
  intros Hp Hlt. apply Qltb_lt in Hlt.
  unfold updateStock. run. rewrite Hp, Hlt. reflexivity.
Qed.

Lemma updateStock_unauthenticated productId quantityChange reason reference
    w product :
  products w !! productId = Some product ->
  masterUser w = None ->
  (0 <= Product.stock product + quantityChange)%Q ->
  updateStock productId quantityChange reason reference w
  = (Throw UserNotAuthenticated, w).
Proof.
  intros Hp Hu Hge. apply Qltb_ge in Hge.
  unfold updateStock. run. rewrite Hp, Hge. cbn. rewrite Hu. reflexivity.
Qed.

Lemma updateStock_not_found productId quantityChange reason reference w :
  products w !! productId = None ->
  updateStock productId quantityChange reason reference w
  = (Throw ProductNotFound, w).
Proof.
  intros Hp. unfold updateStock. run. rewrite Hp. reflexivity.
Qed.

(** Every call falls under one of the four cases above. *)
Lemma updateStock_cases productId quantityChange reason reference w :
  (products w !! productId = None /\
   updateStock productId quantityChange reason reference w
   = (Throw ProductNotFound, w)) \/
  (exists product,
     products w !! productId = Some product /\
     ((Product.stock product + quantityChange < 0)%Q /\
      updateStock productId quantityChange reason reference w
      = (Throw InsufficientStock, w)
      \/
      (0 <= Product.stock product + quantityChange)%Q /\
      masterUser w = None /\
      updateStock productId quantityChange reason reference w
      = (Throw UserNotAuthenticated, w)
      \/
      (0 <= Product.stock product + quantityChange)%Q /\
      exists user,
        masterUser w = Some user /\
        updateStock productId quantityChange reason reference w
        = (Ok (Product.stock product + quantityChange)%Q,
           stock_written productId quantityChange reason reference
             product user w))).
Proof.
  destruct (products w !! productId) as [product|] eqn:Hp.
  - right. exists product. split; [reflexivity|].
    destruct (Qlt_le_dec (Product.stock product + quantityChange) 0)
      as [Hlt|Hge].
    + left. split; [exact Hlt|]. eapply updateStock_insufficient; eauto.
    + right. destruct (masterUser w) as [user|] eqn:Hu.
      * right. split; [exact Hge|]. exists user. split; [reflexivity|].
        eapply updateStock_ok; eauto.
      * left. split; [exact Hge|]. split; [reflexivity|].
        eapply updateStock_unauthenticated; eauto.
  - left. split; [reflexivity|]. now apply updateStock_not_found.
Qed.

#[local] Arguments updateStock : simpl never.




(** C3.  Every successful [updateStock] appends exactly one inventory
    log entry, whose [previousStock] is the stock read before the update
    and whose [newStock] satisfies newStock - previousStock ==
    quantityChange; it writes the new stock together with the flag
    [lowStock] recomputed as newStock <= reorderLevel; and it returns
    newStock. *)
Theorem updateStock_appends_log productId quantityChange reason reference
    w newStock w' :
  updateStock productId quantityChange reason reference w
  = (Ok newStock, w') ->
  exists (product : Product.t) (log : Doc InventoryLog.t)
    (product' : Product.t),
    products w !! productId = Some product /\
    newStock = (Product.stock product + quantityChange)%Q /\
    inventory_logs w' = (inventory_logs w ++ [log])%list /\
    InventoryLog.productId (data log) = productId /\
    InventoryLog.quantityChange (data log) = quantityChange /\
    InventoryLog.previousStock (data log) = Product.stock product /\
    InventoryLog.newStock (data log) = newStock /\
    (InventoryLog.newStock (data log)
     - InventoryLog.previousStock (data log) == quantityChange)%Q /\
    products w' !! productId = Some product' /\
    Product.stock product' = newStock /\
    Product.reorderLevel product' = Product.reorderLevel product /\
    (Product.lowStock product' = true
     <-> (newStock <= Product.reorderLevel product)%Q).
Proof.
  intros Hrun.
  destruct (updateStock_cases productId quantityChange reason reference w)
    as [[_ E]|(product & Hp & [[_ E]|[(_ & _ & E)|(_ & user & _ & E)]])];
    rewrite E in Hrun; try discriminate.
  injection Hrun as <- <-.
  exists product. eexists. eexists.
  split; [exact Hp|]. split; [reflexivity|].
  split; [reflexivity|]. cbn.
  repeat (split; [reflexivity|]).
  split; [ring|].
  split; [apply lookup_insert_eq|]. cbn.
  repeat (split; [reflexivity|]).
  apply Qleb_le.
Qed.

(** Stock 10, reorder level 5: [updateStock(id, -12, 'sale')] throws and
    the stock stays 10. *)
Example updateStock_scenario :
  updateStock "p1" (-12) "sale" None (shop 10)
  = (Throw InsufficientStock, shop 10).
Proof. vm_compute. reflexivity. Qed.


(** The same calls, computed: the two oversized sales fail, the stock ends
    at 10 - 3 + 5. *)
Example updateStock_sequence_run :
  let trace :=
    updateStock_trace "p1"
      [sale_of 12; sale_of 3; restock_of 5; sale_of 20] (shop 10) in
  List.map (fun step => succeeded (Step.outcome step)) trace
  = [false; true; true; false] /\
  Qred (applied trace) = 2%Q /\
  Product.stock <$> products (final (shop 10) trace) !! "p1"
  = Some (10 + -(3) + 5)%Q.
Proof. vm_compute. repeat split. Qed.

Lemma updateStock_appends_log_witness :
  updateStock "p1" (-3) "sale" None (shop 10)
  = (Ok (10 + -3)%Q,
     stock_written "p1" (-3) "sale" None (widget 10) owner (shop 10)) /\
  exists (product : Product.t) (log : Doc InventoryLog.t)
    (product' : Product.t),
    products (shop 10) !! "p1" = Some product /\
    (10 + -3)%Q = (Product.stock product + -3)%Q /\
    inventory_logs
      (stock_written "p1" (-3) "sale" None (widget 10) owner (shop 10))
    = (inventory_logs (shop 10) ++ [log])%list /\
    InventoryLog.productId (data log) = "p1" /\
    InventoryLog.quantityChange (data log) = (-3)%Q /\
    InventoryLog.previousStock (data log) = Product.stock product /\
    InventoryLog.newStock (data log) = (10 + -3)%Q /\
    (InventoryLog.newStock (data log)
     - InventoryLog.previousStock (data log) == -3)%Q /\
    products
      (stock_written "p1" (-3) "sale" None (widget 10) owner (shop 10))
    !! "p1" = Some product' /\
    Product.stock product' = (10 + -3)%Q /\
    Product.reorderLevel product' = Product.reorderLevel product /\
    (Product.lowStock product' = true
     <-> (10 + -3 <= Product.reorderLevel product)%Q).
Proof.
  split; [vm_compute; reflexivity|].
  apply (updateStock_appends_log "p1" (-3) "sale" None (shop 10)).
  vm_compute. reflexivity.
Defined.

(** ** Transactions *)

Lemma bind_ok {A B} (m : M A) (k : A -> M B) w a w' :
  m w = (Ok a, w') -> bind m k w = k a w'.
Proof. intros H. unfold bind. rewrite H. reflexivity. Qed.

Lemma bind_throw {A B} (m : M A) (k : A -> M B) w e w' :
  m w = (Throw e, w') -> bind m k w = (Throw e, w').
Proof. intros H. unfold bind. rewrite H. reflexivity. Qed.

Lemma check_required_eq transactionData w :
  check_required transactionData w
  = match missing transactionData with
    | Some field => (Throw (MissingRequiredField field), w)
    | None => (Ok tt, w)
    end.
Proof.
  unfold check_required, missing, required. cbn.
  unfold bind, truthy_field. cbn.
  destruct (truthy_string (TransactionData.type transactionData)); cbn;
    [|reflexivity].
  destruct (truthy_number (TransactionData.amount transactionData)); cbn;
    [|reflexivity].
  destruct (truthy_string (TransactionData.accountId transactionData)); cbn;
    [|reflexivity].
  destruct (truthy_string (TransactionData.category transactionData)); cbn;
    reflexivity.
Qed.

Lemma missing_None transactionData :
  missing transactionData = None <->
  truthy_string (TransactionData.type transactionData) = true /\
  truthy_number (TransactionData.amount transactionData) = true /\
  truthy_string (TransactionData.accountId transactionData) = true /\
  truthy_string (TransactionData.category transactionData) = true.
Proof.
  unfold missing, required, truthy_field. cbn.
  destruct (truthy_string (TransactionData.type transactionData)),
    (truthy_number (TransactionData.amount transactionData)),
    (truthy_string (TransactionData.accountId transactionData)),
    (truthy_string (TransactionData.category transactionData));
    cbn; intuition congruence.
Qed.

Lemma truthy_string_true o :
  truthy_string o = true <-> exists s, o = Some s /\ s <> "".
Proof.
  destruct o as [s|]; cbn.
  - rewrite negb_true_iff, String.eqb_neq. split.
    + intros H. exists s. auto.
    + intros (s' & [= <-] & H). exact H.
  - split; [discriminate|]. intros (s & H & _). discriminate.
Qed.

Lemma truthy_number_true o :
  truthy_number o = true <-> exists x, o = Some x /\ ~ (x == 0)%Q.
Proof.
  destruct o as [x|]; cbn.
  - rewrite negb_true_iff. split.
    + intros H. exists x. split; [reflexivity|]. intros E.
      apply Qfalsy_zero in E. congruence.
    + intros (x' & [= <-] & H). destruct (Qfalsy x) eqn:E; [|reflexivity].
      apply Qfalsy_zero in E. contradiction.
  - split; [discriminate|]. intros (x & H & _). discriminate.
Qed.

Lemma store_transaction transactionData user w :
  masterUser w = Some user ->
  (let* result := addDocument Transactions (transaction_of transactionData) in
   let* _ := auditLog "transaction" (id result) "create" in
   ret result) w
  = (Ok (transaction_doc transactionData user w),
     record_written transactionData user w).
Proof.
  intros Hu. unfold auditLog. run. rewrite Hu. cbn. rewrite Hu. cbn.
  rewrite Hu. reflexivity.
Qed.

Lemma updateAccountBalance_ok accountId amountChange w account user :
  accounts w !! accountId = Some account ->
  masterUser w = Some user ->
  updateAccountBalance accountId amountChange w
  = (Ok (Account.balance account + amountChange)%Q,
     balance_written accountId amountChange account w).
Proof.
  intros Ha Hu. unfold updateAccountBalance. run.
  rewrite Ha. cbn. rewrite Hu. cbn. rewrite Ha. reflexivity.
Qed.

Lemma updateAccountBalance_not_found accountId amountChange w :
  accounts w !! accountId = None ->
  updateAccountBalance accountId amountChange w = (Throw AccountNotFound, w).
Proof.
  intros Ha. unfold updateAccountBalance. run. rewrite Ha. reflexivity.
Qed.

Lemma updateAccountBalance_unauthenticated accountId amountChange w account :
  accounts w !! accountId = Some account ->
  masterUser w = None ->
  updateAccountBalance accountId amountChange w
  = (Throw UserNotAuthenticated, w).
Proof.
  intros Ha Hu. unfold updateAccountBalance. run.
  rewrite Ha. cbn. rewrite Hu. reflexivity.
Qed.

#[local] Arguments updateAccountBalance : simpl never.

(** [recordTransaction] is the presence check, the balance updates and
    the two writes, in that order. *)
Lemma recordTransaction_eq transactionData w :
  recordTransaction transactionData w
  = match check_required transactionData w with
    | (Throw e, w') => (Throw e, w')
    | (Ok _, w1) =>
        match movement transactionData w1 with
        | (Throw e, w') => (Throw e, w')
        | (Ok _, w2) =>
            (let* result :=
               addDocument Transactions (transaction_of transactionData) in
             let* _ := auditLog "transaction" (id result) "create" in
             ret result) w2
        end
    end.
Proof. reflexivity. Qed.

#[local] Arguments recordTransaction : simpl never.

Section RecordTransaction.
Variable transactionData : TransactionData.t.
Variable w : World.
Variable user : User.
Variables (type accountId : string) (amount : number).

Hypothesis authenticated : masterUser w = Some user.
Hypothesis present : missing transactionData = None.
Hypothesis type_eq : TransactionData.type transactionData = Some type.
Hypothesis amount_eq : TransactionData.amount transactionData = Some amount.
Hypothesis accountId_eq :
  TransactionData.accountId transactionData = Some accountId.

Let stored := transaction_doc transactionData user w.

Lemma recordTransaction_income account :
  type = "income" ->
  accounts w !! accountId = Some account ->
  recordTransaction transactionData w
  = (Ok stored,
     record_written transactionData user
       (balance_written accountId amount account w)).
Proof.
  intros -> Ha.
  rewrite recordTransaction_eq, check_required_eq, present.
  unfold movement. cbn. rewrite type_eq, amount_eq, accountId_eq. cbn.
  unfold bind at 1.
  rewrite (updateAccountBalance_ok _ _ _ _ _ Ha authenticated). cbn.
  rewrite (store_transaction transactionData user);
    [reflexivity|exact authenticated].
Qed.

Lemma recordTransaction_expense account :
  type = "expense" ->
  accounts w !! accountId = Some account ->
  recordTransaction transactionData w
  = (Ok stored,
     record_written transactionData user
       (balance_written accountId (- amount) account w)).
Proof.
  intros -> Ha.
  rewrite recordTransaction_eq, check_required_eq, present.
  unfold movement. cbn. rewrite type_eq, amount_eq, accountId_eq. cbn.
  unfold bind at 1.
  rewrite (updateAccountBalance_ok _ _ _ _ _ Ha authenticated). cbn.
  rewrite (store_transaction transactionData user);
    [reflexivity|exact authenticated].
Qed.

Lemma recordTransaction_transfer toAccountId account toAccount :
  type = "transfer" ->
  TransactionData.toAccountId transactionData = Some toAccountId ->
  toAccountId <> "" ->
  accounts w !! accountId = Some account ->
  accounts (balance_written accountId (- amount) account w) !! toAccountId
  = Some toAccount ->
  recordTransaction transactionData w
  = (Ok stored,
     record_written transactionData user
       (balance_written toAccountId amount toAccount
          (balance_written accountId (- amount) account w))).
Proof.
  intros -> Hto Hne Ha Hb.
  rewrite recordTransaction_eq, check_required_eq, present.
  unfold movement. cbn. rewrite type_eq, amount_eq, accountId_eq, Hto. cbn.
  apply String.eqb_neq in Hne. rewrite Hne. cbn.
  unfold bind at 1.
  rewrite (updateAccountBalance_ok _ _ _ _ _ Ha authenticated).
  unfold bind at 1.
  rewrite (updateAccountBalance_ok _ _ _ _ user Hb); [|exact authenticated].
  cbn. rewrite (store_transaction transactionData user);
    [reflexivity|exact authenticated].
Qed.

Lemma recordTransaction_transfer_to_missing toAccountId account :
  type = "transfer" ->
  TransactionData.toAccountId transactionData = Some toAccountId ->
  toAccountId <> "" ->
  accounts w !! accountId = Some account ->
  accounts w !! toAccountId = None ->
  recordTransaction transactionData w
  = (Throw AccountNotFound,
     balance_written accountId (- amount) account w).
Proof.
  intros -> Hto Hne Ha Hb.
  rewrite recordTransaction_eq, check_required_eq, present.
  unfold movement. cbn. rewrite type_eq, amount_eq, accountId_eq, Hto. cbn.
  apply String.eqb_neq in Hne. rewrite Hne. cbn.
  unfold bind at 1.
  rewrite (updateAccountBalance_ok _ _ _ _ _ Ha authenticated).
  unfold bind at 1.
  rewrite updateAccountBalance_not_found; [reflexivity|].
  cbn. rewrite lookup_insert_ne; [exact Hb|]. congruence.
Qed.

Lemma recordTransaction_other :
  type <> "income" -> type <> "expense" -> type <> "transfer" ->
  recordTransaction transactionData w
  = (Ok stored, record_written transactionData user w).
Proof.
  intros H1 H2 H3.
  rewrite recordTransaction_eq, check_required_eq, present.
  unfold movement. cbn. rewrite type_eq. cbn.
  apply String.eqb_neq in H1, H2, H3. rewrite H1, H2, H3. cbn.
  rewrite (store_transaction transactionData user);
    [reflexivity|exact authenticated].
Qed.
End RecordTransaction.

(** C1.  For every call of [recordTransaction] whose required fields are
    present and whose referenced accounts exist, one transaction record is
    appended to the collection and returned, and the balances move as the
    type says: income adds the amount to [accountId], expense subtracts
    it, transfer subtracts it from [accountId] and adds it to
    [toAccountId].  The balance of every account [k] is given, so the
    accounts not referenced keep theirs. *)
Theorem recordTransaction_moves_balances transactionData w user
    type amount accountId category :
  masterUser w = Some user ->
  TransactionData.type transactionData = Some type -> type <> "" ->
  TransactionData.amount transactionData = Some amount ->
  ~ (amount == 0)%Q ->
  TransactionData.accountId transactionData = Some accountId ->
  accountId <> "" ->
  TransactionData.category transactionData = Some category ->
  category <> "" ->
  is_Some (accounts w !! accountId) ->
  (type = "transfer" ->
   exists toAccountId,
     TransactionData.toAccountId transactionData = Some toAccountId /\
     toAccountId <> "" /\ is_Some (accounts w !! toAccountId)) ->
  exists (record : Doc Transaction.t) (w' : World),
    recordTransaction transactionData w = (Ok record, w') /\
    transactions w' = (transactions w ++ [record])%list /\
    Transaction.type (data record) = type /\
    Transaction.amount (data record) = amount /\
    Transaction.accountId (data record) = accountId /\
    Transaction.toAccountId (data record)
    = TransactionData.toAccountId transactionData /\
    forall k account,
      accounts w !! k = Some account ->
      exists account',
        accounts w' !! k = Some account' /\
        (type = "income" ->
         (Account.balance account'
          == Account.balance account
             + (if decide (k = accountId) then amount else 0))%Q) /\
        (type = "expense" ->
         (Account.balance account'
          == Account.balance account
             - (if decide (k = accountId) then amount else 0))%Q) /\
        (type = "transfer" ->
         forall toAccountId,
           TransactionData.toAccountId transactionData = Some toAccountId ->
           (Account.balance account'
            == Account.balance account
               - (if decide (k = accountId) then amount else 0)
               + (if decide (k = toAccountId) then amount else 0))%Q).
Proof.
  intros Hu Hty Hty0 Ham Ham0 Hac Hac0 Hca Hca0 [a Ha] Hto.
  assert (Hpresent : missing transactionData = None).
  { apply missing_None. repeat split.
    - apply truthy_string_true. eauto.
    - apply truthy_number_true. eauto.
    - apply truthy_string_true. eauto.
    - apply truthy_string_true. eauto. }
  assert (Hdata :
    Transaction.type (transaction_of transactionData) = type /\
    Transaction.amount (transaction_of transactionData) = amount /\
    Transaction.accountId (transaction_of transactionData) = accountId /\
    Transaction.toAccountId (transaction_of transactionData)
    = TransactionData.toAccountId transactionData).
  { cbn. rewrite Hty, Ham, Hac. auto. }
  destruct Hdata as (D1 & D2 & D3 & D4).
  destruct (decide (type = "income")) as [Ei|Ni].
  { exists (transaction_doc transactionData user w). eexists.
    split; [eapply recordTransaction_income; eauto|].
    split; [reflexivity|]. do 4 (split; [assumption|]).
    intros k x Hk. cbn.
    destruct (decide (k = accountId)) as [->|Hne].
    - rewrite lookup_insert_eq. assert (x = a) by congruence. subst x.
      eexists. split; [reflexivity|]. cbn.
      repeat split; intros; try congruence; lra.
    - rewrite lookup_insert_ne by congruence.
      exists x. split; [exact Hk|].
      repeat split; intros; try congruence; lra. }
  destruct (decide (type = "expense")) as [Ee|Ne].
  { exists (transaction_doc transactionData user w). eexists.
    split; [eapply recordTransaction_expense; eauto|].
    split; [reflexivity|]. do 4 (split; [assumption|]).
    intros k x Hk. cbn.
    destruct (decide (k = accountId)) as [->|Hne].
    - rewrite lookup_insert_eq. assert (x = a) by congruence. subst x.
      eexists. split; [reflexivity|]. cbn.
      repeat split; intros; try congruence; lra.
    - rewrite lookup_insert_ne by congruence.
      exists x. split; [exact Hk|].
      repeat split; intros; try congruence; lra. }
  destruct (decide (type = "transfer")) as [Et|Nt].
  { destruct (Hto Et) as (to & Hto1 & Hto0 & [b Hb]).
    assert (Hb' : exists b',
      accounts (balance_written accountId (- amount) a w) !! to = Some b' /\
      (Account.balance b'
       == Account.balance b
          - (if decide (to = accountId) then amount else 0))%Q).
    { cbn. destruct (decide (to = accountId)) as [->|Hne].
      - rewrite lookup_insert_eq. assert (b = a) by congruence. subst b.
        eexists. split; [reflexivity|]. cbn. lra.
      - rewrite lookup_insert_ne by congruence.
        exists b. split; [exact Hb|]. lra. }
    destruct Hb' as (b' & Hb' & Hbal).
    exists (transaction_doc transactionData user w). eexists.
    split; [eapply recordTransaction_transfer; eauto|].
    split; [reflexivity|]. do 4 (split; [assumption|]).
    intros k x Hk. cbn.
    destruct (decide (k = to)) as [->|Hne1].
    - rewrite lookup_insert_eq. eexists. split; [reflexivity|]. cbn.
      assert (x = b) by congruence. subst x.
      repeat split; try (intros ?; congruence).
      intros _ to' Hto'. assert (to' = to) by congruence. subst to'.
      rewrite (decide_True (P := to = to)) by reflexivity.
      rewrite Hbal. lra.
    - rewrite lookup_insert_ne by congruence.
      destruct (decide (k = accountId)) as [->|Hne2].
      + rewrite lookup_insert_eq. assert (x = a) by congruence. subst x.
        eexists. split; [reflexivity|]. cbn.
        repeat split; try (intros ?; congruence).
        intros _ to' Hto'. assert (to' = to) by congruence. subst to'.
        rewrite decide_False by congruence. lra.
      + rewrite lookup_insert_ne by congruence.
        exists x. split; [exact Hk|].
        repeat split; try (intros ?; congruence).
        intros _ to' Hto'. assert (to' = to) by congruence. subst to'.
        rewrite decide_False by congruence. lra. }
  exists (transaction_doc transactionData user w). eexists.
  split; [eapply recordTransaction_other; eauto|].
  split; [reflexivity|]. do 4 (split; [assumption|]).
  intros k x Hk. exists x. split; [exact Hk|].
  repeat split; intros; contradiction.
Qed.

(** The transfer of 50 from A (balance 100) to B (balance 0): one record
    of type transfer, balances 50 and 50. *)
Lemma recordTransaction_moves_balances_witness :
  exists (record : Doc Transaction.t) (w' : World),
    recordTransaction (transfer_to "B") bank = (Ok record, w') /\
    transactions w' = [record] /\
    Transaction.type (data record) = "transfer" /\
    exists a b,
      accounts w' !! "A" = Some a /\ accounts w' !! "B" = Some b /\
      (Account.balance a == 50)%Q /\ (Account.balance b == 50)%Q.
Proof.
  destruct (recordTransaction_moves_balances (transfer_to "B") bank owner
              "transfer" 50 "A" "Account Transfer")
    as (record & w' & Hrun & Htx & Hty & _ & _ & _ & Hbal);
    try reflexivity; try discriminate.
  - exists (account "Account A" 100). reflexivity.
  - intros _. exists "B". split; [reflexivity|]. split; [discriminate|].
    exists (account "Account B" 0). reflexivity.
  - exists record, w'. split; [exact Hrun|]. split; [exact Htx|].
    split; [exact Hty|].
    destruct (Hbal "A" (account "Account A" 100) eq_refl)
      as (a & Ha & _ & _ & Hta).
    destruct (Hbal "B" (account "Account B" 0) eq_refl)
      as (b & Hb & _ & _ & Htb).
    exists a, b. split; [exact Ha|]. split; [exact Hb|].
    specialize (Hta eq_refl "B" eq_refl).
    specialize (Htb eq_refl "B" eq_refl).
    cbn in Hta, Htb. split; [rewrite Hta|rewrite Htb]; reflexivity.
Defined.

(** C9.  A transfer whose source account exists and whose [toAccountId]
    names no account throws [Account not found] (NotFoundError) after the
    balance of the source has been decremented by the amount: in the world
    the throw leaves, the source balance is lower by the amount, the other
    accounts are as before, and no transaction record and no audit entry
    have been created. *)
Theorem recordTransaction_transfer_half_applied transactionData w user
    amount accountId category toAccountId account :
  masterUser w = Some user ->
  TransactionData.type transactionData = Some "transfer" ->
  TransactionData.amount transactionData = Some amount ->
  ~ (amount == 0)%Q ->
  TransactionData.accountId transactionData = Some accountId ->
  accountId <> "" ->
  TransactionData.category transactionData = Some category ->
  category <> "" ->
  TransactionData.toAccountId transactionData = Some toAccountId ->
  toAccountId <> "" ->
  accounts w !! accountId = Some account ->
  accounts w !! toAccountId = None ->
  exists w',
    recordTransaction transactionData w = (Throw AccountNotFound, w') /\
    kind AccountNotFound = NotFoundError /\
    (exists account',
       accounts w' !! accountId = Some account' /\
       (Account.balance account' == Account.balance account - amount)%Q) /\
    (forall k, k <> accountId -> accounts w' !! k = accounts w !! k) /\
    transactions w' = transactions w /\
    audit_logs w' = audit_logs w.
Proof.
  intros Hu Hty Ham Ham0 Hac Hac0 Hca Hca0 Hto Hto0 Ha Hb.
  assert (Hpresent : missing transactionData = None).
  { apply missing_None. repeat split.
    - apply truthy_string_true. exists "transfer". split; [auto|discriminate].
    - apply truthy_number_true. eauto.
    - apply truthy_string_true. eauto.
    - apply truthy_string_true. eauto. }
  eexists. split.
  - eapply recordTransaction_transfer_to_missing; eauto.
  - split; [reflexivity|]. cbn. split.
    + eexists. split; [apply lookup_insert_eq|]. cbn. lra.
    + split; [|split; reflexivity].
      intros k Hk. apply lookup_insert_ne. congruence.
Qed.

Lemma recordTransaction_transfer_half_applied_witness :
  exists w',
    recordTransaction (transfer_to "C") bank = (Throw AccountNotFound, w') /\
    (exists a, accounts w' !! "A" = Some a /\ (Account.balance a == 50)%Q) /\
    accounts w' !! "B" = accounts bank !! "B" /\
    transactions w' = [].
Proof.
  destruct (recordTransaction_transfer_half_applied (transfer_to "C") bank
              owner 50 "A" "Account Transfer" "C"
              (account "Account A" 100))
    as (w' & Hrun & _ & (a & Ha & Hbal) & Hothers & Htx & _);
    try reflexivity; try discriminate.
  exists w'. split; [exact Hrun|]. split.
  - exists a. split; [exact Ha|]. rewrite Hbal. reflexivity.
  - split; [apply Hothers; discriminate|exact Htx].
Defined.

(** ** Validation of transactions *)

Lemma truthy_string_false o :
  truthy_string o = false <-> o = None \/ o = Some "".
Proof.
  destruct o as [s|]; cbn.
  - rewrite negb_false_iff, String.eqb_eq. split.
    + intros ->. auto.
    + intros [H|[= ->]]; [discriminate|reflexivity].
  - split; auto.
Qed.

Lemma truthy_number_false o :
  truthy_number o = false <-> o = None \/ exists x, o = Some x /\ (x == 0)%Q.
Proof.
  destruct o as [x|]; cbn.
  - rewrite negb_false_iff, Qfalsy_zero. split.
    + intros H. right. eauto.
    + intros [H|(x' & [= <-] & H)]; [discriminate|exact H].
  - split; auto.
Qed.

(** A negative amount passes the presence check: the call of
    [recordTransaction] for an income of -5 on account A (balance 100)
    returns a record and lowers the balance to 95. *)
Lemma recordTransaction_accepts_negative_amount :
  let transactionData :=
    TransactionData.mk (Some "income") (Some (-5)%Q) (Some "A")
      (Some "Sales") None None in
  (-5 <= 0)%Q /\
  exists (record : Doc Transaction.t) (w' : World),
    recordTransaction transactionData bank = (Ok record, w') /\
    transactions w' = [record] /\
    Transaction.amount (data record) = (-5)%Q /\
    exists a, accounts w' !! "A" = Some a /\ (Account.balance a == 95)%Q.
Proof.
  cbn zeta. split; [discriminate|].
  eexists. eexists. split; [vm_compute; reflexivity|].
  split; [reflexivity|]. split; [reflexivity|].
  eexists. split; [vm_compute; reflexivity|]. reflexivity.
Qed.

(** C4, as the code has it.  [recordTransaction] throws a validation
    error, leaving the world as it was (no record created, no balance
    changed), for every input where one of the fields type, amount,
    accountId, category is absent, an empty string or the number 0, or
    where the type is transfer and [toAccountId] is absent or empty. *)
Theorem recordTransaction_rejects_invalid transactionData w :
  truthy_string (TransactionData.type transactionData) = false \/
  truthy_number (TransactionData.amount transactionData) = false \/
  truthy_string (TransactionData.accountId transactionData) = false \/
  truthy_string (TransactionData.category transactionData) = false \/
  (TransactionData.type transactionData = Some "transfer" /\
   truthy_string (TransactionData.toAccountId transactionData) = false) ->
  exists e,
    recordTransaction transactionData w = (Throw e, w) /\
    kind e = ValidationError.
Proof.
  intros Hbad. rewrite recordTransaction_eq, check_required_eq.
  destruct (missing transactionData) as [field|] eqn:Hmissing.
  - exists (MissingRequiredField field). split; reflexivity.
  - apply missing_None in Hmissing.
    destruct Hmissing as (H1 & H2 & H3 & H4).
    destruct Hbad as [H|[H|[H|[H|[Hty Hto]]]]]; try congruence.
    exists TransferRequiresToAccountId. split; [|reflexivity].
    unfold movement. cbn. rewrite Hty, Hto. reflexivity.
Qed.

Lemma recordTransaction_rejects_invalid_witness :
  let zero_amount :=
    TransactionData.mk (Some "income") (Some 0%Q) (Some "A") (Some "Sales")
      None None in
  let no_target :=
    TransactionData.mk (Some "transfer") (Some 50%Q) (Some "A")
      (Some "Account Transfer") None None in
  (exists e, recordTransaction zero_amount bank = (Throw e, bank)
             /\ kind e = ValidationError) /\
  (exists e, recordTransaction no_target bank = (Throw e, bank)
             /\ kind e = ValidationError).
Proof.
  cbn zeta. split.
  - apply recordTransaction_rejects_invalid. right. left. reflexivity.
  - apply recordTransaction_rejects_invalid.
    right. right. right. right. split; reflexivity.
Defined.

(** ** Customer credit *)

Lemma updateCustomerCredit_eq customerId amount type w :
  updateCustomerCredit customerId amount type w
  = match customers w !! customerId with
    | None => (Throw CustomerNotFound, w)
    | Some customer =>
        let newBalance := adjusted_balance customer amount type in
        if over_limit customer newBalance
        then (Throw CreditLimitExceeded, w)
        else
          match masterUser w, defaultUser w with
          | None, _ => (Throw UserNotAuthenticated, w)
          | Some _, None =>
              (Throw (TypeError "currentUser.uid"),
               credit_persisted customerId newBalance customer w)
          | Some user, Some sessionUser =>
              (Ok newBalance,
               credit_written customerId amount type customer user
                 sessionUser w)
          end
    end.
Proof.
  unfold updateCustomerCredit. run.
  destruct (customers w !! customerId) as [customer|] eqn:Hc;
    [|reflexivity].
  fold (adjusted_balance customer amount type).
  fold (over_limit customer (adjusted_balance customer amount type)).
  destruct (over_limit customer (adjusted_balance customer amount type));
    [reflexivity|].
  cbn. destruct (masterUser w) as [user|] eqn:Hu; [|reflexivity].
  cbn. rewrite Hc. cbn.
  destruct (defaultUser w) as [sessionUser|] eqn:Hd; [|reflexivity].
  cbn. rewrite Hu. reflexivity.
Qed.

#[local] Arguments updateCustomerCredit : simpl never.

Lemma adjusted_balance_clamped customer amount type :
  type = "decrease" \/ type = "payment" ->
  (0 <= adjusted_balance customer amount type)%Q.
Proof.
  unfold adjusted_balance. intros [->| ->]; cbn.
  - destruct (Qltb _ 0) eqn:E; [lra|]. now apply Qltb_ge in E.
  - destruct (Qltb _ 0) eqn:E; [lra|]. now apply Qltb_ge in E.
Qed.

Lemma adjusted_balance_nonneg customer amount type :
  (0 <= Customer.outstandingBalance customer)%Q ->
  (0 <= amount)%Q ->
  (0 <= adjusted_balance customer amount type)%Q.
Proof.
  intros Hb Ha. unfold adjusted_balance.
  destruct (String.eqb type "increase"); [lra|].
  destruct (String.eqb type "decrease").
  { destruct (Qltb _ 0) eqn:E; [lra|]. now apply Qltb_ge in E. }
  destruct (String.eqb type "payment"); [|exact Hb].
  destruct (Qltb _ 0) eqn:E; [lra|]. now apply Qltb_ge in E.
Qed.

Lemma over_limit_false customer newBalance :
  over_limit customer newBalance = false ->
  (0 < Customer.creditLimit customer)%Q ->
  (newBalance <= Customer.creditLimit customer)%Q.
Proof.
  unfold over_limit. intros H Hpos.
  apply Qltb_lt in Hpos. rewrite Hpos, andb_true_r in H.
  now apply Qltb_ge in H.
Qed.

Lemma over_limit_unlimited customer newBalance :
  (Customer.creditLimit customer == 0)%Q ->
  over_limit customer newBalance = false.
Proof.
  intros H. unfold over_limit. apply andb_false_iff. right.
  apply Qltb_ge. lra.
Qed.

(** An increase by a negative amount is persisted as it is: from 10
    outstanding, [updateCustomerCredit(c2, -20, 'increase')] succeeds and
    leaves an outstanding balance of -10. *)
Lemma updateCustomerCredit_persists_negative :
  exists (n : number) (w' : World) (c' : Customer.t),
    updateCustomerCredit "c2" (-20) "increase" ledger = (Ok n, w') /\
    customers w' !! "c2" = Some c' /\
    (Customer.outstandingBalance c' < 0)%Q.
Proof.
  eexists. eexists. eexists.
  split; [vm_compute; reflexivity|].
  split; [vm_compute; reflexivity|]. reflexivity.
Qed.

(** C5, as the code has it.  Whatever [updateCustomerCredit] persists for
    a customer is the adjusted balance, which is never below 0 when the
    type is decrease or payment (clamped at 0), nor for any type when the
    stored balance and the amount are both non-negative, and never above
    a positive credit limit: an adjusted balance above a positive limit
    throws [Credit limit exceeded] with nothing persisted.  With
    creditLimit = 0 every increase succeeds.  On success one credit
    transaction carrying the previous and the new balance is appended and
    the new balance is returned. *)
Theorem updateCustomerCredit_bounds customerId amount type w customer :
  customers w !! customerId = Some customer ->
  let rw := updateCustomerCredit customerId amount type w in
  let newBalance := adjusted_balance customer amount type in
  (customers rw.2 = customers w \/
   customers rw.2
   = <[customerId := Customer.with_credit newBalance customer]>
       (customers w) /\
   (type = "decrease" \/ type = "payment" -> (0 <= newBalance)%Q) /\
   ((0 <= Customer.outstandingBalance customer)%Q -> (0 <= amount)%Q ->
    (0 <= newBalance)%Q) /\
   ((0 < Customer.creditLimit customer)%Q ->
    (newBalance <= Customer.creditLimit customer)%Q)) /\
  ((0 < Customer.creditLimit customer)%Q ->
   (Customer.creditLimit customer < newBalance)%Q ->
   rw = (Throw CreditLimitExceeded, w) /\
   kind CreditLimitExceeded = CreditLimitExceededError) /\
  ((Customer.creditLimit customer == 0)%Q -> type = "increase" ->
   is_Some (masterUser w) -> is_Some (defaultUser w) ->
   rw.1 = Ok (Customer.outstandingBalance customer + amount)%Q) /\
  (forall n,
     rw.1 = Ok n ->
     n = newBalance /\
     exists (log : Doc CreditTransaction.t) (customer' : Customer.t),
       credit_transactions rw.2 = (credit_transactions w ++ [log])%list /\
       CreditTransaction.customerId (data log) = customerId /\
       CreditTransaction.previousBalance (data log)
       = Customer.outstandingBalance customer /\
       CreditTransaction.newBalance (data log) = n /\
       customers rw.2 !! customerId = Some customer' /\
       Customer.outstandingBalance customer' = n).
Proof.
  intros Hc rw newBalance. subst rw.
  rewrite updateCustomerCredit_eq, Hc. cbn zeta. fold newBalance.
  split; [|split; [|split]].
  - destruct (over_limit customer newBalance) eqn:Hlimit; [left; reflexivity|].
    assert (Hbounds :
      (type = "decrease" \/ type = "payment" -> (0 <= newBalance)%Q) /\
      ((0 <= Customer.outstandingBalance customer)%Q -> (0 <= amount)%Q ->
       (0 <= newBalance)%Q) /\
      ((0 < Customer.creditLimit customer)%Q ->
       (newBalance <= Customer.creditLimit customer)%Q)).
    { split; [apply adjusted_balance_clamped|].
      split; [apply adjusted_balance_nonneg|].
      now apply over_limit_false. }
    destruct (masterUser w), (defaultUser w); cbn;
      first [left; reflexivity | right; split; [reflexivity|exact Hbounds]].
  - intros Hpos Hover. apply Qltb_lt in Hpos, Hover.
    unfold over_limit. rewrite Hpos, Hover. cbn. split; reflexivity.
  - intros Hzero -> [user Hu] [sessionUser Hd].
    rewrite (over_limit_unlimited _ _ Hzero), Hu, Hd. reflexivity.
  - intros n Hn.
    destruct (over_limit customer newBalance); [discriminate|].
    destruct (masterUser w), (defaultUser w); try discriminate.
    cbn in Hn. injection Hn as <-. split; [reflexivity|].
    eexists. eexists. cbn. split; [reflexivity|].
    repeat (split; [reflexivity|]).
    split; [apply lookup_insert_eq|reflexivity].
Qed.

Lemma updateCustomerCredit_bounds_witness :
  customers ledger !! "c1" = Some (customer 90 100) /\
  updateCustomerCredit "c1" 20 "increase" ledger
  = (Throw CreditLimitExceeded, ledger) /\
  (exists n, (updateCustomerCredit "c1" 500 "payment" ledger).1 = Ok n
             /\ (0 <= n)%Q).
Proof.
  split; [reflexivity|]. split.
  - apply (updateCustomerCredit_bounds "c1" 20 "increase" ledger
             (customer 90 100) eq_refl); reflexivity.
  - exists 0%Q. split; [vm_compute; reflexivity|discriminate].
Defined.

(** C10.  After every successful [updateCustomerCredit] the customer
    document holds the same value, the returned new balance, in
    [creditUsed] and in [outstandingBalance]. *)
Theorem updateCustomerCredit_creditUsed customerId amount type w n w' :
  updateCustomerCredit customerId amount type w = (Ok n, w') ->
  exists customer',
    customers w' !! customerId = Some customer' /\
    Customer.creditUsed customer' = Customer.outstandingBalance customer' /\
    Customer.outstandingBalance customer' = n.
Proof.
  rewrite updateCustomerCredit_eq.
  destruct (customers w !! customerId) as [customer|]; [|discriminate].
  cbn zeta.
  destruct (over_limit customer _); [discriminate|].
  destruct (masterUser w), (defaultUser w); try discriminate.
  intros [= <- <-]. eexists. cbn.
  split; [apply lookup_insert_eq|]. split; reflexivity.
Qed.

Lemma updateCustomerCredit_creditUsed_witness :
  updateCustomerCredit "c1" 5 "increase" ledger
  = (Ok (90 + 5)%Q,
     credit_written "c1" 5 "increase" (customer 90 100) owner owner ledger)
  /\
  exists customer',
    customers
      (credit_written "c1" 5 "increase" (customer 90 100) owner owner ledger)
    !! "c1" = Some customer' /\
    Customer.creditUsed customer' = Customer.outstandingBalance customer' /\
    Customer.outstandingBalance customer' = (90 + 5)%Q.
Proof.
  split; [vm_compute; reflexivity|].
  apply (updateCustomerCredit_creditUsed "c1" 5 "increase" ledger).
  vm_compute. reflexivity.
Defined.

(** ** Profit and loss *)

Lemma pnl_fold transactions :
  forall pnl,
    let pnl' := fold_left pnl_step transactions pnl in
    (PnL.revenue pnl'
     == PnL.revenue pnl + total_where is_income transactions)%Q /\
    (PnL.cogs pnl'
     == PnL.cogs pnl
        + total_where (fun t => is_income t && is_cogs t) transactions)%Q /\
    (PnL.operatingExpenses pnl'
     == PnL.operatingExpenses pnl
        + total_where is_expense transactions)%Q.
Proof.
  induction transactions as [|t rest IH]; intros pnl; cbn.
  - repeat split; lra.
  - destruct (IH (pnl_step pnl t)) as (Hr & Hc & He). cbn zeta in *.
    rewrite Hr, Hc, He. clear IH Hr Hc He.
    unfold pnl_step, is_income, is_expense, is_cogs.
    destruct (String.eqb (Transaction.type t) "income") eqn:Ei.
    + apply String.eqb_eq in Ei. rewrite Ei. cbn.
      destruct (String.eqb (Transaction.category t) "Cost of Goods"); cbn;
        repeat split; lra.
    + destruct (String.eqb (Transaction.type t) "expense"); cbn;
        repeat split; lra.
Qed.

(** What the code computes: the cost of goods is accumulated inside the
    income branch only. *)
Lemma getProfitAndLoss_computes transactions :
  let pnl := getProfitAndLoss transactions in
  (PnL.grossProfit pnl
   == total_where is_income transactions
      - total_where (fun t => is_income t && is_cogs t) transactions)%Q /\
  (PnL.netProfit pnl
   == PnL.grossProfit pnl - total_where is_expense transactions)%Q.
Proof.
  destruct (pnl_fold transactions (PnL.mk 0 0 0 0 0 ∅ ∅)) as (Hr & Hc & He).
  cbn in *. rewrite Hr, Hc, He. split; lra.
Qed.

(** The code and the wording agree on every ledger in which the category
    "Cost of Goods" appears on income transactions only. *)
Lemma getProfitAndLoss_agrees transactions :
  Forall (fun t => is_cogs t = true -> is_income t = true) transactions ->
  (PnL.grossProfit (getProfitAndLoss transactions)
   == spec_grossProfit transactions)%Q /\
  (PnL.netProfit (getProfitAndLoss transactions)
   == spec_netProfit transactions)%Q.
Proof.
  intros Hall.
  assert (Hsame :
    (total_where (fun t => is_income t && is_cogs t) transactions
     == total_where is_cogs transactions)%Q).
  { induction Hall as [|t rest Ht _ IH]; cbn; [lra|].
    rewrite IH. destruct (is_cogs t) eqn:Ec.
    - rewrite Ht by reflexivity. cbn. lra.
    - rewrite andb_false_r. lra. }
  destruct (getProfitAndLoss_computes transactions) as (Hg & Hn).
  cbn zeta in Hg, Hn. unfold spec_netProfit, spec_grossProfit.
  split; [rewrite Hg|rewrite Hn, Hg]; rewrite Hsame; lra.
Qed.

(** C6, on the ledger that holds [goods_purchase] alone.
    [getProfitAndLoss] reports cost of goods 0, gross profit 0 and net
    profit -10, where income minus the "Cost of Goods" amounts is -10 and
    that minus the expenses is -20. *)
Theorem getProfitAndLoss_misses_cogs_expense :
  let pnl := getProfitAndLoss [goods_purchase] in
  (PnL.cogs pnl == 0)%Q /\
  (PnL.grossProfit pnl == 0)%Q /\
  (PnL.netProfit pnl == -10)%Q /\
  (spec_grossProfit [goods_purchase] == -10)%Q /\
  (spec_netProfit [goods_purchase] == -20)%Q /\
  ~ (PnL.grossProfit pnl == spec_grossProfit [goods_purchase])%Q.
Proof.
  cbn zeta. repeat split; try reflexivity. discriminate.
Qed.

(** ** Cart summary and tax *)

Lemma calculateTax_exclusive amount rate :
  Tax.taxAmount (calculateTax amount rate false)
  = toFixed2 (amount * (rate / 100))%Q.
Proof. reflexivity. Qed.

(** The line made by one call.  With tax rate 16 and an empty cart, adding
    two units of a product priced 10 in one call gives the single line
    {price: 10, quantity: 2}, whose tax is the exclusive tax of
    [calculateTax], here amount * rate / 100; the summary of that cart is
    subtotal 20, tax 3.20, total 23.20. *)
Theorem cart_summary_exclusive_tax w productId product :
  products w !! productId = Some product ->
  Product.price product = 10%Q ->
  (2 <= Product.stock product)%Q ->
  cart w = [] ->
  taxRate w = 16%Q ->
  exists line : CartItem.t,
    addToCart productId 2 w = (Ok [line], with_cart [line] w) /\
    CartItem.price line = 10%Q /\
    CartItem.quantity line = 2%Q /\
    CartItem.taxAmount line
    = Tax.taxAmount (calculateTax (CartItem.total line) 16 false) /\
    (CartItem.taxAmount line == CartItem.total line * 16 / 100)%Q /\
    updateCartSummary (with_cart [line] w)
    = (Ok (cartSummary [line]), with_cart [line] w) /\
    (Summary.subtotal (cartSummary [line]) == 20)%Q /\
    (Summary.tax (cartSummary [line]) == 3.20)%Q /\
    (Summary.total (cartSummary [line]) == 23.20)%Q.
Proof.
  intros Hp Hprice Hstock Hcart Hrate.
  apply Qltb_ge in Hstock.
  eexists. split.
  - unfold addToCart. run. rewrite Hp. cbn. rewrite Hstock. cbn.
    rewrite Hcart, Hrate, Hprice. cbn. reflexivity.
  - cbn. repeat split; reflexivity.
Qed.

Lemma cart_summary_exclusive_tax_witness :
  exists line : CartItem.t,
    addToCart "p1" 2 (shop 10) = (Ok [line], with_cart [line] (shop 10)) /\
    (CartItem.total line == 20)%Q /\
    (CartItem.taxAmount line == 3.20)%Q /\
    (Summary.subtotal (cartSummary [line]) == 20)%Q /\
    (Summary.tax (cartSummary [line]) == 3.20)%Q /\
    (Summary.total (cartSummary [line]) == 23.20)%Q.
Proof.
  destruct (cart_summary_exclusive_tax (shop 10) "p1" (widget 10))
    as (line & Hadd & _ & _ & _ & Htax & _ & Hsub & Hsum & Htotal);
    try reflexivity; try discriminate.
  exists line. split; [exact Hadd|].
  assert (Hline : line = CartItem.mk "p1" "Widget" "W-1" 10 6 2 (10 * 2)
                           (toFixed2 (10 * 2 * (16 / 100))) 10 "pcs").
  { vm_compute in Hadd. injection Hadd as <-. vm_compute. reflexivity. }
  split; [rewrite Hline; reflexivity|].
  split; [rewrite Hline; reflexivity|].
  split; [exact Hsub|]. split; [exact Hsum|exact Htotal].
Defined.

(** C8.  The same line made by two calls.  With tax rate 16 and an empty
    cart, adding one unit of a product priced 10 twice leaves the single
    line {price: 10, quantity: 2} with total 20, but the second call
    changes the quantity and the total of the line and not its tax, which
    stays the tax of the first unit, 1.60.  The summary of that cart is
    subtotal 20, tax 1.60, total 21.60: the tax is not amount * rate / 100
    (3.20) and the total is not 23.20. *)
Theorem cart_summary_stale_tax w productId product :
  products w !! productId = Some product ->
  Product.price product = 10%Q ->
  (1 <= Product.stock product)%Q ->
  cart w = [] ->
  taxRate w = 16%Q ->
  exists line : CartItem.t,
    (let* _ := addToCart productId 1 in addToCart productId 1) w
    = (Ok [line], with_cart [line] w) /\
    CartItem.price line = 10%Q /\
    (CartItem.quantity line == 2)%Q /\
    (CartItem.total line == 20)%Q /\
    (CartItem.taxAmount line == 1.60)%Q /\
    updateCartSummary (with_cart [line] w)
    = (Ok (cartSummary [line]), with_cart [line] w) /\
    (Summary.subtotal (cartSummary [line]) == 20)%Q /\
    (Summary.tax (cartSummary [line]) == 1.60)%Q /\
    (Summary.total (cartSummary [line]) == 21.60)%Q /\
    ~ (Summary.tax (cartSummary [line])
       == CartItem.total line * 16 / 100)%Q /\
    ~ (Summary.total (cartSummary [line]) == 23.20)%Q.
Proof.
  intros Hp Hprice Hstock Hcart Hrate.
  apply Qltb_ge in Hstock.
  eexists. split.
  - unfold addToCart. run. rewrite Hp. cbn. rewrite Hstock. cbn.
    rewrite Hcart, Hrate, Hprice. cbn. rewrite Hp. cbn. rewrite Hstock.
    cbn. rewrite String.eqb_refl. cbn. reflexivity.
  - unfold add_quantity. cbn.
    repeat split; try reflexivity; intros H; vm_compute in H; discriminate.
Qed.

Lemma cart_summary_stale_tax_witness :
  exists line : CartItem.t,
    (let* _ := addToCart "p1" 1 in addToCart "p1" 1) (shop 10)
    = (Ok [line], with_cart [line] (shop 10)) /\
    (CartItem.quantity line == 2)%Q /\
    (CartItem.total line == 20)%Q /\
    (CartItem.taxAmount line == 1.60)%Q /\
    (Summary.subtotal (cartSummary [line]) == 20)%Q /\
    (Summary.tax (cartSummary [line]) == 1.60)%Q /\
    (Summary.total (cartSummary [line]) == 21.60)%Q.
Proof.
  destruct (cart_summary_stale_tax (shop 10) "p1" (widget 10))
    as (line & Hadd & _ & Hquantity & Htotal & Htax & _ & Hsub & Hsum
        & Hall & _);
    try reflexivity; try discriminate.
  exists line. repeat split; assumption.
Defined.

(** Rounding is the identity on the tax of the scenario, and elsewhere it
    rounds to the cent. *)
Example toFixed2_samples :
  (toFixed2 3.2 == 3.2)%Q /\
  (toFixed2 2.7584 == 2.76)%Q /\
  (toFixed2 0.125 == 0.13)%Q /\
  (toFixed2 (-0.125) == -0.13)%Q.
Proof. repeat split; reflexivity. Qed.

(** ** Checkout on credit *)

#[local] Arguments checkout_steps : simpl never.
#[local] Arguments cartSummary : simpl never.


Example till_total :
  (Summary.total (cartSummary (cart till_with_cart)) == 20)%Q.
Proof. reflexivity. Qed.


(** * Further properties *)

(** ** Stock and products *)

(** X1.  The two refusals of [updateStock] are exact and write nothing:
    [Product not found] is thrown only for a product that does not
    exist, [Insufficient stock] only for a product whose stock plus the
    change is below 0, and in both cases the world is as before the
    call. *)
Theorem updateStock_refusals productId quantityChange reason reference w e
    w' :
  updateStock productId quantityChange reason reference w = (Throw e, w') ->
  (e = ProductNotFound -> products w !! productId = None /\ w' = w) /\
  (e = InsufficientStock ->
   (exists product,
      products w !! productId = Some product /\
      (Product.stock product + quantityChange < 0)%Q) /\
   w' = w).
Proof.
  intros Hrun.
  destruct (updateStock_cases productId quantityChange reason reference w)
    as [[Hp E]|(product & Hp & [[Hlt E]|[(_ & _ & E)|(_ & user & _ & E)]])];
    rewrite E in Hrun; try discriminate; injection Hrun as <- <-.
  - split; [auto|discriminate].
  - split; [discriminate|]. intros _. split; [eauto|reflexivity].
  - split; discriminate.
Qed.

Lemma updateStock_refusals_witness :
  updateStock "p1" (-12) "sale" None (shop 10)
  = (Throw InsufficientStock, shop 10) /\
  exists product,
    products (shop 10) !! "p1" = Some product /\
    (Product.stock product + -12 < 0)%Q.
Proof.
  assert (Hrun : updateStock "p1" (-12) "sale" None (shop 10)
                 = (Throw InsufficientStock, shop 10)) by reflexivity.
  split; [exact Hrun|].
  destruct (updateStock_refusals "p1" (-12) "sale" None (shop 10)
              InsufficientStock (shop 10) Hrun) as [_ Hshort].
  destruct (Hshort eq_refl) as [Hproduct _]. exact Hproduct.
Defined.

(** The presence check at the head of [addProduct]. *)
Lemma addProduct_check productData w :
  forEach ["name"; "sku"; "cost"; "price"; "stock"] (fun field =>
    if missing_product_field productData field
    then throw (MissingRequiredField field)
    else ret tt) w
  = match List.find (missing_product_field productData)
            ["name"; "sku"; "cost"; "price"; "stock"] with
    | Some field => (Throw (MissingRequiredField field), w)
    | None => (Ok tt, w)
    end.
Proof.
  cbn. unfold bind, missing_product_field. cbn.
  destruct (truthy_string (ProductData.name productData)); cbn;
    [|reflexivity].
  destruct (truthy_string (ProductData.sku productData)); cbn;
    [|reflexivity].
  destruct (ProductData.cost productData); cbn; [|reflexivity].
  destruct (ProductData.price productData); cbn; [|reflexivity].
  destruct (ProductData.stock productData); cbn; reflexivity.
Qed.

Lemma addProduct_eq productData w :
  addProduct productData w
  = match List.find (missing_product_field productData)
            ["name"; "sku"; "cost"; "price"; "stock"] with
    | Some field => (Throw (MissingRequiredField field), w)
    | None =>
        let stock := default 0%Q (ProductData.stock productData) in
        let level := number_or (ProductData.reorderLevel productData) 10 in
        addDocumentTo Products
          (Product.mk
             (default "" (ProductData.name productData))
             (default "" (ProductData.sku productData))
             (default 0%Q (ProductData.cost productData))
             (default 0%Q (ProductData.price productData))
             stock level (Qleb stock level)
             (string_or (ProductData.unit productData) "pcs")) w
    end.
Proof.
  unfold addProduct. unfold bind at 1. rewrite addProduct_check.
  destruct (List.find _ _); reflexivity.
Qed.

#[local] Arguments addProduct : simpl never.

Lemma find_missing_product_field productData :
  List.find (missing_product_field productData)
    ["name"; "sku"; "cost"; "price"; "stock"] = None <->
  truthy_string (ProductData.name productData) = true /\
  truthy_string (ProductData.sku productData) = true /\
  is_Some (ProductData.cost productData) /\
  is_Some (ProductData.price productData) /\
  is_Some (ProductData.stock productData).
Proof.
  unfold missing_product_field. cbn.
  destruct (truthy_string (ProductData.name productData)),
    (truthy_string (ProductData.sku productData)),
    (ProductData.cost productData), (ProductData.price productData),
    (ProductData.stock productData); cbn;
    split; intros H; try discriminate; try (repeat split; eauto; fail);
    destruct H as (H1 & H2 & H3 & H4 & H5);
    try discriminate;
    try (destruct H3 as [? H3]; discriminate);
    try (destruct H4 as [? H4]; discriminate);
    try (destruct H5 as [? H5]; discriminate).
Qed.

(** X2.  For a signed-in user, [addProduct] throws [Missing required
    field] exactly when the name or the sku is absent or empty, or the
    cost, the price or the stock is absent, and then nothing is written.
    A cost, price or stock of 0 is accepted. *)
Theorem addProduct_rejects productData w user :
  masterUser w = Some user ->
  ((exists field,
      addProduct productData w = (Throw (MissingRequiredField field), w))
   <-> (truthy_string (ProductData.name productData) = false \/
        truthy_string (ProductData.sku productData) = false \/
        ProductData.cost productData = None \/
        ProductData.price productData = None \/
        ProductData.stock productData = None)) /\
  (forall e w', addProduct productData w = (Throw e, w') -> w' = w).
Proof.
  intros Hu. rewrite addProduct_eq.
  destruct (List.find _ _) as [field|] eqn:Hfind.
  - split.
    + split; [intros _|intros _; eauto].
      assert (Hnot : ~ (List.find (missing_product_field productData)
                          ["name"; "sku"; "cost"; "price"; "stock"] = None))
        by congruence.
      rewrite find_missing_product_field in Hnot.
      destruct (truthy_string (ProductData.name productData)); auto.
      destruct (truthy_string (ProductData.sku productData)); auto.
      destruct (ProductData.cost productData); auto.
      destruct (ProductData.price productData); auto.
      destruct (ProductData.stock productData); auto.
      exfalso. apply Hnot. repeat split; eauto.
    + intros e w' [= _ <-]. reflexivity.
  - apply find_missing_product_field in Hfind.
    destruct Hfind as (H1 & H2 & [c Hc] & [p Hp] & [s Hs]).
    cbn zeta. unfold addDocumentTo. run. rewrite Hu. cbn. split.
    + split; [intros (field & H); discriminate|].
      intros [H|[H|[H|[H|H]]]]; congruence.
    + intros e w' H. discriminate.
Qed.

Lemma addProduct_rejects_witness :
  (exists field,
     addProduct
       (ProductData.mk (Some "Nut") (Some "") (Some 0%Q) (Some 1%Q)
          (Some 0%Q) None None) (shop 10)
     = (Throw (MissingRequiredField field), shop 10)) /\
  (exists id product w',
     addProduct
       (ProductData.mk (Some "Nut") (Some "N-1") (Some 0%Q) (Some 1%Q)
          (Some 0%Q) None None) (shop 10)
     = (Ok (id, product), w')).
Proof.
  split.
  - apply (addProduct_rejects _ (shop 10) owner eq_refl).
    right. left. reflexivity.
  - eexists. eexists. eexists. vm_compute. reflexivity.
Defined.

(** X3.  The product that [addProduct] stores carries the reorder level
    given, or 10 when none or 0 was given (so never 0), and its flag
    [lowStock] agrees with its stock and reorder level; the other
    products are untouched. *)
Theorem addProduct_stores productData w id product w' :
  addProduct productData w = (Ok (id, product), w') ->
  products w' !! id = Some product /\
  (forall k, k <> id -> products w' !! k = products w !! k) /\
  ProductData.stock productData = Some (Product.stock product) /\
  Product.reorderLevel product
  = number_or (ProductData.reorderLevel productData) 10 /\
  ~ (Product.reorderLevel product == 0)%Q /\
  lowStock_consistent product.
Proof.
  rewrite addProduct_eq.
  destruct (List.find _ _) as [field|] eqn:Hfind; [discriminate|].
  apply find_missing_product_field in Hfind.
  destruct Hfind as (_ & _ & _ & _ & [s Hs]).
  cbn zeta. unfold addDocumentTo. run.
  destruct (masterUser w); [|discriminate]. cbn.
  intros [= <- <- <-]. cbn.
  split; [apply lookup_insert_eq|].
  split; [intros k Hk; apply lookup_insert_ne; congruence|].
  split; [rewrite Hs; reflexivity|].
  split; [reflexivity|].
  split; [|reflexivity].
  unfold number_or.
  destruct (truthy_number (ProductData.reorderLevel productData)) eqn:Ht.
  - apply truthy_number_true in Ht. destruct Ht as (x & -> & Hx). exact Hx.
  - discriminate.
Qed.

Lemma addProduct_stores_witness :
  let productData :=
    ProductData.mk (Some "Nut") (Some "N-1") (Some 0%Q) (Some 1%Q)
      (Some 4%Q) (Some 0%Q) None in
  exists id product w',
    addProduct productData (shop 10) = (Ok (id, product), w') /\
    products w' !! id = Some product /\
    Product.reorderLevel product = 10%Q /\
    Product.lowStock product = true.
Proof.
  cbn zeta.
  destruct (addProduct
              (ProductData.mk (Some "Nut") (Some "N-1") (Some 0%Q)
                 (Some 1%Q) (Some 4%Q) (Some 0%Q) None) (shop 10))
    as [[[id product]|e] w'] eqn:Hrun; [|vm_compute in Hrun; discriminate].
  exists id, product, w'. split; [reflexivity|].
  destruct (addProduct_stores _ _ _ _ _ Hrun)
    as (Hstored & _ & _ & Hlevel & _ & Hlow).
  split; [exact Hstored|]. split; [exact Hlevel|].
  rewrite Hlow, Hlevel.
  vm_compute in Hrun. injection Hrun as _ <- _. reflexivity.
Defined.

Lemma addProduct_inserts productData w id product w' :
  addProduct productData w = (Ok (id, product), w') ->
  products w' = <[id := product]> (products w) /\
  lowStock_consistent product.
Proof.
  rewrite addProduct_eq.
  destruct (List.find _ _) as [field|]; [discriminate|].
  cbn zeta. unfold addDocumentTo. run.
  destruct (masterUser w); [|discriminate]. cbn.
  intros [= <- <- <-]. split; reflexivity.
Qed.

(** X4.  If the flag [lowStock] of every stored product agrees with its
    stock and reorder level, it still does after [addProduct] and after
    [updateStock], whatever their outcome. *)
Theorem lowStock_consistent_kept w :
  (forall k p, products w !! k = Some p -> lowStock_consistent p) ->
  (forall productData r w',
     addProduct productData w = (r, w') ->
     forall k p, products w' !! k = Some p -> lowStock_consistent p) /\
  (forall productId quantityChange reason reference r w',
     updateStock productId quantityChange reason reference w = (r, w') ->
     forall k p, products w' !! k = Some p -> lowStock_consistent p).
Proof.
  intros Hall. split.
  - intros productData r w' Hrun k p Hk.
    destruct r as [[id product]|e].
    + destruct (addProduct_inserts _ _ _ _ _ Hrun) as [Hstored Hlow].
      rewrite Hstored in Hk.
      destruct (decide (k = id)) as [->|Hne].
      * rewrite lookup_insert_eq in Hk. injection Hk as <-. exact Hlow.
      * rewrite lookup_insert_ne in Hk by congruence. eapply Hall, Hk.
    + rewrite addProduct_eq in Hrun.
      destruct (List.find _ _); [injection Hrun as _ <-; eapply Hall, Hk|].
      cbn zeta in Hrun. unfold addDocumentTo in Hrun. revert Hrun. run.
      destruct (masterUser w); cbn; [discriminate|].
      intros [= _ <-]. eapply Hall, Hk.
  - intros productId quantityChange reason reference r w' Hrun k p Hk.
    destruct r as [n|e].
    + destruct (updateStock_cases productId quantityChange reason
                  reference w)
        as [[_ E]|(product & Hp & [[_ E]|[(_ & _ & E)|(_ & user & _ & E)]])];
        rewrite E in Hrun; try discriminate.
      injection Hrun as _ <-. cbn in Hk.
      destruct (decide (k = productId)) as [->|Hne].
      * rewrite lookup_insert_eq in Hk. injection Hk as <-. reflexivity.
      * rewrite lookup_insert_ne in Hk by congruence. eapply Hall, Hk.
    + assert (w' = w) as ->.
      { destruct (updateStock_cases productId quantityChange reason
                    reference w)
          as [[_ E]|(product & _ & [[_ E]|[(_ & _ & E)|(_ & user & _ & E)]])];
          rewrite E in Hrun; congruence. }
      eapply Hall, Hk.
Qed.

Lemma lowStock_consistent_kept_witness :
  exists p,
    products (updateStock "p1" (-6) "sale" None (shop 10)).2 !! "p1"
    = Some p /\
    Product.stock p = (10 + -6)%Q /\
    lowStock_consistent p.
Proof.
  exists (Product.with_stock (10 + -6) true (widget 10)).
  split; [vm_compute; reflexivity|]. split; [reflexivity|].
  destruct (lowStock_consistent_kept (shop 10)) as [_ Hkept].
  - intros k p Hk. cbn in Hk.
    destruct (decide (k = "p1")) as [->|Hne].
    + rewrite lookup_insert_eq in Hk. injection Hk as <-.
      vm_compute. reflexivity.
    + rewrite lookup_insert_ne in Hk by congruence.
      rewrite lookup_empty in Hk. discriminate.
  - eapply (Hkept "p1" (-6)%Q "sale" None _ _ (surjective_pairing _) "p1").
    vm_compute. reflexivity.
Defined.

(** ** Customer balance *)

Lemma updateCustomerBalance_eq customerId amount type w :
  updateCustomerBalance customerId amount type w
  = match customers w !! customerId with
    | None => (Throw CustomerNotFound, w)
    | Some customer =>
        match masterUser w with
        | None => (Throw UserNotAuthenticated, w)
        | Some _ =>
            (Ok (balance_after customer amount type),
             with_customers
               (<[customerId :=
                    with_outstanding (balance_after customer amount type)
                      customer]> (customers w))
               w)
        end
    end.
Proof.
  unfold updateCustomerBalance. run.
  destruct (customers w !! customerId) as [customer|] eqn:Hc;
    [|reflexivity].
  fold (balance_after customer amount type). cbn.
  destruct (masterUser w); [|reflexivity]. cbn. rewrite Hc. reflexivity.
Qed.

#[local] Arguments updateCustomerBalance : simpl never.

(** X5.  [updateCustomerBalance] writes the outstanding balance alone: the
    fields [creditUsed] and [creditLimit] stay as they were and no credit
    transaction is recorded; a sale adds the amount, a payment never
    leaves a negative balance; and the call never throws [Credit limit
    exceeded], whatever the limit. *)
Theorem updateCustomerBalance_writes_balance_only customerId amount type w
    customer :
  customers w !! customerId = Some customer ->
  (forall n w',
     updateCustomerBalance customerId amount type w = (Ok n, w') ->
     exists customer',
       customers w' !! customerId = Some customer' /\
       Customer.outstandingBalance customer' = n /\
       Customer.creditUsed customer' = Customer.creditUsed customer /\
       Customer.creditLimit customer' = Customer.creditLimit customer /\
       credit_transactions w' = credit_transactions w /\
       (type = "sale" ->
        (n == Customer.outstandingBalance customer + amount)%Q) /\
       (type = "payment" -> (0 <= n)%Q)) /\
  (forall w',
     updateCustomerBalance customerId amount type w
     <> (Throw CreditLimitExceeded, w')).
Proof.
  intros Hc. rewrite updateCustomerBalance_eq, Hc. split.
  - intros n w'. destruct (masterUser w); [|discriminate].
    intros [= <- <-]. eexists. cbn.
    split; [apply lookup_insert_eq|]. cbn.
    repeat (split; [reflexivity|]). split.
    + intros ->. unfold balance_after. cbn. lra.
    + intros ->. unfold balance_after. cbn.
      destruct (Qltb _ 0) eqn:E; [lra|]. now apply Qltb_ge in E.
  - intros w'. destruct (masterUser w); discriminate.
Qed.

Lemma updateCustomerBalance_writes_balance_only_witness :
  exists n w' customer',
    updateCustomerBalance "c1" 50 "sale" ledger = (Ok n, w') /\
    customers w' !! "c1" = Some customer' /\
    (Customer.outstandingBalance customer' == 140)%Q /\
    Customer.creditUsed customer' = 90%Q /\
    Customer.creditLimit customer' = 100%Q.
Proof.
  destruct (updateCustomerBalance "c1" 50 "sale" ledger) as [[n|e] w']
    eqn:Hrun; [|vm_compute in Hrun; discriminate].
  destruct (updateCustomerBalance_writes_balance_only "c1" 50 "sale" ledger
              (customer 90 100) eq_refl) as [Hok _].
  destruct (Hok n w' Hrun) as (c' & Hc' & Hn & Hused & Hlimit & _ & Hsale & _).
  exists n, w', c'. split; [reflexivity|]. split; [exact Hc'|].
  split; [rewrite Hn, (Hsale eq_refl); reflexivity|].
  split; [exact Hused|exact Hlimit].
Defined.

(** X6.  For a signed-in user and a customer whose balance is not
    negative, a sale followed by a payment of the same amount gives the
    balance back.  In the other order the part of the payment above the
    balance is lost: when the amount exceeds the balance, the balance ends
    at the amount. *)
Theorem updateCustomerBalance_sale_payment customerId amount w customer user :
  customers w !! customerId = Some customer ->
  masterUser w = Some user ->
  (0 <= Customer.outstandingBalance customer)%Q ->
  (exists n w',
     (let* _ := updateCustomerBalance customerId amount "sale" in
      updateCustomerBalance customerId amount "payment") w = (Ok n, w') /\
     (n == Customer.outstandingBalance customer)%Q) /\
  (exists n w',
     (let* _ := updateCustomerBalance customerId amount "payment" in
      updateCustomerBalance customerId amount "sale") w = (Ok n, w') /\
     ((amount <= Customer.outstandingBalance customer)%Q ->
      (n == Customer.outstandingBalance customer)%Q) /\
     ((Customer.outstandingBalance customer < amount)%Q ->
      (n == amount)%Q)).
Proof.
  intros Hc Hu Hb. split.
  - eexists. eexists. split.
    + unfold bind. rewrite updateCustomerBalance_eq, Hc, Hu.
      rewrite updateCustomerBalance_eq. cbn.
      rewrite lookup_insert_eq, Hu. reflexivity.
    + unfold balance_after. cbn.
      destruct (Qltb _ 0) eqn:E; [apply Qltb_lt in E|]; lra.
  - eexists. eexists. split.
    + unfold bind. rewrite updateCustomerBalance_eq, Hc, Hu.
      rewrite updateCustomerBalance_eq. cbn.
      rewrite lookup_insert_eq, Hu. reflexivity.
    + unfold balance_after. cbn.
      destruct (Qltb _ 0) eqn:E;
        [apply Qltb_lt in E|apply Qltb_ge in E]; split; intros; lra.
Qed.

Lemma updateCustomerBalance_sale_payment_witness :
  (exists n w',
     (let* _ := updateCustomerBalance "c2" 25 "sale" in
      updateCustomerBalance "c2" 25 "payment") ledger = (Ok n, w') /\
     (n == 10)%Q) /\
  (exists n w',
     (let* _ := updateCustomerBalance "c2" 25 "payment" in
      updateCustomerBalance "c2" 25 "sale") ledger = (Ok n, w') /\
     (n == 25)%Q).
Proof.
  destruct (updateCustomerBalance_sale_payment "c2" 25 ledger
              (customer 10 0) owner eq_refl eq_refl)
    as [(n1 & w1 & H1 & E1) (n2 & w2 & H2 & E2)]; [discriminate|].
  split.
  - exists n1, w1. split; [exact H1|]. rewrite E1. reflexivity.
  - exists n2, w2. split; [exact H2|]. apply E2. reflexivity.
Defined.

(** ** Analytics *)

Lemma value_of_fold products init :
  (fold_left (fun sum p => (sum + Product.stock p.2 * Product.cost p.2)%Q)
     products init
   == init + value_of products)%Q.
Proof.
  revert init. induction products as [|p rest IH]; intros init; cbn.
  - lra.
  - rewrite IH. lra.
Qed.

Lemma value_of_Permutation l l' :
  l ≡ₚ l' -> (value_of l == value_of l')%Q.
Proof.
  induction 1 as [|x l l' _ IH|x y l|l l' l'' _ IH1 _ IH2]; cbn.
  - reflexivity.
  - rewrite IH. reflexivity.
  - lra.
  - rewrite IH1. exact IH2.
Qed.

Lemma value_of_insert (m : gmap string Product.t) k p p' :
  m !! k = Some p ->
  (value_of (map_to_list (<[k := p']> m))
   == value_of (map_to_list m)
      - Product.stock p * Product.cost p
      + Product.stock p' * Product.cost p')%Q.
Proof.
  intros Hk.
  rewrite <- (insert_delete_eq m k p').
  rewrite (value_of_Permutation _ _
             (map_to_list_insert (delete k m) k p' (lookup_delete_eq m k))).
  rewrite <- (value_of_Permutation _ _ (map_to_list_delete m k p Hk)).
  cbn. lra.
Qed.

Lemma getStockValue_eq w :
  getStockValue w
  = (Ok (fold_left
           (fun sum p => (sum + Product.stock p.2 * Product.cost p.2)%Q)
           (map_to_list (products w)) 0%Q), w).
Proof. reflexivity. Qed.

(** X7.  [getStockValue] follows [updateStock]: after a successful
    adjustment of a product by [quantityChange], the value of the stock
    has changed by [quantityChange] times the cost of that product. *)
Theorem getStockValue_after_updateStock productId quantityChange reason
    reference w n w' product :
  products w !! productId = Some product ->
  updateStock productId quantityChange reason reference w = (Ok n, w') ->
  exists v v',
    getStockValue w = (Ok v, w) /\
    getStockValue w' = (Ok v', w') /\
    (v' == v + quantityChange * Product.cost product)%Q.
Proof.
  intros Hp Hrun.
  destruct (updateStock_cases productId quantityChange reason reference w)
    as [[_ E]|(p & Hp' & [[_ E]|[(_ & _ & E)|(_ & user & _ & E)]])];
    rewrite E in Hrun; try discriminate.
  assert (p = product) by congruence. subst p.
  injection Hrun as <- <-.
  eexists. eexists. split; [apply getStockValue_eq|].
  split; [apply getStockValue_eq|].
  rewrite !value_of_fold. cbn [products stock_written with_inventory_logs
                                with_nextId with_products].
  rewrite (value_of_insert _ _ _ _ Hp). cbn. lra.
Qed.

Lemma getStockValue_after_updateStock_witness :
  exists v v',
    getStockValue (shop 10) = (Ok v, shop 10) /\
    (getStockValue (updateStock "p1" (-3) "sale" None (shop 10)).2).1
    = Ok v' /\
    (v == 60)%Q /\ (v' == 42)%Q.
Proof.
  destruct (getStockValue_after_updateStock "p1" (-3) "sale" None (shop 10)
              (10 + -3)%Q
              (stock_written "p1" (-3) "sale" None (widget 10) owner
                 (shop 10)) (widget 10))
    as (v & v' & Hv & Hv' & Heq);
    [reflexivity|vm_compute; reflexivity|].
  exists v, v'. split; [exact Hv|].
  assert (Hw : (updateStock "p1" (-3) "sale" None (shop 10)).2
               = stock_written "p1" (-3) "sale" None (widget 10) owner
                   (shop 10)) by (vm_compute; reflexivity).
  rewrite Hw, Hv'. split; [reflexivity|].
  assert (Hv60 : (v == 60)%Q).
  { rewrite getStockValue_eq in Hv. injection Hv as <-.
    vm_compute. reflexivity. }
  split; [exact Hv60|]. rewrite Heq, Hv60. reflexivity.
Defined.

Lemma add_detail_lookup c amount (m : gmap string number) k :
  add_detail c amount m !! k
  = if decide (c = k)
    then Some ((match m !! c with
                | Some x => if Qfalsy x then 0 else x
                | None => 0
                end) + amount)%Q
    else m !! k.
Proof. unfold add_detail. apply lookup_insert. Qed.

Lemma summary_fold transactions :
  forall s,
    let s' := fold_left summary_of_step transactions s in
    (FinancialSummary.income s'
     == FinancialSummary.income s + total_where is_income transactions)%Q /\
    (FinancialSummary.expenses s'
     == FinancialSummary.expenses s
        + total_where is_expense transactions)%Q /\
    (FinancialSummary.transfers s'
     == FinancialSummary.transfers s
        + total_where is_transfer transactions)%Q /\
    forall c,
      (existsb (in_category c) transactions = false ->
       FinancialSummary.byCategory s' !! c
       = FinancialSummary.byCategory s !! c) /\
      (existsb (in_category c) transactions = true ->
       exists v,
         FinancialSummary.byCategory s' !! c = Some v /\
         (v == default 0%Q (FinancialSummary.byCategory s !! c)
               + total_where (in_category c) transactions)%Q).
Proof.
  induction transactions as [|t rest IH]; intros s; cbn zeta.
  - cbn. repeat split; try lra; discriminate.
  - destruct (IH (summary_of_step s t)) as (Hi & He & Ht & Hc).
    cbn [fold_left]. cbn zeta in Hi, He, Ht, Hc.
    split; [|split; [|split]].
    + rewrite Hi. unfold summary_of_step, is_income. cbn.
      destruct (String.eqb (Transaction.type t) "income") eqn:E1; cbn;
        [lra|].
      destruct (String.eqb (Transaction.type t) "expense"); cbn; [lra|].
      destruct (String.eqb (Transaction.type t) "transfer"); cbn; lra.
    + rewrite He. unfold summary_of_step, is_expense. cbn.
      destruct (String.eqb (Transaction.type t) "income") eqn:E1; cbn.
      { apply String.eqb_eq in E1. rewrite E1. cbn. lra. }
      destruct (String.eqb (Transaction.type t) "expense"); cbn; [lra|].
      destruct (String.eqb (Transaction.type t) "transfer"); cbn; lra.
    + rewrite Ht. unfold summary_of_step, is_transfer. cbn.
      destruct (String.eqb (Transaction.type t) "income") eqn:E1; cbn.
      { apply String.eqb_eq in E1. rewrite E1. cbn. lra. }
      destruct (String.eqb (Transaction.type t) "expense") eqn:E2; cbn.
      { apply String.eqb_eq in E2. rewrite E2. cbn. lra. }
      destruct (String.eqb (Transaction.type t) "transfer"); cbn; lra.
    + intros c. destruct (Hc c) as [Hnone Hsome].
      assert (Hstep :
        FinancialSummary.byCategory (summary_of_step s t)
        = add_detail (Transaction.category t) (Transaction.amount t)
            (FinancialSummary.byCategory s)).
      { unfold summary_of_step.
        destruct (String.eqb (Transaction.type t) "income"); [reflexivity|].
        destruct (String.eqb (Transaction.type t) "expense"); [reflexivity|].
        destruct (String.eqb (Transaction.type t) "transfer"); reflexivity. }
      rewrite Hstep in Hnone, Hsome. rewrite add_detail_lookup in Hnone, Hsome.
      cbn [existsb total_where]. unfold in_category at 1 3 5.
      destruct (String.eqb (Transaction.category t) c) eqn:Ec.
      * apply String.eqb_eq in Ec. subst c.
        rewrite decide_True in Hnone, Hsome by reflexivity.
        split; [discriminate|]. intros _.
        assert (Hcur :
          ((match FinancialSummary.byCategory s !! Transaction.category t with
            | Some x => if Qfalsy x then 0 else x
            | None => 0
            end)
           == default 0%Q
                (FinancialSummary.byCategory s !! Transaction.category t))%Q).
        { destruct (FinancialSummary.byCategory s !! Transaction.category t)
            as [x|]; cbn; [|reflexivity].
          destruct (Qfalsy x) eqn:Ex; [|reflexivity].
          apply Qfalsy_zero in Ex. rewrite Ex. reflexivity. }
        destruct (existsb (in_category (Transaction.category t)) rest) eqn:Er.
        -- destruct (Hsome eq_refl) as (v & Hv & Hveq).
           exists v. split; [exact Hv|]. rewrite Hveq. cbn. rewrite Hcur. lra.
        -- eexists. split; [rewrite Hnone by reflexivity; reflexivity|].
           assert (Hzero : forall l,
             existsb (in_category (Transaction.category t)) l = false ->
             (total_where (in_category (Transaction.category t)) l == 0)%Q).
           { induction l as [|x l IHl]; cbn; [reflexivity|].
             intros H. apply orb_false_iff in H. destruct H as [H1 H2].
             rewrite H1, (IHl H2). lra. }
           rewrite (Hzero rest Er), Hcur. lra.
      * assert (Hne : Transaction.category t <> c)
          by (apply String.eqb_neq; exact Ec).
        rewrite decide_False in Hnone, Hsome by exact Hne. cbn.
        split; [exact Hnone|]. intros Hex.
        destruct (Hsome Hex) as (v & Hv & Hveq).
        exists v. split; [exact Hv|]. rewrite Hveq. lra.
Qed.

(** X8.  The figures of [getFinancialSummary]: income, expenses and
    transfers are the sums of the amounts by type and net is income minus
    expenses.  For every category that is not the name of a member of
    [Object.prototype], [byCategory] has an entry exactly when the
    category occurs, and the entry is the sum of the amounts of all the
    transactions of the category, whatever their type.  Net is the net
    profit of [getProfitAndLoss] plus its cost of goods. *)
Theorem getFinancialSummary_figures transactions :
  let summary := getFinancialSummary transactions in
  (FinancialSummary.income summary
   == total_where is_income transactions)%Q /\
  (FinancialSummary.expenses summary
   == total_where is_expense transactions)%Q /\
  (FinancialSummary.transfers summary
   == total_where is_transfer transactions)%Q /\
  (FinancialSummary.net summary
   == total_where is_income transactions
      - total_where is_expense transactions)%Q /\
  (forall c,
     inherited_key c = false ->
     (FinancialSummary.byCategory summary !! c = None <->
      existsb (in_category c) transactions = false) /\
     (forall v,
        FinancialSummary.byCategory summary !! c = Some v ->
        (v == total_where (in_category c) transactions)%Q)) /\
  (FinancialSummary.net summary
   == PnL.netProfit (getProfitAndLoss transactions)
      + PnL.cogs (getProfitAndLoss transactions))%Q.
Proof.
  destruct (summary_fold transactions (FinancialSummary.mk 0 0 0 0 ∅))
    as (Hi & He & Ht & Hc).
  cbn zeta in *. cbn [FinancialSummary.income FinancialSummary.expenses
    FinancialSummary.transfers FinancialSummary.net
    FinancialSummary.byCategory getFinancialSummary] in *.
  split; [rewrite Hi; lra|]. split; [rewrite He; lra|].
  split; [rewrite Ht; lra|]. split; [rewrite Hi, He; lra|]. split.
  - intros c _. destruct (Hc c) as [Hnone Hsome].
    destruct (existsb (in_category c) transactions) eqn:Ex.
    + destruct (Hsome eq_refl) as (v & Hv & Hveq). split.
      * split; intros H; [congruence|discriminate].
      * intros v' Hv'. assert (v' = v) by congruence. subst v'.
        rewrite Hveq, lookup_empty. cbn. lra.
    + rewrite (Hnone eq_refl), lookup_empty. split.
      * split; reflexivity.
      * intros v H. discriminate.
  - destruct (pnl_fold transactions (PnL.mk 0 0 0 0 0 ∅ ∅)) as (Hr & Hg & Ho).
    cbn in Hr, Hg, Ho |- *. rewrite Hi, He, Hr, Hg, Ho. lra.
Qed.

(** X9.  On a ledger whose income transactions carry the income
    categories of [FinanceManager] (Sales, Service, Interest, Other
    Income), [getProfitAndLoss] reports a cost of goods of 0 and a gross
    profit equal to the revenue, whatever the expenses. *)
Theorem getProfitAndLoss_cogs_zero transactions :
  Forall (fun t => is_income t = true ->
                   In (Transaction.category t) income_categories)
    transactions ->
  (PnL.cogs (getProfitAndLoss transactions) == 0)%Q /\
  (PnL.grossProfit (getProfitAndLoss transactions)
   == PnL.revenue (getProfitAndLoss transactions))%Q.
Proof.
  intros Hall.
  assert (Hzero :
    (total_where (fun t => is_income t && is_cogs t) transactions == 0)%Q).
  { induction Hall as [|t rest Ht _ IH]; cbn; [reflexivity|].
    rewrite IH. destruct (is_income t) eqn:Ei; cbn; [|lra].
    destruct (is_cogs t) eqn:Ec; [|lra].
    exfalso. specialize (Ht eq_refl). unfold is_cogs in Ec.
    apply String.eqb_eq in Ec. rewrite Ec in Ht. cbn in Ht.
    repeat (destruct Ht as [Ht|Ht]; [discriminate|]). exact Ht. }
  destruct (pnl_fold transactions (PnL.mk 0 0 0 0 0 ∅ ∅)) as (Hr & Hg & Ho).
  cbn in Hr, Hg, Ho |- *. rewrite Hg, Hzero. split; lra.
Qed.

Lemma getProfitAndLoss_cogs_zero_witness :
  (PnL.cogs (getProfitAndLoss [sale_income; goods_purchase]) == 0)%Q /\
  (PnL.grossProfit (getProfitAndLoss [sale_income; goods_purchase])
   == PnL.revenue (getProfitAndLoss [sale_income; goods_purchase]))%Q.
Proof.
  apply getProfitAndLoss_cogs_zero.
  constructor; [intros _; left; reflexivity|].
  constructor; [discriminate|constructor].
Defined.

(** ** Transactions: every outcome *)

Lemma autoId_inj n m : autoId n = autoId m -> n = m.
Proof.
  unfold autoId. cbn. intros [= H]. exact (inj pretty _ _ H).
Qed.

Lemma with_accounts_same w : with_accounts (accounts w) w = w.
Proof. destruct w. reflexivity. Qed.

Lemma updateAccountBalance_cases accountId amountChange w :
  (accounts w !! accountId = None /\
   updateAccountBalance accountId amountChange w
   = (Throw AccountNotFound, w)) \/
  (exists account,
     accounts w !! accountId = Some account /\
     ((masterUser w = None /\
       updateAccountBalance accountId amountChange w
       = (Throw UserNotAuthenticated, w)) \/
      (exists user,
         masterUser w = Some user /\
         updateAccountBalance accountId amountChange w
         = (Ok (Account.balance account + amountChange)%Q,
            balance_written accountId amountChange account w)))).
Proof.
  destruct (accounts w !! accountId) as [account|] eqn:Ha.
  - right. exists account. split; [reflexivity|].
    destruct (masterUser w) as [user|] eqn:Hu.
    + right. exists user. split; [reflexivity|].
      eapply updateAccountBalance_ok; eauto.
    + left. split; [reflexivity|].
      eapply updateAccountBalance_unauthenticated; eauto.
  - left. split; [reflexivity|]. now apply updateAccountBalance_not_found.
Qed.

Lemma accounts_balance_written accountId amountChange account w :
  accounts (balance_written accountId amountChange account w)
  = <[accountId :=
        Account.with_balance (Account.balance account + amountChange)%Q
          account]> (accounts w).
Proof. reflexivity. Qed.

(** One balance update, seen from each account [k]. *)
Lemma balance_written_lookup accountId amountChange account w k x :
  accounts w !! accountId = Some account ->
  accounts w !! k = Some x ->
  exists x',
    accounts (balance_written accountId amountChange account w) !! k
    = Some x' /\
    (Account.balance x'
     == Account.balance x
        + (if String.eqb accountId k then amountChange else 0))%Q.
Proof.
  intros Ha Hk. cbn. destruct (String.eqb accountId k) eqn:E.
  - apply String.eqb_eq in E. subst k.
    assert (x = account) by congruence. subst x.
    rewrite lookup_insert_eq. eexists. split; [reflexivity|]. cbn. lra.
  - apply String.eqb_neq in E. rewrite lookup_insert_ne by exact E.
    exists x. split; [exact Hk|]. lra.
Qed.

Lemma balance_written_lookup_None accountId amountChange account w k :
  accounts w !! accountId = Some account ->
  accounts w !! k = None ->
  accounts (balance_written accountId amountChange account w) !! k = None.
Proof.
  intros Ha Hk. rewrite accounts_balance_written.
  rewrite lookup_insert_ne; [exact Hk|]. congruence.
Qed.

Lemma accounts_moved_none transactionData w :
  (forall k, (movement_on k (transaction_of transactionData) == 0)%Q) ->
  accounts_moved transactionData w w.
Proof.
  intros Hzero. exists (accounts w).
  split; [symmetry; apply with_accounts_same|]. split; [auto|].
  intros k x Hk. exists x. split; [exact Hk|]. rewrite Hzero. lra.
Qed.

Lemma balance_written_twice a1 d1 x1 a2 d2 x2 w :
  balance_written a2 d2 x2 (balance_written a1 d1 x1 w)
  = with_accounts
      (accounts (balance_written a2 d2 x2 (balance_written a1 d1 x1 w))) w.
Proof. destruct w. reflexivity. Qed.

Lemma balance_written_once a1 d1 x1 w :
  balance_written a1 d1 x1 w
  = with_accounts (accounts (balance_written a1 d1 x1 w)) w.
Proof. destruct w. reflexivity. Qed.

(** The outcomes of the balance updates of [recordTransaction]: they
    succeed with the movement applied, or throw with nothing written, or,
    for a transfer whose second update fails, throw with the source
    already debited. *)
Lemma movement_outcome transactionData w :
  let t := transaction_of transactionData in
  (exists w2,
     movement transactionData w = (Ok tt, w2) /\
     accounts_moved transactionData w w2 /\
     (is_Some (masterUser w) \/ w2 = w)) \/
  (exists e, movement transactionData w = (Throw e, w)) \/
  (exists e account,
     Transaction.type t = "transfer" /\
     truthy_string (Transaction.toAccountId t) = true /\
     accounts w !! Transaction.accountId t = Some account /\
     is_Some (masterUser w) /\
     accounts w !! default "" (Transaction.toAccountId t) = None /\
     e = AccountNotFound /\
     movement transactionData w
     = (Throw e,
        balance_written (Transaction.accountId t) (- Transaction.amount t)
          account w)).
Proof.
  intros t. unfold movement. fold t.
  destruct (String.eqb (Transaction.type t) "income") eqn:Ei.
  { destruct (updateAccountBalance_cases (Transaction.accountId t)
                (Transaction.amount t) w)
      as [[Ha E]|(account & Ha & [[Hu E]|(user & Hu & E)])];
      unfold bind; rewrite E.
    - right. left. eauto.
    - right. left. eauto.
    - left. eexists. split; [reflexivity|]. split; [|eauto].
      eexists. split; [apply balance_written_once|].
      split; [intros k Hk; now apply balance_written_lookup_None|].
      intros k x Hk.
      destruct (balance_written_lookup _ (Transaction.amount t) _ _ k x
                  Ha Hk) as (x' & Hx' & Hbal).
      exists x'. split; [exact Hx'|]. rewrite Hbal.
      unfold movement_on. fold t. rewrite Ei. reflexivity. }
  destruct (String.eqb (Transaction.type t) "expense") eqn:Ee.
  { destruct (updateAccountBalance_cases (Transaction.accountId t)
                (- Transaction.amount t) w)
      as [[Ha E]|(account & Ha & [[Hu E]|(user & Hu & E)])];
      unfold bind; rewrite E.
    - right. left. eauto.
    - right. left. eauto.
    - left. eexists. split; [reflexivity|]. split; [|eauto].
      eexists. split; [apply balance_written_once|].
      split; [intros k Hk; now apply balance_written_lookup_None|].
      intros k x Hk.
      destruct (balance_written_lookup _ (- Transaction.amount t) _ _ k x
                  Ha Hk) as (x' & Hx' & Hbal).
      exists x'. split; [exact Hx'|]. rewrite Hbal.
      unfold movement_on. fold t. rewrite Ei, Ee. reflexivity. }
  destruct (String.eqb (Transaction.type t) "transfer") eqn:Et.
  2:{ left. exists w. split; [reflexivity|]. split; [|right; reflexivity].
      apply accounts_moved_none. intros k. unfold movement_on. fold t.
      rewrite Ei, Ee, Et. reflexivity. }
  destruct (truthy_string (TransactionData.toAccountId transactionData))
    eqn:Hto; [|right; left; eauto].
  destruct (updateAccountBalance_cases (Transaction.accountId t)
              (- Transaction.amount t) w)
    as [[Ha E]|(account & Ha & [[Hu E]|(user & Hu & E)])];
    unfold bind; rewrite E; [right; left; eauto..|].
  set (w1 := balance_written (Transaction.accountId t)
               (- Transaction.amount t) account w).
  set (to := default "" (TransactionData.toAccountId transactionData)).
  destruct (updateAccountBalance_cases to (Transaction.amount t) w1)
    as [[Hb E2]|(account2 & Hb & [[Hu2 E2]|(user2 & Hu2 & E2)])];
    rewrite E2.
  - right. right. exists AccountNotFound, account.
    apply String.eqb_eq in Et.
    split; [exact Et|]. split; [exact Hto|]. split; [exact Ha|].
    split; [eauto|]. split; [|split; reflexivity].
    subst w1. rewrite accounts_balance_written in Hb. fold to.
    destruct (decide (Transaction.accountId t = to)) as [Heq|Hne].
    + rewrite Heq, lookup_insert_eq in Hb. discriminate.
    + rewrite lookup_insert_ne in Hb by exact Hne. exact Hb.
  - subst w1. cbn in Hu2. congruence.
  - left. eexists. split; [reflexivity|]. split; [|eauto].
    eexists. split; [subst w1; apply balance_written_twice|].
    split.
    { intros k Hk. apply balance_written_lookup_None; [exact Hb|].
      apply balance_written_lookup_None; assumption. }
    intros k x Hk.
    destruct (balance_written_lookup _ (- Transaction.amount t) _ _ k x
                Ha Hk) as (x1 & Hx1 & Hbal1).
    fold w1 in Hx1.
    destruct (balance_written_lookup _ (Transaction.amount t) _ _ k x1
                Hb Hx1) as (x2 & Hx2 & Hbal2).
    exists x2. split; [exact Hx2|]. rewrite Hbal2, Hbal1.
    unfold movement_on. fold t. rewrite Ei, Ee, Et.
    assert (Hsome : Transaction.toAccountId t = Some to).
    { subst to t. cbn in Hto |- *.
      destruct (TransactionData.toAccountId transactionData);
        [reflexivity|discriminate]. }
    rewrite Hsome. lra.
Qed.

Lemma store_transaction_unauthenticated transactionData w :
  masterUser w = None ->
  (let* result := addDocument Transactions (transaction_of transactionData) in
   let* _ := auditLog "transaction" (id result) "create" in
   ret result) w
  = (Throw UserNotAuthenticated, w).
Proof. intros Hu. run. rewrite Hu. reflexivity. Qed.

(** Every outcome of [recordTransaction]. *)
Lemma recordTransaction_outcome transactionData w :
  let t := transaction_of transactionData in
  (exists user w2,
     missing transactionData = None /\
     masterUser w = Some user /\
     accounts_moved transactionData w w2 /\
     recordTransaction transactionData w
     = (Ok (transaction_doc transactionData user w),
        record_written transactionData user w2)) \/
  (exists e, recordTransaction transactionData w = (Throw e, w)) \/
  (exists account,
     missing transactionData = None /\
     Transaction.type t = "transfer" /\
     truthy_string (Transaction.toAccountId t) = true /\
     accounts w !! Transaction.accountId t = Some account /\
     accounts w !! default "" (Transaction.toAccountId t) = None /\
     recordTransaction transactionData w
     = (Throw AccountNotFound,
        balance_written (Transaction.accountId t) (- Transaction.amount t)
          account w)).
Proof.
  intros t. rewrite recordTransaction_eq, check_required_eq.
  destruct (missing transactionData) as [field|] eqn:Hmissing;
    [right; left; eauto|].
  destruct (movement_outcome transactionData w)
    as [(w2 & E & Hmoved & Huser)
       |[(e & E)|(e & account & Hty & Hto & Ha & _ & Hb & -> & E)]];
    rewrite E.
  - destruct (masterUser w) as [user|] eqn:Hu.
    + left. exists user, w2. split; [reflexivity|]. split; [reflexivity|].
      split; [exact Hmoved|].
      destruct Hmoved as (m & -> & _).
      rewrite (store_transaction transactionData user); [reflexivity|exact Hu].
    + right. left. destruct Huser as [[user Hsome]| ->]; [discriminate|].
      rewrite store_transaction_unauthenticated by exact Hu. eauto.
  - right. left. eauto.
  - right. right. exists account. split; [reflexivity|].
    repeat (split; [assumption|]). reflexivity.
Qed.

Lemma net_movement_app k log doc :
  (net_movement k (log ++ [doc])
   == net_movement k log + movement_on k (data doc))%Q.
Proof.
  induction log as [|d rest IH]; cbn; [lra|]. rewrite IH. lra.
Qed.

(** X10.  A successful [recordTransaction] keeps the books: if every
    balance is its opening balance plus the net movement of the stored
    transactions, the same holds afterwards, with the new record
    counted. *)
Theorem recordTransaction_keeps_ledger opening transactionData w record w' :
  ledger_consistent opening w ->
  recordTransaction transactionData w = (Ok record, w') ->
  ledger_consistent opening w'.
Proof.
  intros Hcons Hrun.
  destruct (recordTransaction_outcome transactionData w)
    as [(user & w2 & _ & _ & (m & -> & Hnone & Hmoved) & E)
       |[(e & E)|(account & _ & _ & _ & _ & _ & E)]];
    rewrite E in Hrun; try discriminate.
  injection Hrun as <- <-. intros k x' Hk. cbn in Hk.
  change (transactions (record_written transactionData user
                          (with_accounts m w)))
    with (transactions w ++ [transaction_doc transactionData user w])%list.
  rewrite net_movement_app.
  destruct (accounts w !! k) as [x|] eqn:Hold.
  - destruct (Hmoved k x Hold) as (x2 & Hx2 & Hbal).
    assert (x2 = x') by congruence. subst x2.
    rewrite Hbal, (Hcons k x Hold). cbn. lra.
  - rewrite (Hnone k Hold) in Hk. discriminate.
Qed.

Lemma recordTransaction_keeps_ledger_witness :
  ledger_consistent (fun k => if String.eqb k "A" then 100%Q else 0%Q)
    (recordTransaction (transfer_to "B") bank).2.
Proof.
  eapply (recordTransaction_keeps_ledger _ (transfer_to "B") bank).
  - intros k x Hk. cbn in Hk.
    destruct (decide (k = "A")) as [->|Hna].
    + rewrite lookup_insert_eq in Hk. injection Hk as <-. reflexivity.
    + rewrite lookup_insert_ne in Hk by congruence.
      destruct (decide (k = "B")) as [->|Hnb].
      * rewrite lookup_insert_eq in Hk. injection Hk as <-. reflexivity.
      * rewrite lookup_insert_ne, lookup_empty in Hk by congruence.
        discriminate.
  - vm_compute. reflexivity.
Defined.

(** X11.  Every successful [recordTransaction] stores the record it
    returns, marked completed, and one audit entry that names it (entity
    transaction, action create, the id of the record, the same user)
    under a different id; accounts are neither created nor removed, and
    products, customers and inventory logs are untouched. *)
Theorem recordTransaction_audit_trail transactionData w record w' :
  recordTransaction transactionData w = (Ok record, w') ->
  transactions w' = (transactions w ++ [record])%list /\
  data record = transaction_of transactionData /\
  Transaction.status (data record) = "completed" /\
  (exists entry : Doc AuditLog.t,
     audit_logs w' = (audit_logs w ++ [entry])%list /\
     AuditLog.entity (data entry) = "transaction" /\
     AuditLog.action (data entry) = "create" /\
     AuditLog.entityId (data entry) = id record /\
     AuditLog.userId (data entry) = userId record /\
     id entry <> id record) /\
  (forall k, accounts w' !! k = None <-> accounts w !! k = None) /\
  products w' = products w /\
  customers w' = customers w /\
  inventory_logs w' = inventory_logs w.
Proof.
  intros Hrun.
  destruct (recordTransaction_outcome transactionData w)
    as [(user & w2 & _ & _ & (m & -> & Hnone & Hmoved) & E)
       |[(e & E)|(account & _ & _ & _ & _ & _ & E)]];
    rewrite E in Hrun; try discriminate.
  injection Hrun as <- <-.
  split; [reflexivity|]. split; [reflexivity|]. split; [reflexivity|].
  split.
  - eexists. split; [reflexivity|]. cbn.
    repeat (split; [reflexivity|]).
    intros H. apply autoId_inj in H. lia.
  - split; [|repeat split; reflexivity].
    intros k. cbn. split; [|apply Hnone].
    intros Hk. destruct (accounts w !! k) as [x|] eqn:Hold; [|reflexivity].
    destruct (Hmoved k x Hold) as (x' & Hx' & _). congruence.
Qed.

Lemma recordTransaction_audit_trail_witness :
  exists record w' entry,
    recordTransaction (transfer_to "B") bank = (Ok record, w') /\
    transactions w' = [record] /\
    audit_logs w' = [entry] /\
    AuditLog.entityId (data entry) = id record /\
    id entry <> id record.
Proof.
  destruct (recordTransaction (transfer_to "B") bank) as [[record|e] w']
    eqn:Hrun; [|vm_compute in Hrun; discriminate].
  destruct (recordTransaction_audit_trail _ _ _ _ Hrun)
    as (Htx & _ & _ & (entry & Haudit & _ & _ & Hid & _ & Hne) & _).
  exists record, w', entry. split; [reflexivity|].
  split; [exact Htx|]. split; [exact Haudit|]. split; [exact Hid|exact Hne].
Defined.

(** Every throw of [recordTransaction] when the store accepts each write
    of a signed-in user: no record and no audit entry is stored, and the
    world is as before except for the transfer whose target is missing. *)
Lemma recordTransaction_throw_cases transactionData w e w' :
  recordTransaction transactionData w = (Throw e, w') ->
  transactions w' = transactions w /\
  audit_logs w' = audit_logs w /\
  (w' = w \/
   e = AccountNotFound /\
   exists accountId toAccountId amount account,
     TransactionData.type transactionData = Some "transfer" /\
     TransactionData.accountId transactionData = Some accountId /\
     TransactionData.toAccountId transactionData = Some toAccountId /\
     TransactionData.amount transactionData = Some amount /\
     accounts w !! accountId = Some account /\
     accounts w !! toAccountId = None /\
     w' = balance_written accountId (- amount) account w).
Proof.
  intros Hrun.
  destruct (recordTransaction_outcome transactionData w)
    as [(user & w2 & _ & _ & _ & E)
       |[(e' & E)|(account & Hpresent & Hty & Hto & Ha & Hb & E)]];
    rewrite E in Hrun; try discriminate.
  - injection Hrun as _ <-. auto.
  - injection Hrun as <- <-.
    split; [reflexivity|]. split; [reflexivity|]. right.
    split; [reflexivity|].
    apply missing_None in Hpresent.
    destruct Hpresent as (H1 & H2 & H3 & _).
    apply truthy_string_true in H1, H3, Hto.
    apply truthy_number_true in H2.
    destruct H1 as (ty & Hty1 & _), H2 as (amount & Ham & _),
      H3 as (acc & Hacc & _), Hto as (to & Hto1 & _).
    cbn in Hty, Ha, Hb, Hto1 |- *.
    rewrite Hty1 in Hty. rewrite Hacc in Ha. rewrite Hto1 in Hb.
    rewrite Ham, Hacc. cbn in Hty, Ha, Hb |- *. subst ty.
    exists acc, to, amount, account.
    repeat (split; [first [assumption|reflexivity]|]). reflexivity.
Qed.

(** X12.  The errors that [recordTransaction] raises itself, and what is
    written when each is thrown.  [Missing required field] and [Transfer
    requires toAccountId] are thrown before any write: the world is as
    before the call.  [Account not found] is thrown with no record and no
    audit entry stored, and with nothing written at all except in one
    case: a transfer whose source account exists and whose target does
    not, where the source is already debited. *)
Theorem recordTransaction_refusals transactionData w e w' :
  recordTransaction transactionData w = (Throw e, w') ->
  (kind e = ValidationError -> w' = w) /\
  (e = AccountNotFound ->
   transactions w' = transactions w /\
   audit_logs w' = audit_logs w /\
   (w' = w \/
    exists accountId toAccountId amount account,
      TransactionData.type transactionData = Some "transfer" /\
      TransactionData.accountId transactionData = Some accountId /\
      TransactionData.toAccountId transactionData = Some toAccountId /\
      TransactionData.amount transactionData = Some amount /\
      accounts w !! accountId = Some account /\
      accounts w !! toAccountId = None /\
      w' = balance_written accountId (- amount) account w)).
Proof.
  intros Hrun.
  destruct (recordTransaction_throw_cases _ _ _ _ Hrun)
    as (Htx & Haudit & [Hsame|[He Hhalf]]).
  - split; [intros _; exact Hsame|].
    intros _. split; [exact Htx|]. split; [exact Haudit|].
    left. exact Hsame.
  - split; [subst e; discriminate|].
    intros _. split; [exact Htx|]. split; [exact Haudit|].
    right. exact Hhalf.
Qed.

Lemma recordTransaction_refusals_witness :
  exists w',
    recordTransaction (transfer_to "C") bank = (Throw AccountNotFound, w') /\
    transactions w' = [] /\ audit_logs w' = [] /\
    w' = balance_written "A" (- 50) (account "Account A" 100) bank.
Proof.
  destruct (recordTransaction (transfer_to "C") bank) as [[record|e] w']
    eqn:Hrun; [vm_compute in Hrun; discriminate|].
  assert (e = AccountNotFound)
    by (vm_compute in Hrun; injection Hrun as <- _; reflexivity).
  subst e.
  destruct (recordTransaction_refusals _ _ _ _ Hrun) as [_ Hcase].
  destruct (Hcase eq_refl) as (Htx & Haudit & _).
  exists w'. split; [reflexivity|]. split; [exact Htx|].
  split; [exact Haudit|].
  vm_compute in Hrun. injection Hrun as <-. vm_compute. reflexivity.
Defined.

(** X13.  [recordTransaction] does not check the type: for a signed-in
    user and present required fields, a type other than income, expense
    and transfer stores the record and its audit entry without reading or
    changing any account, so even an [accountId] that names no account
    is accepted. *)
Theorem recordTransaction_unknown_type transactionData w user type :
  masterUser w = Some user ->
  missing transactionData = None ->
  TransactionData.type transactionData = Some type ->
  type <> "income" -> type <> "expense" -> type <> "transfer" ->
  exists record w',
    recordTransaction transactionData w = (Ok record, w') /\
    Transaction.type (data record) = type /\
    transactions w' = (transactions w ++ [record])%list /\
    accounts w' = accounts w.
Proof.
  intros Hu Hpresent Hty H1 H2 H3.
  assert (Hpresent' := Hpresent). apply missing_None in Hpresent'.
  destruct Hpresent' as (_ & Ham & Hacc & _).
  apply truthy_number_true in Ham. apply truthy_string_true in Hacc.
  destruct Ham as (amount & Ham & _), Hacc as (acc & Hacc & _).
  eexists. eexists. split.
  - eapply recordTransaction_other; eauto.
  - cbn. rewrite Hty. repeat split; reflexivity.
Qed.

Lemma recordTransaction_unknown_type_witness :
  exists record w',
    recordTransaction
      (TransactionData.mk (Some "refund") (Some 5%Q) (Some "nobody")
         (Some "Sales") None None) bank = (Ok record, w') /\
    Transaction.type (data record) = "refund" /\
    transactions w' = [record] /\
    accounts w' = accounts bank.
Proof.
  apply (recordTransaction_unknown_type
           (TransactionData.mk (Some "refund") (Some 5%Q) (Some "nobody")
              (Some "Sales") None None) bank owner "refund");
    first [reflexivity|discriminate].
Defined.

(** ** Customer credit: every outcome *)

(** X14.  The errors that [updateCustomerCredit] raises itself, and what
    is written when each is thrown.  [Customer not found] is thrown only
    for a customer that does not exist and [Credit limit exceeded] only
    for a new balance above a positive limit, both before any write: the
    world is as before the call.  The TypeError of a null
    [firebase.auth().currentUser] is thrown after the customer has been
    updated: the new balance is stored in [outstandingBalance] and
    [creditUsed], and no credit transaction is recorded. *)
Theorem updateCustomerCredit_refusals customerId amount type w e w' :
  updateCustomerCredit customerId amount type w = (Throw e, w') ->
  (e = CustomerNotFound -> customers w !! customerId = None /\ w' = w) /\
  (e = CreditLimitExceeded ->
   (exists customer,
      customers w !! customerId = Some customer /\
      (Customer.creditLimit customer
       < adjusted_balance customer amount type)%Q /\
      (0 < Customer.creditLimit customer)%Q) /\
   w' = w) /\
  (forall what,
     e = TypeError what ->
     exists customer customer',
       customers w !! customerId = Some customer /\
       defaultUser w = None /\
       w' = credit_persisted customerId
              (adjusted_balance customer amount type) customer w /\
       customers w' !! customerId = Some customer' /\
       Customer.outstandingBalance customer'
       = adjusted_balance customer amount type /\
       Customer.creditUsed customer'
       = adjusted_balance customer amount type /\
       credit_transactions w' = credit_transactions w).
Proof.
  rewrite updateCustomerCredit_eq.
  destruct (customers w !! customerId) as [customer|] eqn:Hc.
  2:{ intros [= <- <-]. split; [auto|]. split; [discriminate|].
      intros what [=]. }
  cbn zeta.
  destruct (over_limit customer (adjusted_balance customer amount type))
    eqn:Hover.
  { intros [= <- <-]. split; [discriminate|]. split.
    - intros _. split; [|reflexivity]. exists customer.
      unfold over_limit in Hover. apply andb_true_iff in Hover as [H1 H2].
      apply Qltb_lt in H1, H2. auto.
    - intros what [=]. }
  destruct (masterUser w) as [user|] eqn:Hu.
  2:{ intros [= <- <-]. split; [discriminate|]. split; [discriminate|].
      intros what [=]. }
  destruct (defaultUser w) as [sessionUser|] eqn:Hd; [discriminate|].
  intros [= <- <-]. split; [discriminate|]. split; [discriminate|].
  intros what _. exists customer. eexists.
  split; [reflexivity|]. split; [reflexivity|]. split; [reflexivity|].
  cbn. split; [apply lookup_insert_eq|]. repeat split.
Qed.

Lemma updateCustomerCredit_refusals_witness :
  let w :=
    mkWorld (Some owner) None 0 ∅ ∅ (<["c2" := customer 10 0]> ∅)
      [] [] [] [] [] [] [] None 16 in
  exists what w' customer',
    updateCustomerCredit "c2" 5 "increase" w = (Throw (TypeError what), w') /\
    credit_transactions w' = [] /\
    customers w' !! "c2" = Some customer' /\
    (Customer.outstandingBalance customer' == 15)%Q.
Proof.
  cbn zeta.
  destruct (updateCustomerCredit "c2" 5 "increase"
              (mkWorld (Some owner) None 0 ∅ ∅ (<["c2" := customer 10 0]> ∅)
                 [] [] [] [] [] [] [] None 16)) as [[n|e] w'] eqn:Hrun;
    [vm_compute in Hrun; discriminate|].
  assert (He : e = TypeError "currentUser.uid")
    by (vm_compute in Hrun; injection Hrun as <- _; reflexivity).
  subst e.
  destruct (updateCustomerCredit_refusals _ _ _ _ _ _ Hrun) as (_ & _ & Htype).
  destruct (Htype _ eq_refl)
    as (customer0 & customer' & Hc & _ & _ & Hc' & Hbalance & _ & Hlog).
  exists "currentUser.uid", w', customer'.
  split; [reflexivity|]. split; [exact Hlog|]. split; [exact Hc'|].
  rewrite Hbalance.
  assert (customer0 = customer 10 0)
    by (vm_compute in Hc; injection Hc as <-; reflexivity).
  subst customer0. reflexivity.
Defined.

(** X15.  The limit check of [updateCustomerCredit] applies to every
    type: a payment or a decrease that leaves the balance above a
    positive credit limit is refused with [Credit limit exceeded] and
    nothing is written, so a customer who is over the limit cannot pay
    off a part of the debt. *)
Theorem updateCustomerCredit_refuses_part_payment customerId amount type w
    customer :
  customers w !! customerId = Some customer ->
  type = "payment" \/ type = "decrease" ->
  (0 < Customer.creditLimit customer)%Q ->
  (Customer.creditLimit customer
   < Customer.outstandingBalance customer - amount)%Q ->
  updateCustomerCredit customerId amount type w
  = (Throw CreditLimitExceeded, w).
Proof.
  intros Hc Hty Hpos Hover.
  rewrite updateCustomerCredit_eq, Hc. cbn zeta.
  assert (Hadj : adjusted_balance customer amount type
                 = (Customer.outstandingBalance customer - amount)%Q).
  { unfold adjusted_balance. destruct Hty as [-> | ->]; cbn.
    - destruct (Qltb _ 0) eqn:E; [apply Qltb_lt in E; lra|reflexivity].
    - destruct (Qltb _ 0) eqn:E; [apply Qltb_lt in E; lra|reflexivity]. }
  rewrite Hadj. unfold over_limit.
  apply Qltb_lt in Hpos, Hover. rewrite Hpos, Hover. reflexivity.
Qed.

Lemma updateCustomerCredit_refuses_part_payment_witness :
  let w := with_customers (<["c3" := customer 150 100]> ∅) empty_world in
  updateCustomerCredit "c3" 10 "payment" w = (Throw CreditLimitExceeded, w).
Proof.
  cbn zeta.
  apply (updateCustomerCredit_refuses_part_payment "c3" 10 "payment" _
           (customer 150 100)); first [reflexivity|left; reflexivity].
Defined.

(** ** Purchase statistics *)

Lemma updateCustomerPurchaseStats_eq customerId amount w :
  updateCustomerPurchaseStats customerId amount w
  = match customers w !! customerId with
    | None => (Ok tt, w)
    | Some customer =>
        match masterUser w with
        | None => (Throw UserNotAuthenticated, w)
        | Some _ =>
            (Ok tt,
             with_customers
               (<[customerId :=
                    Customer.with_purchase
                      (Customer.totalPurchases customer + 1)%Q
                      (Customer.totalSpent customer + amount)%Q
                      (Customer.outstandingBalance customer) customer]>
                  (customers w))
               w)
        end
    end.
Proof.
  unfold updateCustomerPurchaseStats. run.
  destruct (customers w !! customerId) as [customer|] eqn:Hc;
    [|reflexivity].
  cbn. destruct (masterUser w); [|reflexivity]. cbn. rewrite Hc. reflexivity.
Qed.


(** A sale booked with [updateCustomerBalance] leaves [creditUsed]
    behind; the statistics of the next purchase bring it level again. *)
Example updateCustomerPurchaseStats_resync :
  let w1 := (updateCustomerBalance "c1" 5 "sale" ledger).2 in
  let w2 := (updateCustomerPurchaseStats "c1" 5 w1).2 in
  (Customer.creditUsed <$> customers w1 !! "c1") = Some 90%Q /\
  (Customer.creditUsed <$> customers w2 !! "c1") = Some (90 + 5)%Q.
Proof. vm_compute. split; reflexivity. Qed.

#[local] Arguments updateCustomerPurchaseStats : simpl never.

(** X17.  [recordPurchase] stores the purchase before it looks for the
    customer: for a signed-in user the purchase document is appended to
    the sales and returned even when the customer does not exist, and
    then no customer is changed. *)
Theorem recordPurchase_unknown_customer customerId amount items
    paymentMethod w user :
  masterUser w = Some user ->
  customers w !! customerId = None ->
  exists doc w',
    recordPurchase customerId amount items paymentMethod w = (Ok doc, w') /\
    sales w' = (sales w ++ [doc])%list /\
    data doc
    = Sale.Purchase customerId amount items
        (if String.eqb paymentMethod "" then "cash" else paymentMethod) /\
    customers w' = customers w.
Proof.
  intros Hu Hc. eexists. eexists. split.
  - unfold recordPurchase. unfold bind. unfold addDocument at 1. run.
    rewrite Hu. cbn. rewrite updateCustomerPurchaseStats_eq. cbn.
    rewrite Hc. reflexivity.
  - cbn. repeat split; reflexivity.
Qed.

Lemma recordPurchase_unknown_customer_witness :
  exists doc w',
    recordPurchase "ghost" 20 1 "" ledger = (Ok doc, w') /\
    sales w' = [doc] /\
    data doc = Sale.Purchase "ghost" 20 1 "cash" /\
    customers w' = customers ledger.
Proof.
  apply (recordPurchase_unknown_customer "ghost" 20 1 "" ledger owner);
    reflexivity.
Defined.


(** ** The cart *)

Lemma with_cart_same w : with_cart (cart w) w = w.
Proof. destruct w. reflexivity. Qed.

Lemma addToCart_eq productId quantity w :
  addToCart productId quantity w
  = match products w !! productId with
    | None => (Throw ProductNotFound, w)
    | Some product =>
        if Qltb (Product.stock product) quantity
        then (Throw (InsufficientStockAvailable (Product.stock product)), w)
        else (Ok (cart_added productId product quantity w),
              with_cart (cart_added productId product quantity w) w)
    end.
Proof.
  unfold addToCart, cart_added, line_of. run.
  destruct (products w !! productId) as [product|]; [|reflexivity].
  destruct (Qltb (Product.stock product) quantity); [reflexivity|]. cbn.
  destruct (in_cart productId (cart w)); reflexivity.
Qed.

Lemma removeFromCart_eq productId quantity w :
  removeFromCart productId quantity w
  = (Ok (cart_removed productId quantity w),
     with_cart (cart_removed productId quantity w) w).
Proof.
  unfold removeFromCart, cart_removed. run.
  destruct (in_cart productId (cart w)) as [item|].
  - destruct (truthy_number quantity && _); reflexivity.
  - cbn. rewrite with_cart_same. reflexivity.
Qed.

Lemma updateQuantity_eq productId quantity w :
  updateQuantity productId quantity w
  = (Ok (cart_requantified productId quantity w),
     with_cart (cart_requantified productId quantity w) w).
Proof.
  unfold updateQuantity, cart_requantified. unfold bind at 1. unfold get at 1.
  destruct (in_cart productId (cart w)) as [item|] eqn:Hin.
  - destruct (Qleb quantity 0).
    + unfold bind. rewrite removeFromCart_eq. cbn.
      unfold cart_removed. rewrite Hin. cbn. destruct w. reflexivity.
    + reflexivity.
  - cbn. rewrite with_cart_same. reflexivity.
Qed.

#[local] Arguments addToCart : simpl never.
#[local] Arguments removeFromCart : simpl never.
#[local] Arguments updateQuantity : simpl never.

Lemma in_cart_change_first productId f cart item :
  (forall x, CartItem.productId (f x) = CartItem.productId x) ->
  in_cart productId cart = Some item ->
  in_cart productId (change_first productId f cart) = Some (f item).
Proof.
  intros Hf. unfold in_cart.
  induction cart as [|x rest IH]; cbn; [discriminate|].
  destruct (String.eqb (CartItem.productId x) productId) eqn:E; cbn.
  - intros [= <-]. rewrite Hf, E. reflexivity.
  - rewrite E. exact IH.
Qed.

Lemma map_productId_change_first productId f cart :
  (forall x, CartItem.productId (f x) = CartItem.productId x) ->
  List.map CartItem.productId (change_first productId f cart)
  = List.map CartItem.productId cart.
Proof.
  intros Hf. induction cart as [|x rest IH]; cbn; [reflexivity|].
  destruct (String.eqb (CartItem.productId x) productId); cbn.
  - rewrite Hf. reflexivity.
  - rewrite IH. reflexivity.
Qed.

Lemma in_cart_None productId cart :
  in_cart productId cart = None <->
  ~ In productId (List.map CartItem.productId cart).
Proof.
  unfold in_cart. induction cart as [|x rest IH]; cbn.
  - split; auto.
  - destruct (String.eqb (CartItem.productId x) productId) eqn:E.
    + apply String.eqb_eq in E. split; [discriminate|]. intros H.
      exfalso. apply H. left. exact E.
    + apply String.eqb_neq in E. rewrite IH. split.
      * intros H [H1|H1]; contradiction.
      * intros H H1. apply H. right. exact H1.
Qed.

Lemma in_cart_Some productId cart item :
  in_cart productId cart = Some item ->
  In item cart /\ CartItem.productId item = productId.
Proof.
  unfold in_cart. intros H. apply List.find_some in H.
  destruct H as [H1 H2]. apply String.eqb_eq in H2. auto.
Qed.

Lemma remove_first_incl productId cart x :
  In x (remove_first productId cart) -> In x cart.
Proof.
  induction cart as [|y rest IH]; cbn; [auto|].
  destruct (String.eqb (CartItem.productId y) productId); cbn; [auto|].
  intros [H|H]; auto.
Qed.

Lemma remove_first_NoDup productId cart :
  NoDup (List.map CartItem.productId cart) ->
  NoDup (List.map CartItem.productId (remove_first productId cart)) /\
  ~ In productId (List.map CartItem.productId (remove_first productId cart)).
Proof.
  induction cart as [|y rest IH]; cbn; intros Hnd.
  - split; [constructor|auto].
  - apply NoDup_cons in Hnd. destruct Hnd as [Hy Hrest].
    destruct (String.eqb (CartItem.productId y) productId) eqn:E; cbn.
    + apply String.eqb_eq in E. subst productId. split; [exact Hrest|].
      intros H. apply Hy. apply list_elem_of_In. exact H.
    + apply String.eqb_neq in E. destruct (IH Hrest) as [IH1 IH2]. split.
      * apply NoDup_cons. split; [|exact IH1].
        intros H. apply Hy. apply list_elem_of_In in H.
        apply list_elem_of_In. apply in_map_iff in H.
        destruct H as (x & Hx & Hin). rewrite <- Hx. apply in_map.
        eapply remove_first_incl, Hin.
      * intros [H|H]; [contradiction|]. apply IH2, H.
Qed.

Lemma change_first_Forall_total productId f cart :
  (forall x,
     (CartItem.total (f x) == CartItem.price (f x) * CartItem.quantity (f x))%Q)
  ->
  Forall (fun item =>
            (CartItem.total item
             == CartItem.price item * CartItem.quantity item)%Q) cart ->
  Forall (fun item =>
            (CartItem.total item
             == CartItem.price item * CartItem.quantity item)%Q)
    (change_first productId f cart).
Proof.
  intros Hf. induction 1 as [|x rest Hx Hrest IH]; cbn; [constructor|].
  destruct (String.eqb (CartItem.productId x) productId);
    constructor; auto.
Qed.

Lemma remove_first_Forall (P : CartItem.t -> Prop) productId cart :
  Forall P cart -> Forall P (remove_first productId cart).
Proof.
  induction 1 as [|x rest Hx Hrest IH]; cbn; [constructor|].
  destruct (String.eqb (CartItem.productId x) productId);
    [exact Hrest|constructor; auto].
Qed.

(** X18.  The cart keeps its shape: if no product has two lines and every
    line's total is its price times its quantity, the same holds after
    [addToCart], [removeFromCart] and [updateQuantity], whatever their
    arguments and outcome. *)
Theorem cart_wf_kept w :
  cart_wf (cart w) ->
  (forall productId quantity r w',
     addToCart productId quantity w = (r, w') -> cart_wf (cart w')) /\
  (forall productId quantity r w',
     removeFromCart productId quantity w = (r, w') -> cart_wf (cart w')) /\
  (forall productId quantity r w',
     updateQuantity productId quantity w = (r, w') -> cart_wf (cart w')).
Proof.
  intros [Hnd Htot]. split; [|split].
  - intros productId quantity r w'. rewrite addToCart_eq.
    destruct (products w !! productId) as [product|].
    2:{ intros [= _ <-]. split; assumption. }
    destruct (Qltb (Product.stock product) quantity).
    { intros [= _ <-]. split; assumption. }
    intros [= _ <-]. cbn. unfold cart_added.
    destruct (in_cart productId (cart w)) as [item|] eqn:Hin.
    + split.
      * rewrite map_productId_change_first by reflexivity. exact Hnd.
      * apply change_first_Forall_total; [|exact Htot].
        intros x. cbn. lra.
    + split.
      * rewrite map_app. cbn. apply NoDup_app. split; [exact Hnd|].
        split; [|apply NoDup_singleton].
        intros x Hx Hx'. apply list_elem_of_In in Hx.
        apply list_elem_of_singleton in Hx'. subst x.
        apply in_cart_None in Hin. contradiction.
      * apply Forall_app. split; [exact Htot|].
        constructor; [cbn; lra|constructor].
  - intros productId quantity r w'. rewrite removeFromCart_eq.
    intros [= _ <-]. cbn. unfold cart_removed.
    destruct (in_cart productId (cart w)) as [item|];
      [|split; assumption].
    destruct (truthy_number quantity && _).
    + split.
      * rewrite map_productId_change_first by reflexivity. exact Hnd.
      * apply change_first_Forall_total; [|exact Htot].
        intros x. cbn. lra.
    + split; [apply remove_first_NoDup, Hnd|apply remove_first_Forall, Htot].
  - intros productId quantity r w'. rewrite updateQuantity_eq.
    intros [= _ <-]. cbn. unfold cart_requantified.
    destruct (in_cart productId (cart w)) as [item|];
      [|split; assumption].
    destruct (Qleb quantity 0).
    + split; [apply remove_first_NoDup, Hnd|apply remove_first_Forall, Htot].
    + split.
      * rewrite map_productId_change_first by reflexivity. exact Hnd.
      * apply change_first_Forall_total; [|exact Htot].
        intros x. cbn. lra.
Qed.

Lemma cart_wf_kept_witness :
  cart_wf (cart (shop 10)) /\
  cart_wf (cart (addToCart "p1" 2 (shop 10)).2) /\
  cart_wf
    (cart (addToCart "p1" 3 (addToCart "p1" 2 (shop 10)).2).2).
Proof.
  assert (H0 : cart_wf (cart (shop 10))).
  { split; constructor. }
  split; [exact H0|].
  destruct (cart_wf_kept (shop 10) H0) as [Hadd _].
  assert (H1 : cart_wf (cart (addToCart "p1" 2 (shop 10)).2)).
  { eapply Hadd. apply surjective_pairing. }
  split; [exact H1|].
  destruct (cart_wf_kept _ H1) as [Hadd' _].
  eapply Hadd'. apply surjective_pairing.
Defined.

(** X19.  [addToCart] for a product that already has a line compares the
    stock with the quantity being added only, adds it to the line and
    recomputes the total, and leaves the tax of the line as it was: the
    quantity in the cart may exceed the stock, and the tax no longer
    matches the total. *)
Theorem addToCart_existing_line productId quantity w product item :
  products w !! productId = Some product ->
  in_cart productId (cart w) = Some item ->
  (quantity <= Product.stock product)%Q ->
  exists cart' item',
    addToCart productId quantity w = (Ok cart', with_cart cart' w) /\
    length cart' = length (cart w) /\
    in_cart productId cart' = Some item' /\
    CartItem.quantity item' = (CartItem.quantity item + quantity)%Q /\
    CartItem.total item'
    = ((CartItem.quantity item + quantity) * CartItem.price item)%Q /\
    CartItem.taxAmount item' = CartItem.taxAmount item.
Proof.
  intros Hp Hin Hstock. apply Qltb_ge in Hstock.
  rewrite addToCart_eq, Hp, Hstock. unfold cart_added. rewrite Hin.
  eexists. eexists. split; [reflexivity|]. split.
  - rewrite <- (length_map CartItem.productId),
      map_productId_change_first by reflexivity.
    apply length_map.
  - split; [apply in_cart_change_first; [reflexivity|exact Hin]|].
    repeat split; reflexivity.
Qed.

Lemma addToCart_existing_line_witness :
  let w := with_cart [widget_line 8 12.8] (shop 10) in
  exists cart' item',
    addToCart "p1" 8 w = (Ok cart', with_cart cart' w) /\
    in_cart "p1" cart' = Some item' /\
    (CartItem.quantity item' == 16)%Q /\
    (CartItem.total item' == 160)%Q /\
    (CartItem.taxAmount item' == 12.8)%Q.
Proof.
  cbn zeta.
  destruct (addToCart_existing_line "p1" 8
              (with_cart [widget_line 8 12.8] (shop 10)) (widget 10)
              (widget_line 8 12.8))
    as (cart' & item' & Hrun & _ & Hin & Hq & Ht & Htax);
    [reflexivity|reflexivity|discriminate|].
  exists cart', item'. split; [exact Hrun|]. split; [exact Hin|].
  rewrite Hq, Ht, Htax. repeat split; reflexivity.
Defined.



Lemma in_cart_remove_first productId cart :
  NoDup (List.map CartItem.productId cart) ->
  in_cart productId (remove_first productId cart) = None.
Proof.
  intros Hnd. apply in_cart_None. apply remove_first_NoDup, Hnd.
Qed.

Lemma length_remove_first productId cart item :
  in_cart productId cart = Some item ->
  S (length (remove_first productId cart)) = length cart.
Proof.
  unfold in_cart. induction cart as [|x rest IH]; cbn; [discriminate|].
  destruct (String.eqb (CartItem.productId x) productId); cbn;
    [reflexivity|].
  intros H. rewrite (IH H). reflexivity.
Qed.

(** X21.  [removeFromCart] never throws.  For a product without a line
    the cart is unchanged.  For a product with a line, a quantity that is
    present, not 0 and under the quantity of the line is taken off the
    line, whose total and tax are computed afresh; in every other case
    (no quantity, quantity 0, or a quantity that is not under the one of
    the line) the whole line goes. *)
Theorem removeFromCart_effect productId quantity w :
  exists cart',
    removeFromCart productId quantity w = (Ok cart', with_cart cart' w) /\
    (in_cart productId (cart w) = None -> cart' = cart w) /\
    (forall item,
       in_cart productId (cart w) = Some item ->
       NoDup (List.map CartItem.productId (cart w)) ->
       (forall q,
          quantity = Some q -> ~ (q == 0)%Q ->
          (q < CartItem.quantity item)%Q ->
          length cart' = length (cart w) /\
          in_cart productId cart'
          = Some (reduce_quantity q (taxRate w) item)) /\
       (quantity = None \/
        (exists q, quantity = Some q /\
                   ((q == 0)%Q \/ (CartItem.quantity item <= q)%Q)) ->
        S (length cart') = length (cart w) /\
        in_cart productId cart' = None)).
Proof.
  eexists. split; [apply removeFromCart_eq|]. unfold cart_removed. split.
  - intros ->. reflexivity.
  - intros item Hin Hnd. rewrite Hin. split.
    + intros q -> Hq Hlt.
      assert (Ht : truthy_number (Some q) = true)
        by (apply truthy_number_true; eauto).
      apply Qltb_lt in Hlt. rewrite Ht.
      change (default 0%Q (Some q)) with q. rewrite Hlt.
      cbn [andb]. split.
      * rewrite <- (length_map CartItem.productId),
          map_productId_change_first by reflexivity.
        apply length_map.
      * apply in_cart_change_first; [reflexivity|exact Hin].
    + intros Hcase.
      assert (Hcond : truthy_number quantity
                      && Qltb (default 0%Q quantity) (CartItem.quantity item)
                      = false).
      { destruct Hcase as [->|(q & -> & [Hz|Hge])]; [reflexivity| |].
        - assert (truthy_number (Some q) = false) as ->; [|reflexivity].
          apply truthy_number_false. eauto.
        - apply andb_false_iff. right. now apply Qltb_ge. }
      rewrite Hcond. split.
      * apply (length_remove_first _ _ _ Hin).
      * apply in_cart_remove_first, Hnd.
Qed.

Lemma removeFromCart_effect_witness :
  let w := with_cart [widget_line 8 12.8] (shop 10) in
  (exists cart',
     removeFromCart "p1" (Some 3%Q) w = (Ok cart', with_cart cart' w) /\
     in_cart "p1" cart' = Some (reduce_quantity 3 16 (widget_line 8 12.8)))
  /\
  (exists cart',
     removeFromCart "p1" (Some 0%Q) w = (Ok cart', with_cart cart' w) /\
     in_cart "p1" cart' = None).
Proof.
  cbn zeta. split.
  - destruct (removeFromCart_effect "p1" (Some 3%Q)
                (with_cart [widget_line 8 12.8] (shop 10)))
      as (cart' & Hrun & _ & H).
    destruct (H (widget_line 8 12.8) eq_refl) as [Hless _].
    { repeat constructor. intros Hin. inversion Hin. }
    exists cart'. split; [exact Hrun|].
    apply (Hless 3%Q eq_refl); [discriminate|reflexivity].
  - destruct (removeFromCart_effect "p1" (Some 0%Q)
                (with_cart [widget_line 8 12.8] (shop 10)))
      as (cart' & Hrun & _ & H).
    destruct (H (widget_line 8 12.8) eq_refl) as [_ Hall].
    { repeat constructor. intros Hin. inversion Hin. }
    exists cart'. split; [exact Hrun|].
    apply Hall. right. exists 0%Q. split; [reflexivity|].
    left. reflexivity.
Defined.

(** X22.  [updateQuantity] never throws.  For a product with a line, a
    quantity above 0 becomes the quantity of the line, with the total and
    the tax of the line computed from it, so that a tax left behind by
    [addToCart] is put right; a quantity of 0 or less removes the line.
    For a product without a line the cart is unchanged. *)
Theorem updateQuantity_effect productId quantity w :
  exists cart',
    updateQuantity productId quantity w = (Ok cart', with_cart cart' w) /\
    (in_cart productId (cart w) = None -> cart' = cart w) /\
    (forall item,
       in_cart productId (cart w) = Some item ->
       NoDup (List.map CartItem.productId (cart w)) ->
       ((0 < quantity)%Q ->
        exists item',
          in_cart productId cart' = Some item' /\
          CartItem.quantity item' = quantity /\
          CartItem.total item' = (CartItem.price item * quantity)%Q /\
          CartItem.taxAmount item'
          = Tax.taxAmount
              (calculateTax (CartItem.total item') (taxRate w) false)) /\
       ((quantity <= 0)%Q -> in_cart productId cart' = None)).
Proof.
  eexists. split; [apply updateQuantity_eq|]. unfold cart_requantified.
  split.
  - intros ->. reflexivity.
  - intros item Hin Hnd. rewrite Hin. split.
    + intros Hpos.
      assert (Qleb quantity 0 = false) as ->.
      { destruct (Qleb quantity 0) eqn:E; [|reflexivity].
        apply Qleb_le in E. lra. }
      eexists. split; [apply in_cart_change_first; [reflexivity|exact Hin]|].
      repeat split; reflexivity.
    + intros Hle. apply Qleb_le in Hle. rewrite Hle.
      apply in_cart_remove_first, Hnd.
Qed.

Lemma updateQuantity_effect_witness :
  let w := with_cart [widget_line 16 12.8] (shop 10) in
  exists cart' item',
    updateQuantity "p1" 16 w = (Ok cart', with_cart cart' w) /\
    in_cart "p1" cart' = Some item' /\
    (CartItem.total item' == 160)%Q /\
    (CartItem.taxAmount item' == 25.6)%Q.
Proof.
  cbn zeta.
  destruct (updateQuantity_effect "p1" 16
              (with_cart [widget_line 16 12.8] (shop 10)))
    as (cart' & Hrun & _ & H).
  destruct (H (widget_line 16 12.8) eq_refl) as [Hpos _].
  { repeat constructor. intros Hin. inversion Hin. }
  destruct (Hpos eq_refl) as (item' & Hin & _ & Ht & Htax).
  exists cart', item'. split; [exact Hrun|]. split; [exact Hin|].
  rewrite Htax, Ht. split; reflexivity.
Defined.

Lemma summary_fold_sums cart :
  forall s,
    let s' := fold_left summary_step cart s in
    (Summary.subtotal s'
     == Summary.subtotal s + sum_of CartItem.total cart)%Q /\
    (Summary.tax s' == Summary.tax s + sum_of CartItem.taxAmount cart)%Q /\
    Summary.discount s' = Summary.discount s /\
    (Summary.itemCount s'
     == Summary.itemCount s + sum_of CartItem.quantity cart)%Q.
Proof.
  induction cart as [|item rest IH]; intros s; cbn zeta.
  - cbn. repeat split; lra.
  - destruct (IH (summary_step s item)) as (H1 & H2 & H3 & H4).
    cbn [fold_left sum_of]. cbn zeta in H1, H2, H3, H4.
    rewrite H1, H2, H3, H4. cbn.
    assert (Htax :
      ((if Qfalsy (CartItem.taxAmount item) then 0
        else CartItem.taxAmount item) == CartItem.taxAmount item)%Q).
    { destruct (Qfalsy (CartItem.taxAmount item)) eqn:E; [|reflexivity].
      apply Qfalsy_zero in E. rewrite E. reflexivity. }
    rewrite Htax. repeat split; lra.
Qed.

Lemma sum_of_total cart :
  Forall (fun item =>
            (CartItem.total item
             == CartItem.price item * CartItem.quantity item)%Q) cart ->
  (sum_of CartItem.total cart
   == sum_of (fun item => CartItem.price item * CartItem.quantity item)
        cart)%Q.
Proof.
  induction 1 as [|item rest Hitem _ IH]; cbn; [lra|].
  rewrite Hitem, IH. lra.
Qed.

(** X23.  The summary of a cart: the subtotal is the sum of the line
    totals, the tax the sum of the line taxes, the item count the sum of
    the quantities, the discount always 0, and the total the subtotal
    plus the tax.  When every line's total is price times quantity, the
    subtotal is the sum of price times quantity.  Computing the summary
    changes nothing. *)
Theorem cartSummary_sums w :
  let summary := cartSummary (cart w) in
  updateCartSummary w = (Ok summary, w) /\
  (Summary.subtotal summary == sum_of CartItem.total (cart w))%Q /\
  (Summary.tax summary == sum_of CartItem.taxAmount (cart w))%Q /\
  (Summary.itemCount summary == sum_of CartItem.quantity (cart w))%Q /\
  Summary.discount summary = 0%Q /\
  (Summary.total summary
   == sum_of CartItem.total (cart w)
      + sum_of CartItem.taxAmount (cart w))%Q /\
  (cart_wf (cart w) ->
   (Summary.subtotal summary
    == sum_of (fun item => CartItem.price item * CartItem.quantity item)
         (cart w))%Q).
Proof.
  destruct (summary_fold_sums (cart w) (Summary.mk 0 0 0 0 0))
    as (H1 & H2 & H3 & H4).
  cbn zeta in *. unfold cartSummary.
  cbn [Summary.subtotal Summary.tax Summary.discount Summary.total
       Summary.itemCount] in *.
  split; [reflexivity|]. split; [rewrite H1; lra|].
  split; [rewrite H2; lra|]. split; [rewrite H4; lra|].
  split; [exact H3|]. split; [rewrite H1, H2, H3; lra|].
  intros [_ Htot]. rewrite H1, (sum_of_total _ Htot). lra.
Qed.

(** ** Rounding and tax *)

Lemma half_up_bound y :
  (y - (1 # 2) < inject_Z (Qfloor (y + (1 # 2))))%Q /\
  (inject_Z (Qfloor (y + (1 # 2))) <= y + (1 # 2))%Q.
Proof.
  split.
  - pose proof (Qlt_floor (y + (1 # 2))) as H.
    rewrite inject_Z_plus in H. change (inject_Z 1) with 1%Q in H. lra.
  - apply Qfloor_le.
Qed.

Lemma toFixed2_bound x :
  (- (1 # 200) <= toFixed2 x - x)%Q /\ (toFixed2 x - x <= 1 # 200)%Q.
Proof.
  unfold toFixed2. destruct (Qltb x 0).
  - destruct (half_up_bound (- x * 100)) as [H1 H2].
    set (r := inject_Z (Qfloor (- x * 100 + (1 # 2)))) in *. clearbody r.
    unfold Qdiv. change (/ 100)%Q with (1 # 100)%Q. split; lra.
  - destruct (half_up_bound (x * 100)) as [H1 H2].
    set (r := inject_Z (Qfloor (x * 100 + (1 # 2)))) in *. clearbody r.
    unfold Qdiv. change (/ 100)%Q with (1 # 100)%Q. split; lra.
Qed.

Lemma toFixed2_cents x : exists n : Z, (toFixed2 x == inject_Z n / 100)%Q.
Proof.
  unfold toFixed2. destruct (Qltb x 0).
  - exists (- Qfloor (- x * 100 + (1 # 2)))%Z.
    rewrite inject_Z_opp. field.
  - eexists. reflexivity.
Qed.

(** X24.  [calculateTax] rounds each of its three figures to the cent on
    its own, numbers being exact.  With exclusive tax the net amount, the
    tax and the gross amount are whole numbers of cents, each at most
    half a cent from its exact value (amount, amount * rate / 100, and
    their sum); a value that lies halfway between two cents may go to
    either and stays within the bound.  The gross amount of the inclusive
    case is the amount rounded in the same way.  With inclusive tax and a
    rate other than -100, the tax and the net amount are whole numbers of
    cents at most half a cent from amount - amount / (1 + rate / 100) and
    from amount / (1 + rate / 100), so that they add up to the amount
    within one cent, and not always to the amount itself. *)
Theorem calculateTax_rounding amount rate :
  let exclusive := calculateTax amount rate false in
  let inclusive := calculateTax amount rate true in
  let near (x y : number) :=
    (- (1 # 200) <= x - y)%Q /\ (x - y <= 1 # 200)%Q in
  let cents (x : number) := exists n : Z, (x == inject_Z n / 100)%Q in
  (near (Tax.netAmount exclusive) amount /\
   cents (Tax.netAmount exclusive)) /\
  (near (Tax.taxAmount exclusive) (amount * (rate / 100))%Q /\
   cents (Tax.taxAmount exclusive)) /\
  (near (Tax.grossAmount exclusive) (amount + amount * (rate / 100))%Q /\
   cents (Tax.grossAmount exclusive)) /\
  (near (Tax.grossAmount inclusive) amount /\
   cents (Tax.grossAmount inclusive)) /\
  (~ (rate == -100)%Q ->
   (near (Tax.taxAmount inclusive)
      (amount - amount / (1 + rate / 100))%Q /\
    cents (Tax.taxAmount inclusive)) /\
   (near (Tax.netAmount inclusive) (amount / (1 + rate / 100))%Q /\
    cents (Tax.netAmount inclusive)) /\
   (- (1 # 100)
    <= Tax.netAmount inclusive + Tax.taxAmount inclusive - amount)%Q /\
   (Tax.netAmount inclusive + Tax.taxAmount inclusive - amount
    <= 1 # 100)%Q).
Proof.
  cbn zeta. unfold calculateTax.
  cbn [Tax.netAmount Tax.taxAmount Tax.grossAmount].
  split; [split; [apply toFixed2_bound|apply toFixed2_cents]|].
  split; [split; [apply toFixed2_bound|apply toFixed2_cents]|].
  split; [split; [apply toFixed2_bound|apply toFixed2_cents]|].
  split; [split; [apply toFixed2_bound|apply toFixed2_cents]|].
  intros _.
  split; [split; [apply toFixed2_bound|apply toFixed2_cents]|].
  set (share := (amount / (1 + rate / 100))%Q). clearbody share.
  destruct (toFixed2_bound (amount - (amount - share))) as [N1 N2].
  destruct (toFixed2_bound (amount - share)) as [T1 T2].
  split.
  - split; [|apply toFixed2_cents].
    set (n := toFixed2 (amount - (amount - share))) in *. clearbody n.
    split; lra.
  - set (n := toFixed2 (amount - (amount - share))) in *. clearbody n.
    set (t := toFixed2 (amount - share)) in *. clearbody t.
    split; lra.
Qed.

(** The inclusive figures need not add up: at rate 100 an amount of 0.01
    splits into a net amount of 0.01 and a tax of 0.01. *)
Example calculateTax_inclusive_split :
  (Tax.netAmount (calculateTax 0.01 100 true) == 0.01)%Q /\
  (Tax.taxAmount (calculateTax 0.01 100 true) == 0.01)%Q /\
  (Tax.grossAmount (calculateTax 0.01 100 true) == 0.01)%Q.
Proof. repeat split; reflexivity. Qed.

(** ** Checkout: every outcome *)

Lemma same_but_credit_refl w : same_but_credit w w.
Proof. repeat split. Qed.

Lemma getPaymentAccount_reads paymentMethod w :
  exists r, getPaymentAccount paymentMethod w = (Ok r, w).
Proof.
  unfold getPaymentAccount. run.
  destruct (String.eqb paymentMethod "Cash"); [eauto|].
  destruct (String.eqb paymentMethod "Card"
            || String.eqb paymentMethod "Bank Transfer"); [eauto|].
  destruct (String.eqb paymentMethod "Mobile Money"); eauto.
Qed.

#[local] Arguments getPaymentAccount : simpl never.

(** The income of a completed payment is never recorded: the call goes to
    a method that [FinanceManager] does not have. *)
Lemma record_income_throws {A} method (k : M A) amount w :
  (let* _ :=
     (let* accountId := getPaymentAccount method in
      let* _ := financeManager_recordTransaction
                  (TransactionData.mk (Some "income") (Some amount)
                     accountId (Some "Sales") None None) in
      ret tt) in k) w
  = (Throw (TypeError "financeManager.recordTransaction is not a function"),
     w).
Proof.
  destruct (getPaymentAccount_reads method w) as [r Hr].
  unfold bind. rewrite Hr. reflexivity.
Qed.

Lemma processPayment_outcome amount paymentData w :
  exists e w',
    processPayment amount paymentData w = (Throw e, w') /\
    same_but_credit w w' /\
    (PaymentData.method paymentData <> "Credit" -> w' = w) /\
    (forall current customer user sessionUser,
       PaymentData.method paymentData = "Credit" ->
       currentCustomer w = Some current ->
       customers w !! customer_id current = Some customer ->
       over_limit customer (adjusted_balance customer amount "increase")
       = false ->
       masterUser w = Some user -> defaultUser w = Some sessionUser ->
       e = TypeError "financeManager.recordTransaction is not a function" /\
       w' = credit_written (customer_id current) amount "increase" customer
              user sessionUser w).
Proof.
  unfold processPayment.
  destruct (String.eqb (PaymentData.method paymentData) "Cash") eqn:E1.
  { apply String.eqb_eq in E1. eexists. eexists. split.
    - unfold bind at 1. unfold ret at 1. cbn [Payment.status].
      cbn [String.eqb Ascii.eqb Bool.eqb]. apply record_income_throws.
    - split; [apply same_but_credit_refl|]. split; [reflexivity|].
      intros; congruence. }
  destruct (String.eqb (PaymentData.method paymentData) "Card") eqn:E2.
  { apply String.eqb_eq in E2. eexists. eexists. split.
    - unfold bind at 1. unfold ret at 1. cbn [Payment.status].
      cbn [String.eqb Ascii.eqb Bool.eqb]. apply record_income_throws.
    - split; [apply same_but_credit_refl|]. split; [reflexivity|].
      intros; congruence. }
  destruct (String.eqb (PaymentData.method paymentData) "Mobile Money")
    eqn:E3.
  { apply String.eqb_eq in E3. eexists. eexists. split.
    - unfold bind at 1. unfold ret at 1. cbn [Payment.status].
      cbn [String.eqb Ascii.eqb Bool.eqb]. apply record_income_throws.
    - split; [apply same_but_credit_refl|]. split; [reflexivity|].
      intros; congruence. }
  destruct (String.eqb (PaymentData.method paymentData) "Credit") eqn:E4.
  2:{ eexists. eexists. split; [reflexivity|].
      split; [apply same_but_credit_refl|]. split; [reflexivity|].
      apply String.eqb_neq in E4. intros; contradiction. }
  unfold bind at 1. unfold bind at 1. unfold get at 1.
  destruct (currentCustomer w) as [current|] eqn:Hcur.
  2:{ eexists. eexists. split; [reflexivity|].
      split; [apply same_but_credit_refl|]. split; [reflexivity|].
      intros; discriminate. }
  unfold bind at 1. rewrite updateCustomerCredit_eq.
  destruct (customers w !! customer_id current) as [customer|] eqn:Hc.
  2:{ eexists. eexists. split; [reflexivity|].
      split; [apply same_but_credit_refl|].
      split; [reflexivity|]. intros; congruence. }
  cbn zeta.
  destruct (over_limit customer (adjusted_balance customer amount "increase"))
    eqn:Hover.
  { eexists. eexists. split; [reflexivity|].
    split; [apply same_but_credit_refl|].
    split; [reflexivity|]. intros c0 cu0 u0 s0 _ [= <-] Hc0 Hov.
    congruence. }
  destruct (masterUser w) as [user|] eqn:Hu.
  2:{ eexists. eexists. split; [reflexivity|].
      split; [apply same_but_credit_refl|].
      split; [reflexivity|]. intros; discriminate. }
  destruct (defaultUser w) as [sessionUser|] eqn:Hd.
  2:{ eexists. eexists. split; [reflexivity|].
      split; [repeat split; assumption|].
      split; [intros Hne; apply String.eqb_eq in E4; contradiction|].
      intros; discriminate. }
  eexists. eexists. split.
  - unfold ret at 1. cbn [Payment.status].
    cbn [String.eqb Ascii.eqb Bool.eqb]. apply record_income_throws.
  - split; [repeat split; assumption|].
    split; [intros Hne; apply String.eqb_eq in E4; contradiction|].
    intros c0 cu0 u0 s0 _ [= <-] Hc0 _ [= <-] [= <-].
    assert (cu0 = customer) by congruence. subst cu0. split; reflexivity.
Qed.

#[local] Arguments processPayment : simpl never.

(** X25.  [processCheckout] never completes a sale: whatever the payment
    data and the world, it throws, and it leaves the accounts, the
    products, the transactions, the inventory logs, the sales, the
    receipts and the cart as they were.  For every payment method other
    than Credit the whole world is as before. *)
Theorem processCheckout_never_completes paymentData w :
  exists e w',
    processCheckout paymentData w = (Throw e, w') /\
    same_but_credit w w' /\
    (PaymentData.method paymentData <> "Credit" -> w' = w).
Proof.
  unfold processCheckout. unfold bind at 1. unfold get at 1.
  destruct (length (cart w) =? 0)%nat.
  { exists CartIsEmpty, w. split; [reflexivity|].
    split; [apply same_but_credit_refl|reflexivity]. }
  unfold bind at 1. unfold updateCartSummary at 1.
  assert (Hsteps : exists e w',
    checkout_steps (cartSummary (cart w)) paymentData w = (Throw e, w') /\
    same_but_credit w w' /\
    (PaymentData.method paymentData <> "Credit" -> w' = w)).
  { destruct (processPayment_outcome
                (Summary.total (cartSummary (cart w))) paymentData w)
      as (e & w' & Hpay & Hsame & Hother & _).
    exists e, w'. split; [|split; assumption].
    unfold checkout_steps. unfold bind at 1. rewrite Hpay. reflexivity. }
  destruct Hsteps as (e & w' & Hsteps & Hsame & Hother).
  destruct (currentCustomer w) as [current|].
  2:{ exists e, w'. split; [|split; assumption].
      unfold bind at 1. unfold ret at 1. exact Hsteps. }
  destruct (String.eqb (PaymentData.method paymentData) "Credit").
  2:{ exists e, w'. split; [|split; assumption].
      unfold bind at 1. unfold ret at 1. exact Hsteps. }
  unfold bind at 1. unfold bind at 1. unfold getDocument at 1.
  destruct (docs Customers w !! customer_id current) as [customer|].
  2:{ eexists. exists w. split; [reflexivity|].
      split; [apply same_but_credit_refl|reflexivity]. }
  unfold prop_of, bind at 1. unfold ret at 1.
  unfold bind at 1. unfold ret at 1.
  destruct (Qltb _ _).
  - eexists. exists w. split; [reflexivity|].
    split; [apply same_but_credit_refl|reflexivity].
  - exists e, w'. split; [|split; assumption]. exact Hsteps.
Qed.

(** X26.  A checkout on credit that passes the credit check charges the
    customer and then fails: with both sessions signed in and the new
    balance not over the limit, the customer's outstanding balance and
    [creditUsed] have grown by the total and a credit transaction has
    been recorded when the TypeError of the missing
    [financeManager.recordTransaction] is thrown; no sale is stored and
    no stock is taken. *)
Theorem processCheckout_credit_charged paymentData w current customer user
    sessionUser :
  cart w <> [] ->
  PaymentData.method paymentData = "Credit" ->
  currentCustomer w = Some current ->
  customers w !! customer_id current = Some customer ->
  masterUser w = Some user ->
  defaultUser w = Some sessionUser ->
  let total := Summary.total (cartSummary (cart w)) in
  (total <= Customer.creditLimit customer - Customer.creditUsed customer)%Q ->
  over_limit customer (Customer.outstandingBalance customer + total)%Q
  = false ->
  exists w' customer',
    processCheckout paymentData w
    = (Throw (TypeError "financeManager.recordTransaction is not a function"),
       w') /\
    customers w' !! customer_id current = Some customer' /\
    Customer.outstandingBalance customer'
    = (Customer.outstandingBalance customer + total)%Q /\
    Customer.creditUsed customer'
    = (Customer.outstandingBalance customer + total)%Q /\
    length (credit_transactions w') = S (length (credit_transactions w)) /\
    sales w' = sales w /\ products w' = products w /\
    transactions w' = transactions w /\ cart w' = cart w.
Proof.
  intros Hcart Hmethod Hcur Hc Hu Hd total Hguard Hover.
  assert (Hlen : (length (cart w) =? 0)%nat = false).
  { destruct (cart w); [contradiction|reflexivity]. }
  assert (Hpass : processCheckout paymentData w
                  = checkout_steps (cartSummary (cart w)) paymentData w).
  { apply Qltb_ge in Hguard. unfold processCheckout. run.
    rewrite Hlen, Hcur, Hmethod. cbn. rewrite Hc. cbn.
    fold total. rewrite Hguard. reflexivity. }
  rewrite Hpass. fold total.
  destruct (processPayment_outcome total paymentData w)
    as (e & w' & Hpay & _ & _ & Hcredit).
  destruct (Hcredit current customer user sessionUser Hmethod Hcur Hc)
    as [-> ->]; [exact Hover|exact Hu|exact Hd|].
  eexists. eexists. split.
  - unfold checkout_steps. unfold bind at 1. fold total. rewrite Hpay.
    reflexivity.
  - cbn. split; [apply lookup_insert_eq|]. cbn.
    split; [reflexivity|]. split; [reflexivity|].
    split; [rewrite length_app; cbn; lia|]. repeat split; reflexivity.
Qed.

(** Witness of X26: 10 outstanding of a limit of 100, one gadget in the
    cart. *)
Lemma processCheckout_credit_charged_witness :
  exists w' customer',
    processCheckout (PaymentData.mk "Credit" None) till_on_credit
    = (Throw (TypeError "financeManager.recordTransaction is not a function"),
       w') /\
    customers w' !! "c1" = Some customer' /\
    Customer.outstandingBalance customer'
    = (10 + Summary.total (cartSummary (cart till_on_credit)))%Q /\
    Customer.creditUsed customer'
    = (10 + Summary.total (cartSummary (cart till_on_credit)))%Q /\
    length (credit_transactions w') = 1%nat /\
    sales w' = [] /\ products w' = products till_on_credit /\
    transactions w' = [] /\ cart w' = cart till_on_credit.
Proof.
  apply (processCheckout_credit_charged (PaymentData.mk "Credit" None)
           till_on_credit (mkCustomerRef "c1" "Customer") (customer 10 100)
           owner owner).
  - vm_compute. discriminate.
  - reflexivity.
  - reflexivity.
  - reflexivity.
  - reflexivity.
  - reflexivity.
  - vm_compute. discriminate.
  - reflexivity.
Defined.

(** ** Taking the cart out of the stock *)

Lemma updateInventory_eq w :
  updateInventory w = forEach (cart w) sale_line w.
Proof. reflexivity. Qed.

Lemma sale_line_cases item w :
  (exists e, sale_line item w = (Throw e, w)) \/
  (exists product user,
     products w !! CartItem.productId item = Some product /\
     masterUser w = Some user /\
     (0 <= Product.stock product + - CartItem.quantity item)%Q /\
     sale_line item w
     = (Ok tt,
        stock_written (CartItem.productId item) (- CartItem.quantity item)
          "sale" (Some "POS Sale") product user w)).
Proof.
  unfold sale_line, bind.
  destruct (updateStock_cases (CartItem.productId item)
              (- CartItem.quantity item)%Q "sale" (Some "POS Sale") w)
    as [[_ ->]|(product & Hp & [[_ ->]|[(_ & _ & ->)|(Hge & user & Hu & ->)]])].
  - left. eauto.
  - left. eauto.
  - left. eauto.
  - right. exists product, user. repeat split; assumption.
Qed.

Lemma forEach_sale_lines items : forall w r w',
  forEach items sale_line w = (r, w') ->
  exists done,
    match r with
    | Ok _ => done = items
    | Throw _ => exists item rest, items = (done ++ item :: rest)%list
    end /\
    (forall productId product,
       products w !! productId = Some product ->
       exists product',
         products w' !! productId = Some product' /\
         (Product.stock product'
          == Product.stock product - sold productId done)%Q) /\
    length (inventory_logs w')
    = (length (inventory_logs w) + length done)%nat /\
    cart w' = cart w /\ masterUser w' = masterUser w.
Proof.
  induction items as [|item items IH]; intros w r w' Hrun.
  - cbn in Hrun. injection Hrun as <- <-. exists []. split; [reflexivity|].
    split.
    + intros productId product Hp. exists product. split; [exact Hp|].
      cbn. ring.
    + cbn. repeat split. lia.
  - cbn [forEach] in Hrun. unfold bind at 1 in Hrun.
    destruct (sale_line_cases item w)
      as [[e He]|(product & user & Hp & Hu & Hge & Hok)].
    + rewrite He in Hrun. injection Hrun as <- <-. exists []. split.
      { exists item, items. reflexivity. }
      split.
      * intros productId product Hp. exists product. split; [exact Hp|].
        cbn. ring.
      * cbn. repeat split. lia.
    + rewrite Hok in Hrun.
      destruct (IH _ _ _ Hrun) as (done & Hdone & Hstock & Hlogs & Hcart & Hm).
      exists (item :: done). split.
      { destruct r as [[]|e].
        - now subst done.
        - destruct Hdone as (item' & rest & ->). exists item', rest.
          reflexivity. }
      split.
      * intros productId product0 Hp0.
        destruct (String.eqb_spec (CartItem.productId item) productId)
          as [Heq|Hne].
        -- subst productId. assert (product0 = product) by congruence.
           subst product0.
           destruct (Hstock (CartItem.productId item)
                       (Product.with_stock
                          (Product.stock product + - CartItem.quantity item)
                          (Qleb (Product.stock product
                                 + - CartItem.quantity item)
                             (Product.reorderLevel product)) product))
             as (product' & Hp' & Hs').
           { cbn. apply lookup_insert_eq. }
           exists product'. split; [exact Hp'|].
           rewrite Hs'. cbn. rewrite String.eqb_refl. ring.
        -- destruct (Hstock productId product0) as (product' & Hp' & Hs').
           { cbn. rewrite lookup_insert_ne by exact Hne. exact Hp0. }
           exists product'. split; [exact Hp'|].
           rewrite Hs'. cbn.
           destruct (String.eqb_spec (CartItem.productId item) productId);
             [contradiction|]. ring.
      * rewrite Hlogs, Hcart, Hm. cbn. rewrite length_app. cbn.
        repeat split. lia.
Qed.



Lemma in_stock_after item product user w items :
  CartItem.productId item ∉ List.map CartItem.productId items ->
  in_stock w items ->
  in_stock
    (stock_written (CartItem.productId item) (- CartItem.quantity item)
       "sale" (Some "POS Sale") product user w) items.
Proof.
  unfold in_stock. induction items as [|next items IH]; intros Hnot Hall.
  - constructor.
  - inversion Hall as [|? ? (product0 & Hp0 & Hq0) Hrest]; subst.
    cbn in Hnot. apply not_elem_of_cons in Hnot as [Hne Hnot].
    constructor.
    + exists product0. split; [|exact Hq0]. cbn.
      rewrite lookup_insert_ne by exact Hne. exact Hp0.
    + apply IH; assumption.
Qed.

Lemma forEach_sale_lines_ok items : forall w user,
  masterUser w = Some user ->
  NoDup (List.map CartItem.productId items) ->
  in_stock w items ->
  exists w', forEach items sale_line w = (Ok tt, w').
Proof.
  induction items as [|item items IH]; intros w user Hu Hnodup Hall.
  - exists w. reflexivity.
  - inversion Hall as [|? ? (product & Hp & Hq) Hrest]; subst.
    cbn in Hnodup. apply NoDup_cons in Hnodup as [Hnot Hnodup].
    cbn [forEach]. unfold bind at 1.
    destruct (sale_line_cases item w)
      as [[e He]|(product0 & user0 & Hp0 & Hu0 & Hge & Hok)].
    + exfalso. unfold sale_line, bind in He.
      rewrite (updateStock_ok _ _ _ _ _ product user Hp Hu) in He
        by lra.
      discriminate.
    + rewrite Hok.
      apply (IH _ user0); [exact Hu0|exact Hnodup|].
      apply in_stock_after; assumption.
Qed.

(** X28.  With the master session signed in, no product on two lines and
    every line's quantity in stock, [updateInventory] returns: no line
    fails, so the whole cart is taken out of the stock. *)
Theorem updateInventory_returns w user :
  masterUser w = Some user ->
  NoDup (List.map CartItem.productId (cart w)) ->
  in_stock w (cart w) ->
  exists w',
    updateInventory w = (Ok tt, w') /\
    forall productId product,
      products w !! productId = Some product ->
      exists product',
        products w' !! productId = Some product' /\
        (Product.stock product'
         == Product.stock product - sold productId (cart w))%Q.
Proof.
  intros Hu Hnodup Hall.
  destruct (forEach_sale_lines_ok _ _ _ Hu Hnodup Hall) as [w' Hrun].
  exists w'. rewrite updateInventory_eq. split; [exact Hrun|].
  destruct (forEach_sale_lines _ _ _ _ Hrun) as (done & -> & Hstock & _).
  exact Hstock.
Qed.

Lemma updateInventory_returns_witness :
  exists w',
    updateInventory till_with_cart = (Ok tt, w') /\
    forall productId product,
      products till_with_cart !! productId = Some product ->
      exists product',
        products w' !! productId = Some product' /\
        (Product.stock product'
         == Product.stock product - sold productId (cart till_with_cart))%Q.
Proof.
  apply (updateInventory_returns till_with_cart owner).
  - reflexivity.
  - vm_compute. repeat constructor. intros H. inversion H.
  - vm_compute. repeat constructor. exists gadget.
    split; [reflexivity|]. vm_compute. discriminate.
Defined.

(** ** The account of a payment *)

Lemma first_account_spec (m : gmap string Account.t) :
  (fst <$> head (map_to_list m) = None <-> m = ∅) /\
  (forall id, fst <$> head (map_to_list m) = Some id -> is_Some (m !! id)).
Proof.
  destruct (map_to_list m) as [|[k a] rest] eqn:E; cbn.
  - split; [|discriminate]. split; [|reflexivity].
    intros _. now apply map_to_list_empty_iff.
  - assert (Hk : m !! k = Some a).
    { apply elem_of_map_to_list. rewrite E. left. }
    split.
    + split; [discriminate|]. intros ->. rewrite lookup_empty in Hk.
      discriminate.
    + intros id [= <-]. eauto.
Qed.

Lemma named_account_spec word (m : gmap string Account.t) :
  let r := match List.find (fun a => default_for word a.2) (map_to_list m)
           with
           | Some a => Some a.1
           | None => fst <$> head (map_to_list m)
           end in
  (r = None <-> m = ∅) /\
  (forall id, r = Some id -> is_Some (m !! id)) /\
  ((exists id account,
      m !! id = Some account /\ default_for word account = true) ->
   exists id account,
     r = Some id /\ m !! id = Some account /\
     default_for word account = true).
Proof.
  destruct (List.find _ _) as [[k a]|] eqn:E; cbn.
  - apply find_some in E as [Hin Hdef]. cbn in Hdef.
    apply list_elem_of_In, elem_of_map_to_list in Hin.
    split.
    + split; [discriminate|]. intros ->. rewrite lookup_empty in Hin.
      discriminate.
    + split; [intros id [= <-]; eauto|].
      intros _. exists k, a. repeat split; assumption.
  - destruct (first_account_spec m) as [Hnone Hsome].
    split; [exact Hnone|]. split; [exact Hsome|].
    intros (id & account & Hid & Hdef). exfalso.
    assert (Hin : In (id, account) (map_to_list m)).
    { apply list_elem_of_In, elem_of_map_to_list. exact Hid. }
    apply (find_none _ _ E) in Hin. cbn in Hin. congruence.
Qed.

(** X29.  [getPaymentAccount] only reads.  It returns no account exactly
    when the store has none; an id it returns is the id of a stored
    account; and when the method is Cash, Card, Bank Transfer or Mobile
    Money and some default account carries the method's word (cash, bank,
    mobile) in its name, the account returned is such an account. *)
Theorem getPaymentAccount_chooses paymentMethod w :
  exists r,
    getPaymentAccount paymentMethod w = (Ok r, w) /\
    (r = None <-> accounts w = ∅) /\
    (forall id, r = Some id -> is_Some (accounts w !! id)) /\
    (forall word,
       account_word paymentMethod = Some word ->
       (exists id account,
          accounts w !! id = Some account /\
          default_for word account = true) ->
       exists id account,
         r = Some id /\ accounts w !! id = Some account /\
         default_for word account = true).
Proof.
  unfold getPaymentAccount, account_word. run.
  destruct (String.eqb paymentMethod "Cash").
  { eexists. split; [reflexivity|].
    destruct (named_account_spec "cash" (accounts w)) as (H1 & H2 & H3).
    split; [exact H1|]. split; [exact H2|]. intros word [= <-]. exact H3. }
  destruct (String.eqb paymentMethod "Card"
            || String.eqb paymentMethod "Bank Transfer").
  { eexists. split; [reflexivity|].
    destruct (named_account_spec "bank" (accounts w)) as (H1 & H2 & H3).
    split; [exact H1|]. split; [exact H2|]. intros word [= <-]. exact H3. }
  destruct (String.eqb paymentMethod "Mobile Money").
  { eexists. split; [reflexivity|].
    destruct (named_account_spec "mobile" (accounts w)) as (H1 & H2 & H3).
    split; [exact H1|]. split; [exact H2|]. intros word [= <-]. exact H3. }
  eexists. split; [reflexivity|].
  destruct (first_account_spec (accounts w)) as [H1 H2].
  split; [exact H1|]. split; [exact H2|]. intros word [=].
Qed.

(** ** Transfers *)

Lemma find_account_loaded (m : gmap string Account.t) id :
  find_account (map_to_list m) id = (fun a => (id, a)) <$> m !! id.
Proof.
  unfold find_account.
  destruct (List.find _ _) as [[k a]|] eqn:E.
  - apply find_some in E as [Hin Heq]. cbn in Heq.
    apply String.eqb_eq in Heq. subst k.
    apply list_elem_of_In, elem_of_map_to_list in Hin.
    rewrite Hin. reflexivity.
  - destruct (m !! id) as [a|] eqn:Hid; [|reflexivity]. exfalso.
    assert (Hin : In (id, a) (map_to_list m)).
    { apply list_elem_of_In, elem_of_map_to_list. exact Hid. }
    apply (find_none _ _ E) in Hin. cbn in Hin.
    rewrite String.eqb_refl in Hin. discriminate.
Qed.

(** X30.  [transferFunds] on accounts just loaded from the store.  A
    non-positive amount, an unknown account on either side and a balance
    under the amount are each refused before anything is written.  A
    transfer that passes these checks, between two different accounts
    with non-empty ids and with the master session signed in, returns the
    stored transfer: the source balance is lower by the amount and not
    negative, the target balance is higher by the amount, and the
    transfer is the one record added to the transactions. *)
Theorem transferFunds_guarded loaded fromAccountId toAccountId amount w :
  loadAccounts w = (Ok loaded, w) ->
  ((amount <= 0)%Q ->
   transferFunds loaded fromAccountId toAccountId amount w
   = (Thrown TransferAmountMustBePositive, w)) /\
  ((0 < amount)%Q ->
   accounts w !! fromAccountId = None \/ accounts w !! toAccountId = None ->
   transferFunds loaded fromAccountId toAccountId amount w
   = (Thrown OneOrBothAccountsNotFound, w)) /\
  (forall fromAccount,
     (0 < amount)%Q ->
     accounts w !! fromAccountId = Some fromAccount ->
     is_Some (accounts w !! toAccountId) ->
     (Account.balance fromAccount < amount)%Q ->
     transferFunds loaded fromAccountId toAccountId amount w
     = (Thrown InsufficientFundsForTransfer, w)) /\
  (forall fromAccount toAccount user,
     (0 < amount)%Q ->
     accounts w !! fromAccountId = Some fromAccount ->
     accounts w !! toAccountId = Some toAccount ->
     (amount <= Account.balance fromAccount)%Q ->
     fromAccountId <> toAccountId ->
     fromAccountId <> "" -> toAccountId <> "" ->
     masterUser w = Some user ->
     exists stored w' fromAccount' toAccount',
       transferFunds loaded fromAccountId toAccountId amount w
       = (Returned stored, w') /\
       accounts w' !! fromAccountId = Some fromAccount' /\
       accounts w' !! toAccountId = Some toAccount' /\
       (Account.balance fromAccount'
        == Account.balance fromAccount - amount)%Q /\
       (0 <= Account.balance fromAccount')%Q /\
       (Account.balance toAccount'
        == Account.balance toAccount + amount)%Q /\
       transactions w' = (transactions w ++ [stored])%list /\
       Transaction.type (data stored) = "transfer" /\
       (Transaction.amount (data stored) == amount)%Q).
Proof.
  intros Hload. unfold loadAccounts, getDocuments in Hload.
  injection Hload as <-. cbn [docs Accounts].
  unfold transferFunds. rewrite !find_account_loaded.
  split; [|split; [|split]].
  - intros Hle. apply Qleb_le in Hle. rewrite Hle. reflexivity.
  - intros Hpos Hnone.
    assert (Hle : Qleb amount 0 = false).
    { destruct (Qleb amount 0) eqn:E; [|reflexivity].
      apply Qleb_le in E. lra. }
    rewrite Hle. destruct Hnone as [-> | ->]; cbn; [reflexivity|].
    destruct (accounts w !! fromAccountId); reflexivity.
  - intros fromAccount Hpos Hfrom [toAccount Hto] Hlt.
    assert (Hle : Qleb amount 0 = false).
    { destruct (Qleb amount 0) eqn:E; [|reflexivity].
      apply Qleb_le in E. lra. }
    rewrite Hle, Hfrom, Hto. cbn. apply Qltb_lt in Hlt. rewrite Hlt.
    reflexivity.
  - intros fromAccount toAccount user Hpos Hfrom Hto Hge Hne Hf Ht Hu.
    assert (Hle : Qleb amount 0 = false).
    { destruct (Qleb amount 0) eqn:E; [|reflexivity].
      apply Qleb_le in E. lra. }
    rewrite Hle, Hfrom, Hto. cbn [fmap option_fmap option_map snd].
    pose proof Hge as Hge'. apply Qltb_ge in Hge'. cbn. rewrite Hge'.
    set (transactionData :=
           TransactionData.mk (Some "transfer") (Some amount)
             (Some fromAccountId) (Some "Account Transfer")
             (Some toAccountId) None).
    assert (Hpresent : missing transactionData = None).
    { apply missing_None. split; [reflexivity|]. split.
      - apply truthy_number_true. exists amount. split; [reflexivity|]. lra.
      - split; [|reflexivity]. apply truthy_string_true.
        exists fromAccountId. split; [reflexivity|exact Hf]. }
    rewrite (recordTransaction_transfer transactionData w user "transfer"
               fromAccountId amount Hu Hpresent eq_refl eq_refl eq_refl
               toAccountId fromAccount toAccount eq_refl eq_refl Ht Hfrom).
    2:{ cbn. rewrite lookup_insert_ne by exact Hne. exact Hto. }
    eexists. eexists. eexists. eexists. split; [reflexivity|].
    cbn. split.
    { rewrite lookup_insert_ne by congruence. apply lookup_insert_eq. }
    split; [apply lookup_insert_eq|]. cbn.
    split; [lra|]. split; [lra|]. split; [lra|].
    split; [reflexivity|]. split; [reflexivity|]. lra.
Qed.

Lemma transferFunds_guarded_witness :
  let loaded := map_to_list (accounts bank) in
  transferFunds loaded "A" "B" 0 bank
  = (Thrown TransferAmountMustBePositive, bank) /\
  transferFunds loaded "A" "C" 50 bank
  = (Thrown OneOrBothAccountsNotFound, bank) /\
  transferFunds loaded "A" "B" 150 bank
  = (Thrown InsufficientFundsForTransfer, bank) /\
  exists stored w' fromAccount' toAccount',
    transferFunds loaded "A" "B" 50 bank = (Returned stored, w') /\
    accounts w' !! "A" = Some fromAccount' /\
    accounts w' !! "B" = Some toAccount' /\
    (Account.balance fromAccount' == 50)%Q /\
    (Account.balance toAccount' == 50)%Q.
Proof.
  intros loaded.
  assert (Hload : loadAccounts bank = (Ok loaded, bank)) by reflexivity.
  split.
  { destruct (transferFunds_guarded loaded "A" "B" 0 bank Hload)
      as (Hzero & _). apply Hzero. vm_compute. discriminate. }
  split.
  { destruct (transferFunds_guarded loaded "A" "C" 50 bank Hload)
      as (_ & Hunknown & _).
    apply Hunknown; [reflexivity|right; reflexivity]. }
  split.
  { destruct (transferFunds_guarded loaded "A" "B" 150 bank Hload)
      as (_ & _ & Hshort & _).
    apply (Hshort (account "Account A" 100));
      [reflexivity|reflexivity|eexists; reflexivity|reflexivity]. }
  destruct (transferFunds_guarded loaded "A" "B" 50 bank Hload)
    as (_ & _ & _ & Hdone).
  destruct (Hdone (account "Account A" 100) (account "Account B" 0) owner)
    as (stored & w' & fromAccount' & toAccount' & Hrun & HA & HB & Hfrom
        & _ & Hto & _);
    [reflexivity|reflexivity|reflexivity|vm_compute; discriminate
    |discriminate|discriminate|discriminate|reflexivity|].
  exists stored, w', fromAccount', toAccount'.
  split; [exact Hrun|]. split; [exact HA|]. split; [exact HB|].
  split; [rewrite Hfrom; reflexivity|rewrite Hto; reflexivity].
Defined.
